(** * Bird_Blocker: the risk-scoring and action-planning engine of [app.py]

    A shallow embedding of the engine of [src/app.py] (time-to-conflict
    estimation, risk banding, action planning, input hashing) and the
    properties of its specification.

    Numbers are Python [float]s, that is IEEE 754 binary64 values: they are
    modelled by Rocq's primitive floats, whose operations are specified by
    [SpecFloat] through [FloatAxioms].  Exceptions are an error result, the
    logger is a writer, and the interpreter's library functions the engine
    calls ([float.__pow__], [format], [repr], [hashlib.sha256]) are section
    variables.

    A query reaches the engine already built; the checks the models run
    when they are constructed (a detection's timestamp against the clock,
    the altitude floor of the aircraft, the range of a detection's
    confidence) are embedded with the validators.  A timestamp is naive or
    aware: it carries what its [utcoffset()] returns. *)

From Stdlib Require Import ZArith Lia List String Ascii Bool Floats Permutation.
Import ListNotations.

Set Warnings "-inexact-float,-notation-for-abbreviation,-register-all".

(** ** The Python run time the engine relies on *)

Module Py.

(** The exceptions the engine's code can raise. *)
Inductive exn : Type :=
| OverflowError      (* a float power whose result is out of range *)
| ValueError         (* a float power on which the C library sets another errno *)
| TypeError          (* comparing the complex result of a power with a float *)
| ZeroDivisionError  (* float division by zero *)
| ValidationError.   (* a pydantic model refusing a field value *)

Inductive result (A : Type) : Type :=
| Ok (a : A)
| Raise (e : exn).
Arguments Ok {A} a.
Arguments Raise {A} e.

(** A value of a log record's [extra] dictionary. *)
Inductive log_value : Type :=
| LStr (s : string)
| LFloat (f : float).

(** One call of [logger.info(msg, extra=...)]. *)
Record log_record : Type := mk_log {
  log_msg : string;
  log_extra : list (string * log_value)
}.

(** Computations that log and may raise: the records logged so far and the
    outcome.  What was logged before an exception stays logged. *)
Definition M (A : Type) : Type := (list log_record * result A)%type.

Definition ret {A : Type} (a : A) : M A := ([], Ok a).

Definition raise {A : Type} (e : exn) : M A := ([], Raise e).

Definition lift {A : Type} (r : result A) : M A := ([], r).

Definition bind {A B : Type} (m : M A) (k : A -> M B) : M B :=
  match m with
  | (l, Ok a) => let (l', r) := k a in (l ++ l', r)
  | (l, Raise e) => (l, Raise e)
  end.

Definition logger_info (msg : string) (extra : list (string * log_value)) : M unit :=
  ([mk_log msg extra], Ok tt).

(** The outcome of a computation, its log apart. *)
Definition outcome {A : Type} (m : M A) : result A := snd m.

(** [for x in l: s = body(s, x)] *)
Fixpoint for_each {A S : Type} (body : S -> A -> M S) (l : list A) (s : S) : M S :=
  match l with
  | [] => ret s
  | x :: l' => bind (body s x) (for_each body l')
  end.

(** The comparison operators of two floats, and the builtins [max] and [min]
    at two arguments: [max(a, b)] is [b] when [b > a] and [a] otherwise,
    [min(a, b)] is [b] when [b < a] and [a] otherwise. *)
Definition lt (a b : float) : bool := PrimFloat.ltb a b.
Definition gt (a b : float) : bool := PrimFloat.ltb b a.
Definition ge (a b : float) : bool := PrimFloat.leb b a.
Definition le (a b : float) : bool := PrimFloat.leb a b.

Definition max (a b : float) : float := if gt b a then b else a.
Definition min (a b : float) : float := if lt b a then b else a.

(** [a / b] on floats. *)
Definition truediv (a b : float) : M float :=
  if PrimFloat.eqb b 0%float then raise ZeroDivisionError
  else ret (PrimFloat.div a b).

End Py.

Import Py.

Declare Scope py_scope.
Delimit Scope py_scope with py.
Notation "x <- m ;; k" := (bind m (fun x => k))
  (at level 61, m at next level, right associativity) : py_scope.
Notation "m ;;; k" := (bind m (fun _ => k))
  (at level 61, right associativity) : py_scope.

(** ** Service metadata and configuration *)

Definition ENGINE_VERSION : string := "0.2.0".

Module RiskConfig.
Record t : Type := mk {
  version : string;
  distance_threshold_m : float;
  min_ttc_s : float;
  max_ttc_s : float;
  ttc_low_threshold_s : float;
  ttc_medium_threshold_s : float;
  ttc_high_threshold_s : float;
  prob_presence_only : float;
  prob_low : float;
  prob_medium : float;
  prob_high : float;
  prob_critical : float
}.
End RiskConfig.
Notation RiskConfig := RiskConfig.t.

Definition RISK_CONFIG : RiskConfig :=
  {| RiskConfig.version := "2025-11-30-a";
     RiskConfig.distance_threshold_m := 500.0;
     RiskConfig.min_ttc_s := 5.0;
     RiskConfig.max_ttc_s := 120.0;
     RiskConfig.ttc_low_threshold_s := 60.0;
     RiskConfig.ttc_medium_threshold_s := 30.0;
     RiskConfig.ttc_high_threshold_s := 10.0;
     RiskConfig.prob_presence_only := 0.05;
     RiskConfig.prob_low := 0.10;
     RiskConfig.prob_medium := 0.30;
     RiskConfig.prob_high := 0.60;
     RiskConfig.prob_critical := 0.80 |}.

(** ** Domain models *)

Module Coord3D.
Record t : Type := mk { x : float; y : float; z : float }.
End Coord3D.
Notation Coord3D := Coord3D.t.

Module Velocity3D.
Record t : Type := mk { vx : float; vy : float; vz : float }.
End Velocity3D.
Notation Velocity3D := Velocity3D.t.

(** A [datetime.datetime], field by field.  [utcoffset] is what
    [d.utcoffset()] returns: [None] for a naive datetime, as
    [datetime.utcnow()] is, and for an aware one the offset of its time zone
    from UTC, in microseconds. *)
Module datetime.
Record t : Type := mk {
  year : Z; month : Z; day : Z;
  hour : Z; minute : Z; second : Z; microsecond : Z;
  utcoffset : option Z
}.
End datetime.
Notation datetime := datetime.t.

Module BirdDetection.
Record t : Type := mk {
  id : string;
  position : Coord3D;
  velocity : Velocity3D;
  timestamp : datetime;
  confidence : float
}.
End BirdDetection.
Notation BirdDetection := BirdDetection.t.

Module AircraftState.
Record t : Type := mk {
  callsign : string;
  position : Coord3D;
  velocity : Velocity3D;
  heading_deg : float;
  altitude_agl_m : float;
  timestamp : datetime
}.
End AircraftState.
Notation AircraftState := AircraftState.t.

Module RiskLevel.
Inductive t : Type := NONE | LOW | MEDIUM | HIGH | CRITICAL.

(** The enumeration's [value]. *)
Definition value (l : t) : string :=
  match l with
  | NONE => "NONE"
  | LOW => "LOW"
  | MEDIUM => "MEDIUM"
  | HIGH => "HIGH"
  | CRITICAL => "CRITICAL"
  end.
End RiskLevel.
Notation RiskLevel := RiskLevel.t.

Module ActionType.
Inductive t : Type :=
| MAINTAIN | SLOW_DOWN | CLIMB | DESCEND
| TURN_LEFT | TURN_RIGHT | HOLD | ABORT_MISSION.
End ActionType.
Notation ActionType := ActionType.t.

Module RiskAssessment.
Record t : Type := mk {
  risk_level : RiskLevel;
  collision_probability : float;
  time_to_conflict_s : option float;
  most_threatening_bird_id : option string;
  rationale : string;
  decision_id : string;
  input_hash : string;
  engine_version : string;
  config_version : string
}.

(** The constraint [Field(ge=0.0, le=1.0)] of [collision_probability]. *)
Definition collision_probability_ok (p : float) : bool :=
  Py.ge p 0.0 && Py.le p 1.0.

(** The model's constructor, which refuses a [collision_probability]
    outside its constraint. *)
Definition init (risk_level : RiskLevel) (collision_probability : float)
    (time_to_conflict_s : option float) (most_threatening_bird_id : option string)
    (rationale decision_id input_hash engine_version config_version : string)
    : M t :=
  if collision_probability_ok collision_probability
  then ret (mk risk_level collision_probability time_to_conflict_s
               most_threatening_bird_id rationale decision_id input_hash
               engine_version config_version)
  else raise ValidationError.
End RiskAssessment.
Notation RiskAssessment := RiskAssessment.t.

Module ActionRecommendation.
Record t : Type := mk {
  action : ActionType;
  urgency : RiskLevel;
  rationale : string;
  requires_human_approval : bool
}.
End ActionRecommendation.
Notation ActionRecommendation := ActionRecommendation.t.

Module RiskQuery.
Record t : Type := mk {
  aircraft : AircraftState;
  birds : list BirdDetection
}.
End RiskQuery.
Notation RiskQuery := RiskQuery.t.

(** ** Rendering of timestamps

    [str(d)] of a [datetime] is [d.isoformat(sep=' ')]:
    [YYYY-MM-DD HH:MM:SS], followed by [.ffffff] when the microseconds are
    not zero, and for an aware datetime by its offset from UTC, [+HH:MM],
    with [:SS] when the offset has seconds and [.ffffff] when it has
    microseconds. *)

Definition digit (n : Z) : ascii := ascii_of_nat (48 + Z.to_nat (n mod 10)).

(** The [width] low decimal digits of [n], as [%0<width>d] prints a field
    that fits. *)
Fixpoint zfill (width : nat) (n : Z) (acc : string) : string :=
  match width with
  | O => acc
  | S w => zfill w (n / 10) (String (digit n) acc)
  end.

Definition format_offset (off : option Z) : string :=
  match off with
  | None => ""
  | Some off =>
      let sign := if (off <? 0)%Z then "-" else "+" in
      let off := Z.abs off in
      let hh := (off / 3600000000)%Z in
      let mm := (off mod 3600000000 / 60000000)%Z in
      let ss := (off mod 60000000 / 1000000)%Z in
      let us := (off mod 1000000)%Z in
      sign ++ zfill 2 hh "" ++ ":" ++ zfill 2 mm ""
      ++ (if (us =? 0)%Z
          then if (ss =? 0)%Z then "" else ":" ++ zfill 2 ss ""
          else ":" ++ zfill 2 ss "" ++ "." ++ zfill 6 us "")
  end%string.

Definition datetime_isoformat_sep (sep : string) (d : datetime) : string :=
  (zfill 4 (datetime.year d) "" ++ "-" ++ zfill 2 (datetime.month d) "" ++ "-"
   ++ zfill 2 (datetime.day d) "" ++ sep
   ++ zfill 2 (datetime.hour d) "" ++ ":" ++ zfill 2 (datetime.minute d) "" ++ ":"
   ++ zfill 2 (datetime.second d) ""
   ++ (if (datetime.microsecond d =? 0)%Z then ""
       else "." ++ zfill 6 (datetime.microsecond d) "")
   ++ format_offset (datetime.utcoffset d))%string.

Definition datetime_str (d : datetime) : string := datetime_isoformat_sep " " d.

(** ** Python objects as [json.dumps] sees them *)

Inductive pyobj : Type :=
| PyFloat (f : float)
| PyStr (s : string)
| PyDatetime (d : datetime)
| PyList (l : list pyobj)
| PyDict (items : list (string * pyobj)).

(** [sorted] on the items of a dictionary, whose keys are strings and
    distinct: a stable insertion sort by key. *)
Fixpoint insert_item {V : Type} (kv : string * V) (l : list (string * V))
  : list (string * V) :=
  match l with
  | [] => [kv]
  | kv' :: l' =>
      if String.leb (fst kv) (fst kv') then kv :: l
      else kv' :: insert_item kv l'
  end.

Definition sorted_items {V : Type} (l : list (string * V)) : list (string * V) :=
  fold_right insert_item [] l.

(** [model.dict()] of the pydantic models: the fields in declaration order,
    nested models converted in turn. *)
Definition Coord3D_dict (c : Coord3D) : pyobj :=
  PyDict [("x", PyFloat (Coord3D.x c));
          ("y", PyFloat (Coord3D.y c));
          ("z", PyFloat (Coord3D.z c))]%string.

Definition Velocity3D_dict (v : Velocity3D) : pyobj :=
  PyDict [("vx", PyFloat (Velocity3D.vx v));
          ("vy", PyFloat (Velocity3D.vy v));
          ("vz", PyFloat (Velocity3D.vz v))]%string.

Definition BirdDetection_dict (b : BirdDetection) : pyobj :=
  PyDict [("id", PyStr (BirdDetection.id b));
          ("position", Coord3D_dict (BirdDetection.position b));
          ("velocity", Velocity3D_dict (BirdDetection.velocity b));
          ("timestamp", PyDatetime (BirdDetection.timestamp b));
          ("confidence", PyFloat (BirdDetection.confidence b))]%string.

Definition AircraftState_dict (a : AircraftState) : pyobj :=
  PyDict [("callsign", PyStr (AircraftState.callsign a));
          ("position", Coord3D_dict (AircraftState.position a));
          ("velocity", Velocity3D_dict (AircraftState.velocity a));
          ("heading_deg", PyFloat (AircraftState.heading_deg a));
          ("altitude_agl_m", PyFloat (AircraftState.altitude_agl_m a));
          ("timestamp", PyDatetime (AircraftState.timestamp a))]%string.

Definition RiskQuery_dict (q : RiskQuery) : pyobj :=
  PyDict [("aircraft", AircraftState_dict (RiskQuery.aircraft q));
          ("birds", PyList (map BirdDetection_dict (RiskQuery.birds q)))]%string.

Local Open Scope py_scope.

Section Engine.

(** [float.__pow__] on two floats: the C library's [pow], with
    [OverflowError] when the result is out of range. *)
Variable float_pow : float -> float -> result float.

(** [format(x, ".1f")]. *)
Variable format_1f : float -> string.

(** How [json] renders a float: [float.__repr__], and [NaN], [Infinity],
    [-Infinity]. *)
Variable floatstr : float -> string.

(** How [json] renders a string: quoted, escaped, ASCII only. *)
Variable encode_basestring_ascii : string -> string.

(** [hashlib.sha256(data).hexdigest()]. *)
Variable sha256_hexdigest : string -> string.

(** *** Core helpers *)

(** [json.dumps(o, sort_keys=True, default=str)]: the items of a dictionary
    are emitted in the order of their keys; a [datetime], which [json] cannot
    serialise, goes through [default] and is emitted as the string [str(d)].
    The separators are the defaults, [", "] and [": "]. *)
Fixpoint json_dumps (o : pyobj) : string :=
  match o with
  | PyFloat f => floatstr f
  | PyStr s => encode_basestring_ascii s
  | PyDatetime d => encode_basestring_ascii (datetime_str d)
  | PyList l => "[" ++ String.concat ", " (map json_dumps l) ++ "]"
  | PyDict items =>
      "{" ++ String.concat ", "
               (map (fun kv => encode_basestring_ascii (fst kv) ++ ": " ++ snd kv)
                    (sorted_items
                       (map (fun kv => let '(k, v) := kv in (k, json_dumps v)) items)))
          ++ "}"
  end%string.

(** The output of [json.dumps] is ASCII, so [.encode("utf-8")] leaves its
    bytes as they are. *)
Definition compute_input_hash (query : RiskQuery) : string :=
  let encoded := json_dumps (RiskQuery_dict query) in
  sha256_hexdigest encoded.

(** Lines 211-215: the norm of the relative velocity. *)
Definition relative_speed (aircraft : AircraftState) (bird : BirdDetection) : M float :=
  let relative_vx :=
    (Velocity3D.vx (AircraftState.velocity aircraft)
     - Velocity3D.vx (BirdDetection.velocity bird))%float in
  let relative_vy :=
    (Velocity3D.vy (AircraftState.velocity aircraft)
     - Velocity3D.vy (BirdDetection.velocity bird))%float in
  let relative_vz :=
    (Velocity3D.vz (AircraftState.velocity aircraft)
     - Velocity3D.vz (BirdDetection.velocity bird))%float in
  sx <- lift (float_pow relative_vx 2) ;;
  sy <- lift (float_pow relative_vy 2) ;;
  sz <- lift (float_pow relative_vz 2) ;;
  lift (float_pow (sx + sy + sz) 0.5).

(** Lines 219-222: the distance between the two positions. *)
Definition distance (aircraft : AircraftState) (bird : BirdDetection) : M float :=
  let dx :=
    (Coord3D.x (AircraftState.position aircraft)
     - Coord3D.x (BirdDetection.position bird))%float in
  let dy :=
    (Coord3D.y (AircraftState.position aircraft)
     - Coord3D.y (BirdDetection.position bird))%float in
  let dz :=
    (Coord3D.z (AircraftState.position aircraft)
     - Coord3D.z (BirdDetection.position bird))%float in
  sx <- lift (float_pow dx 2) ;;
  sy <- lift (float_pow dy 2) ;;
  sz <- lift (float_pow dz 2) ;;
  lift (float_pow (sx + sy + sz) 0.5).

Definition estimate_time_to_conflict
    (aircraft : AircraftState) (bird : BirdDetection) (config : RiskConfig)
    : M (option float) :=
  relative_speed <- relative_speed aircraft bird ;;
  if Py.lt relative_speed 1e-3 then ret None
  else
    distance <- distance aircraft bird ;;
    (* Only consider birds within the configured 3D radius. *)
    if Py.gt distance (RiskConfig.distance_threshold_m config) then ret None
    else
      (* Very crude TTC estimate: current distance / relative speed. *)
      raw_ttc <- Py.truediv distance relative_speed ;;
      (* Clamp into a band. *)
      let ttc :=
        Py.max (RiskConfig.min_ttc_s config)
               (Py.min (RiskConfig.max_ttc_s config) raw_ttc) in
      ret (Some ttc).

(** Lines 308-320: the risk band of a time to conflict and its nominal
    probability. *)
Definition ttc_band (config : RiskConfig) (best_ttc : float) : RiskLevel * float :=
  if Py.ge best_ttc (RiskConfig.ttc_low_threshold_s config) then
    (RiskLevel.LOW, RiskConfig.prob_low config)
  else if Py.ge best_ttc (RiskConfig.ttc_medium_threshold_s config) then
    (RiskLevel.MEDIUM, RiskConfig.prob_medium config)
  else if Py.ge best_ttc (RiskConfig.ttc_high_threshold_s config) then
    (RiskLevel.HIGH, RiskConfig.prob_high config)
  else
    (RiskLevel.CRITICAL, RiskConfig.prob_critical config).

(** Lines 274-281: one turn of the loop over the birds, on the variables
    [best_ttc] and [best_bird]. *)
Definition track_best (aircraft : AircraftState) (config : RiskConfig)
    (best : option float * option BirdDetection) (b : BirdDetection)
    : M (option float * option BirdDetection) :=
  ttc <- estimate_time_to_conflict aircraft b config ;;
  match ttc with
  | None => ret best
  | Some ttc =>
      if match fst best with
         | None => true
         | Some best_ttc => Py.lt ttc best_ttc
         end
      then ret (Some ttc, Some b)
      else ret best
  end.

(** [decision_id] stands for [str(uuid.uuid4())], the fresh token the call
    draws. *)
Definition evaluate_risk (decision_id : string) (query : RiskQuery)
    (config : RiskConfig) : M RiskAssessment :=
  let input_hash := compute_input_hash query in
  match RiskQuery.birds query with
  | [] =>
      let rationale := "No birds in current surveillance volume."%string in
      logger_info "risk_decision"
        [("decision_id", LStr decision_id);
         ("risk_level", LStr (RiskLevel.value RiskLevel.NONE));
         ("collision_probability", LFloat 0.0);
         ("reason", LStr rationale)]%string ;;;
      RiskAssessment.init RiskLevel.NONE 0.0 None None rationale
        decision_id input_hash ENGINE_VERSION (RiskConfig.version config)
  | _ :: _ =>
      best <- for_each (track_best (RiskQuery.aircraft query) config)
                (RiskQuery.birds query) (None, None) ;;
      match best with
      | (Some best_ttc, Some best_bird) =>
          (* Risk mapping from TTC to discrete risk band. *)
          let '(level, prob) := ttc_band config best_ttc in
          let rationale :=
            ("Closest projected conflict with bird " ++ BirdDetection.id best_bird
             ++ " in ~" ++ format_1f best_ttc ++ "s "
             ++ "using linear relative motion and heuristic TTC risk bands.")%string in
          logger_info "risk_decision"
            [("decision_id", LStr decision_id);
             ("risk_level", LStr (RiskLevel.value level));
             ("collision_probability", LFloat prob);
             ("time_to_conflict_s", LFloat best_ttc);
             ("most_threatening_bird_id", LStr (BirdDetection.id best_bird))]%string ;;;
          RiskAssessment.init level prob (Some best_ttc)
            (Some (BirdDetection.id best_bird)) rationale
            decision_id input_hash ENGINE_VERSION (RiskConfig.version config)
      | _ =>
          let rationale :=
            "Birds present but no projected near-term conflicts within configured thresholds."%string in
          logger_info "risk_decision"
            [("decision_id", LStr decision_id);
             ("risk_level", LStr (RiskLevel.value RiskLevel.LOW));
             ("collision_probability", LFloat (RiskConfig.prob_presence_only config));
             ("reason", LStr rationale)]%string ;;;
          RiskAssessment.init RiskLevel.LOW (RiskConfig.prob_presence_only config)
            None None rationale
            decision_id input_hash ENGINE_VERSION (RiskConfig.version config)
      end
  end.

End Engine.

(** The planner depends on no library function. *)
Definition plan_action (assessment : RiskAssessment) : ActionRecommendation :=
  match RiskAssessment.risk_level assessment with
  | RiskLevel.NONE | RiskLevel.LOW =>
      ActionRecommendation.mk ActionType.MAINTAIN
        (RiskAssessment.risk_level assessment)
        "Risk is NONE/LOW. Maintain current trajectory with monitoring."
        false
  | RiskLevel.MEDIUM =>
      ActionRecommendation.mk ActionType.SLOW_DOWN RiskLevel.MEDIUM
        "Medium near-term risk. Recommend speed reduction and altitude review."
        true
  | RiskLevel.HIGH =>
      ActionRecommendation.mk ActionType.TURN_RIGHT RiskLevel.HIGH
        "High risk of conflict. Recommend lateral deviation away from threat vector."
        true
  | RiskLevel.CRITICAL =>
      ActionRecommendation.mk ActionType.ABORT_MISSION RiskLevel.CRITICAL
        "Critical near-term conflict predicted. Recommend immediate abort / escape."
        true
  end.

(** ** Validators of the domain models *)

(** The proleptic Gregorian ordinal of a date and the microseconds a
    datetime's fields count, with which [datetime] subtracts. *)
Definition is_leap (year : Z) : bool :=
  ((year mod 4 =? 0) && (negb (year mod 100 =? 0) || (year mod 400 =? 0)))%Z.

Definition days_before_year (year : Z) : Z :=
  let y := (year - 1)%Z in (y * 365 + y / 4 - y / 100 + y / 400)%Z.

Definition days_in_month (year month : Z) : Z :=
  if (month =? 2)%Z then (if is_leap year then 29%Z else 28%Z)
  else if ((month =? 4) || (month =? 6) || (month =? 9) || (month =? 11))%Z
       then 30%Z else 31%Z.

Definition days_before_month (year month : Z) : Z :=
  (nth (Z.to_nat month) [0; 0; 31; 59; 90; 120; 151; 181; 212; 243; 273; 304; 334] 0
   + if (2 <? month) && is_leap year then 1 else 0)%Z.

Definition ymd_to_ord (year month day : Z) : Z :=
  (days_before_year year + days_before_month year month + day)%Z.

Definition datetime_microseconds (d : datetime) : Z :=
  ((ymd_to_ord (datetime.year d) (datetime.month d) (datetime.day d) * 86400
    + datetime.hour d * 3600 + datetime.minute d * 60 + datetime.second d)
   * 1000000 + datetime.microsecond d)%Z.

(** The fields a [datetime] can have. *)
Definition datetime_valid (d : datetime) : bool :=
  ((1 <=? datetime.year d) && (datetime.year d <=? 9999)
   && (1 <=? datetime.month d) && (datetime.month d <=? 12)
   && (1 <=? datetime.day d)
   && (datetime.day d <=? days_in_month (datetime.year d) (datetime.month d))
   && (0 <=? datetime.hour d) && (datetime.hour d <? 24)
   && (0 <=? datetime.minute d) && (datetime.minute d <? 60)
   && (0 <=? datetime.second d) && (datetime.second d <? 60)
   && (0 <=? datetime.microsecond d) && (datetime.microsecond d <? 1000000)
   && match datetime.utcoffset d with
      | None => true
      | Some off => (-86400000000 <? off) && (off <? 86400000000)
      end)%Z.

(** [a > b] and [a == b] on datetimes.  Two naive datetimes, and two aware
    ones with the same offset, are compared field by field, from the year to
    the microsecond; two aware ones with different offsets by the sign of
    [a - b], which takes the offsets into account; a naive and an aware one
    are not equal, and ordering them raises [TypeError].  A time zone is a
    fixed offset, as those of [datetime.timezone] are. *)
Definition datetime_fields (d : datetime) : list Z :=
  [datetime.year d; datetime.month d; datetime.day d;
   datetime.hour d; datetime.minute d; datetime.second d;
   datetime.microsecond d].

Fixpoint fields_gt (a b : list Z) : bool :=
  match a, b with
  | x :: a', y :: b' => (y <? x)%Z || ((x =? y)%Z && fields_gt a' b')
  | _, _ => false
  end.

Fixpoint fields_eq (a b : list Z) : bool :=
  match a, b with
  | x :: a', y :: b' => (x =? y)%Z && fields_eq a' b'
  | [], [] => true
  | _, _ => false
  end.

Definition datetime_gt (a b : datetime) : result bool :=
  match datetime.utcoffset a, datetime.utcoffset b with
  | None, None => Ok (fields_gt (datetime_fields a) (datetime_fields b))
  | Some offset_a, Some offset_b =>
      if (offset_a =? offset_b)%Z
      then Ok (fields_gt (datetime_fields a) (datetime_fields b))
      else Ok (datetime_microseconds b - offset_b
               <? datetime_microseconds a - offset_a)%Z
  | _, _ => Raise TypeError
  end.

Definition datetime_eq (a b : datetime) : bool :=
  match datetime.utcoffset a, datetime.utcoffset b with
  | None, None => fields_eq (datetime_fields a) (datetime_fields b)
  | Some offset_a, Some offset_b =>
      if (offset_a =? offset_b)%Z
      then fields_eq (datetime_fields a) (datetime_fields b)
      else (datetime_microseconds a - offset_a
            =? datetime_microseconds b - offset_b)%Z
  | _, _ => false
  end.

(** The validator of [BirdDetection.timestamp].  [limit] stands for
    [datetime.utcnow() + timedelta(seconds=5)], the clock the call reads,
    which is naive: the comparison raises [TypeError] on an aware [v]. *)
Definition timestamp_not_in_future (limit v : datetime) : result datetime :=
  match datetime_gt v limit with
  | Raise e => Raise e
  | Ok true => Raise ValueError
  | Ok false => Ok v
  end.

(** The validator of [AircraftState.altitude_agl_m]. *)
Definition positive_altitude (v : float) : result float :=
  if Py.lt v (-10) then Raise ValueError else Ok v.

(** The constructors of the two models, on field values of the declared
    types, as pydantic 1 builds them, whose [validator] and [dict] the
    models use: a validator that raises [ValueError] or [TypeError], or a
    value outside a declared range, makes the constructor raise
    [ValidationError]. *)
Definition BirdDetection_init (limit : datetime) (id : string)
    (position : Coord3D) (velocity : Velocity3D) (timestamp : datetime)
    (confidence : float) : result BirdDetection :=
  match timestamp_not_in_future limit timestamp with
  | Raise _ => Raise ValidationError
  | Ok timestamp =>
      if Py.ge confidence 0.0 && Py.le confidence 1.0
      then Ok (BirdDetection.mk id position velocity timestamp confidence)
      else Raise ValidationError
  end.

Definition AircraftState_init (callsign : string) (position : Coord3D)
    (velocity : Velocity3D) (heading_deg altitude_agl_m : float)
    (timestamp : datetime) : result AircraftState :=
  match positive_altitude altitude_agl_m with
  | Raise _ => Raise ValidationError
  | Ok altitude_agl_m =>
      Ok (AircraftState.mk callsign position velocity heading_deg
            altitude_agl_m timestamp)
  end.

(** ** Equality of queries

    [q1 == q2] on two models compares their dictionaries, that is their
    fields pairwise: floats with the [==] of IEEE 754, under which
    [0.0 == -0.0] and a NaN is equal to nothing, strings character by
    character, timestamps with [datetime_eq], lists element by element.
    Objects are values here: that Python takes an object to be equal to
    itself, a NaN included, is not modelled. *)
Definition Coord3D_eq (a b : Coord3D) : bool :=
  (Coord3D.x a =? Coord3D.x b)%float && (Coord3D.y a =? Coord3D.y b)%float
  && (Coord3D.z a =? Coord3D.z b)%float.

Definition Velocity3D_eq (a b : Velocity3D) : bool :=
  (Velocity3D.vx a =? Velocity3D.vx b)%float
  && (Velocity3D.vy a =? Velocity3D.vy b)%float
  && (Velocity3D.vz a =? Velocity3D.vz b)%float.

Definition BirdDetection_eq (a b : BirdDetection) : bool :=
  String.eqb (BirdDetection.id a) (BirdDetection.id b)
  && Coord3D_eq (BirdDetection.position a) (BirdDetection.position b)
  && Velocity3D_eq (BirdDetection.velocity a) (BirdDetection.velocity b)
  && datetime_eq (BirdDetection.timestamp a) (BirdDetection.timestamp b)
  && (BirdDetection.confidence a =? BirdDetection.confidence b)%float.

Definition AircraftState_eq (a b : AircraftState) : bool :=
  String.eqb (AircraftState.callsign a) (AircraftState.callsign b)
  && Coord3D_eq (AircraftState.position a) (AircraftState.position b)
  && Velocity3D_eq (AircraftState.velocity a) (AircraftState.velocity b)
  && (AircraftState.heading_deg a =? AircraftState.heading_deg b)%float
  && (AircraftState.altitude_agl_m a =? AircraftState.altitude_agl_m b)%float
  && datetime_eq (AircraftState.timestamp a) (AircraftState.timestamp b).

Fixpoint list_eq {A : Type} (eq : A -> A -> bool) (l l' : list A) : bool :=
  match l, l' with
  | [], [] => true
  | x :: l, y :: l' => eq x y && list_eq eq l l'
  | _, _ => false
  end.

Definition RiskQuery_eq (q1 q2 : RiskQuery) : bool :=
  AircraftState_eq (RiskQuery.aircraft q1) (RiskQuery.aircraft q2)
  && list_eq BirdDetection_eq (RiskQuery.birds q1) (RiskQuery.birds q2).

(** What [==] does not see and a text shows: the sign of a float, the one
    [math.copysign] reads, and the offset of a timestamp.  The floats and
    the timestamps of a query, in the order of the fields. *)
Definition signbit (x : float) : bool :=
  match Prim2SF x with
  | S754_zero s | S754_infinity s | S754_finite s _ _ => s
  | S754_nan => false
  end.

Definition Coord3D_floats (c : Coord3D) : list float :=
  [Coord3D.x c; Coord3D.y c; Coord3D.z c].

Definition Velocity3D_floats (v : Velocity3D) : list float :=
  [Velocity3D.vx v; Velocity3D.vy v; Velocity3D.vz v].

Definition BirdDetection_floats (b : BirdDetection) : list float :=
  Coord3D_floats (BirdDetection.position b)
  ++ Velocity3D_floats (BirdDetection.velocity b)
  ++ [BirdDetection.confidence b].

Definition AircraftState_floats (a : AircraftState) : list float :=
  Coord3D_floats (AircraftState.position a)
  ++ Velocity3D_floats (AircraftState.velocity a)
  ++ [AircraftState.heading_deg a; AircraftState.altitude_agl_m a].

Definition RiskQuery_floats (q : RiskQuery) : list float :=
  AircraftState_floats (RiskQuery.aircraft q)
  ++ flat_map BirdDetection_floats (RiskQuery.birds q).

Definition RiskQuery_timestamps (q : RiskQuery) : list datetime :=
  AircraftState.timestamp (RiskQuery.aircraft q)
  :: map BirdDetection.timestamp (RiskQuery.birds q).

(** ** API endpoints

    The bodies of the endpoint functions; what the web framework does with
    a request before and with a response after is outside. *)

Module PlanResponse.
Record t : Type := mk {
  assessment : RiskAssessment;
  recommendation : ActionRecommendation
}.
End PlanResponse.
Notation PlanResponse := PlanResponse.t.

Module Http.

(** What an endpoint function ends with: the value it returns, or the
    [HTTPException] it raises. *)
Inductive reply (A : Type) : Type :=
| Return (a : A)
| HTTPException (status_code : Z) (detail : string).
Arguments Return {A} a.
Arguments HTTPException {A} status_code detail.

(** What an endpoint function logs: the [info] records of the engine, and
    [logger.exception(msg)], an error record with the exception caught. *)
Inductive log_event : Type :=
| Info (r : log_record)
| Exception (msg : string) (e : exn).

(** [try: return body  except Exception: logger.exception(msg); raise
    HTTPException(status_code=500, detail=detail)].  Every exception of the
    engine is an [Exception]. *)
Definition try_except {A : Type} (body : M A) (msg detail : string)
  : list log_event * reply A :=
  match body with
  | (l, Ok a) => (map Info l, Return a)
  | (l, Raise e) => (map Info l ++ [Exception msg e], HTTPException 500 detail)
  end.

End Http.

(** [d.isoformat()]. *)
Definition datetime_isoformat (d : datetime) : string :=
  datetime_isoformat_sep "T" d.

(** [utcnow] stands for [datetime.utcnow()]. *)
Definition healthcheck (utcnow : datetime) : list (string * string) :=
  [("status", "ok");
   ("time_utc", datetime_isoformat utcnow);
   ("engine_version", ENGINE_VERSION);
   ("config_version", RiskConfig.version RISK_CONFIG)]%string.

Section Service.

Variable float_pow : float -> float -> result float.
Variables format_1f floatstr : float -> string.
Variables encode_basestring_ascii sha256_hexdigest : string -> string.

(** [POST /evaluate]; [decision_id] is the token the evaluation draws. *)
Definition evaluate (decision_id : string) (query : RiskQuery)
  : list Http.log_event * Http.reply RiskAssessment :=
  Http.try_except
    (evaluate_risk float_pow format_1f floatstr encode_basestring_ascii
       sha256_hexdigest decision_id query RISK_CONFIG)
    "Error during risk evaluation" "Internal evaluation error".

(** [POST /plan]. *)
Definition plan (decision_id : string) (query : RiskQuery)
  : list Http.log_event * Http.reply PlanResponse :=
  Http.try_except
    (assessment <- evaluate_risk float_pow format_1f floatstr
                     encode_basestring_ascii sha256_hexdigest decision_id query
                     RISK_CONFIG ;;
     let recommendation := plan_action assessment in
     ret (PlanResponse.mk assessment recommendation))
    "Error during planning" "Internal planning error".

End Service.

(** A reference [float.__pow__] for the two exponents the engine uses, with
    the correctly rounded square and square root of IEEE 754: it runs the
    engine on concrete inputs.  The theorems below hold for every power. *)
Definition ieee_pow (x y : float) : result float :=
  if PrimFloat.eqb y 2 then
    let r := PrimFloat.mul x x in
    if is_infinity r && negb (is_infinity x) then Raise OverflowError else Ok r
  else if PrimFloat.eqb y 0.5 then
    if PrimFloat.eqb x 0 then Ok 0%float
    else if PrimFloat.ltb x 0 then
      (* a negative infinity gives infinity; a negative number a complex
         one, which the comparison that follows refuses *)
      if is_infinity x then Ok infinity else Raise TypeError
    else Ok (PrimFloat.sqrt x)
  else Raise ValueError.

(** ** Concrete inputs

    The aircraft of the end-to-end scenarios, a bird hovering at abscissa
    [x] on the aircraft's course, and stand-ins for the text functions of
    the interpreter, with which the engine runs. *)

Definition scenario_aircraft (callsign : string) (heading_deg altitude_agl_m : float)
    (timestamp : datetime) : AircraftState :=
  AircraftState.mk callsign (Coord3D.mk 0 0 100) (Velocity3D.mk 50 0 0)
    heading_deg altitude_agl_m timestamp.

Definition hovering_bird (id : string) (x : float) (timestamp : datetime)
    (confidence : float) : BirdDetection :=
  BirdDetection.mk id (Coord3D.mk x 0 100) (Velocity3D.mk 0 0 0)
    timestamp confidence.

Definition noon : datetime := datetime.mk 2025 11 30 12 0 0 0 None.

Definition own_ship : AircraftState := scenario_aircraft "N123" 90 100 noon.

Definition bird_A : BirdDetection := hovering_bird "A" 400 noon 1.
Definition bird_B : BirdDetection := hovering_bird "B" 400 noon 1.
Definition bird_far : BirdDetection := hovering_bird "far" 2000 noon 1.

(** A config whose clamp bounds are inverted. *)
Definition inverted_config : RiskConfig :=
  {| RiskConfig.version := "inverted";
     RiskConfig.distance_threshold_m := 500.0;
     RiskConfig.min_ttc_s := 10.0;
     RiskConfig.max_ttc_s := 5.0;
     RiskConfig.ttc_low_threshold_s := 60.0;
     RiskConfig.ttc_medium_threshold_s := 30.0;
     RiskConfig.ttc_high_threshold_s := 10.0;
     RiskConfig.prob_presence_only := 0.05;
     RiskConfig.prob_low := 0.10;
     RiskConfig.prob_medium := 0.30;
     RiskConfig.prob_high := 0.60;
     RiskConfig.prob_critical := 0.80 |}.

Definition text_of_float (x : float) : string := "<float>".
Definition text_of_string (s : string) : string := s.

(** ** Reference text functions

    [float.__repr__], the string encoder of [json] and SHA-256, written
    from their specifications: with them the hash of a concrete query is a
    concrete string.  The theorems on the hash hold for every choice of
    these functions. *)

(** The decimal digits of a natural number, [%d]. *)
Fixpoint decimal_digits (fuel : nat) (n : Z) (acc : string) : string :=
  match fuel with
  | O => acc
  | S fuel' =>
      if (n <? 10)%Z then String (digit n) acc
      else decimal_digits fuel' (n / 10) (String (digit n) acc)
  end.

Definition decimal (n : Z) : string :=
  decimal_digits (S (Z.to_nat (Z.log2 n))) n "".

Module Repr.

Local Open Scope Z_scope.

(** The order of [c * 10^k] and [v * 2^e], for positive [c] and [v]. *)
Definition compare_scaled (c k v e : Z) : comparison :=
  (c * 10 ^ Z.max k 0 * 2 ^ Z.max (- e) 0
   ?= v * 10 ^ Z.max (- k) 0 * 2 ^ Z.max e 0).

(** The floor of [m * 2^e / 10^k]. *)
Definition floor_scaled (m e k : Z) : Z :=
  (m * 2 ^ Z.max e 0 * 10 ^ Z.max (- k) 0)
  / (2 ^ Z.max (- e) 0 * 10 ^ Z.max k 0).

(** The exponent [p] with [10^p <= m * 2^e < 10^(p+1)]: an estimate from
    the binary logarithm, then corrected. *)
Fixpoint adjust_log10 (fuel : nat) (m e p : Z) : Z :=
  match fuel with
  | O => p
  | S fuel' =>
      match compare_scaled 1 p m e with
      | Gt => adjust_log10 fuel' m e (p - 1)
      | _ =>
          match compare_scaled 1 (p + 1) m e with
          | Gt => p
          | _ => adjust_log10 fuel' m e (p + 1)
          end
      end
  end.

Definition floor_log10 (m e : Z) : Z :=
  adjust_log10 8 m e ((Z.log2 m + e) * 30103 / 100000).

(** Whether the decimal [c * 10^k] rounds to the float [m * 2^e]: it lies
    between the midpoints to the neighbouring floats, which belong to the
    float when its mantissa is even.  Below a power of two the neighbour is
    half as far. *)
Definition rounds_to (m e c k : Z) : bool :=
  let low := if (m =? 2 ^ 52) && (-1074 <? e) then 4 * m - 1 else 4 * m - 2 in
  let high := 4 * m + 2 in
  match compare_scaled c k low (e - 2), compare_scaled c k high (e - 2) with
  | Gt, Lt => true
  | Eq, Lt | Gt, Eq => Z.even m
  | _, _ => false
  end.

(** The shortest decimal that rounds to [m * 2^e], and of those with as
    many digits the nearest: its digits and the exponent of its last one. *)
Fixpoint shortest (fuel : nat) (n : Z) (m e p : Z) : Z * Z :=
  match fuel with
  | O => (m * 2 ^ Z.max e 0, 0)
  | S fuel' =>
      let k := p - n + 1 in
      let lo := floor_scaled m e k in
      let hi := lo + 1 in
      let nearer_lo :=
        match compare_scaled (2 * lo + 1) k (2 * m) e with
        | Gt => true
        | Eq => Z.even lo
        | Lt => false
        end in
      match rounds_to m e lo k, rounds_to m e hi k with
      | true, true => if nearer_lo then (lo, k) else (hi, k)
      | true, false => (lo, k)
      | false, true => (hi, k)
      | false, false => shortest fuel' (n + 1) m e p
      end
  end.

Fixpoint strip_zeros (fuel : nat) (c k : Z) : Z * Z :=
  match fuel with
  | O => (c, k)
  | S fuel' =>
      if (c mod 10 =? 0) && (0 <? c) then strip_zeros fuel' (c / 10) (k + 1)
      else (c, k)
  end.

Local Open Scope string_scope.

Fixpoint zeros (n : nat) : string :=
  match n with
  | O => ""
  | S n' => String "0" (zeros n')
  end.

(** The layout of [repr]: the exponent form when the decimal point would
    stand more than 16 digits to the right of the first digit or more than
    3 zeros to its left. *)
Definition layout (digits : string) (decpt : Z) : string :=
  let nd := Z.of_nat (String.length digits) in
  if ((decpt <=? -4) || (16 <? decpt))%Z then
    let exp := (decpt - 1)%Z in
    substring 0 1 digits
    ++ (if (1 <? nd)%Z then "." ++ substring 1 (String.length digits - 1) digits
        else "")
    ++ "e" ++ (if (exp <? 0)%Z then "-" else "+")
    ++ (if (Z.abs exp <? 10)%Z then "0" else "") ++ decimal (Z.abs exp)
  else if (decpt <=? 0)%Z then
    "0." ++ zeros (Z.to_nat (- decpt)) ++ digits
  else if (nd <=? decpt)%Z then
    digits ++ zeros (Z.to_nat (decpt - nd)) ++ ".0"
  else
    substring 0 (Z.to_nat decpt) digits ++ "."
    ++ substring (Z.to_nat decpt) (String.length digits - Z.to_nat decpt) digits.

Definition float_repr (x : float) : string :=
  match Prim2SF x with
  | S754_nan => "nan"
  | S754_infinity s => if s then "-inf" else "inf"
  | S754_zero s => if s then "-0.0" else "0.0"
  | S754_finite s m e =>
      let m := Z.pos m in
      let '(c, k) := shortest 17 1 m e (floor_log10 m e) in
      let '(c, k) := strip_zeros 20 c k in
      let digits := decimal c in
      (if s then "-" else "")
      ++ layout digits (Z.of_nat (String.length digits) + k)
  end.

End Repr.

(** How [json] renders a float. *)
Definition json_floatstr (x : float) : string :=
  if is_nan x then "NaN"
  else if (x =? infinity)%float then "Infinity"
  else if (x =? neg_infinity)%float then "-Infinity"
  else Repr.float_repr x.

(** How [json] renders a string whose characters are below 256: between
    quotes, the quote and the backslash escaped, and every character outside
    of the printable ASCII ones escaped by name or by code. *)
Definition hex_digit (n : Z) : ascii :=
  nth (Z.to_nat (n mod 16))
      ["0"; "1"; "2"; "3"; "4"; "5"; "6"; "7"; "8"; "9";
       "a"; "b"; "c"; "d"; "e"; "f"]%char "0"%char.

Definition quote : ascii := "034"%char.
Definition backslash : ascii := "092"%char.

Definition escape (c : ascii) : string :=
  let n := Z.of_nat (nat_of_ascii c) in
  if (n =? 34)%Z then String backslash (String quote "")
  else if (n =? 92)%Z then String backslash (String backslash "")
  else if (n =? 8)%Z then String backslash "b"
  else if (n =? 12)%Z then String backslash "f"
  else if (n =? 10)%Z then String backslash "n"
  else if (n =? 13)%Z then String backslash "r"
  else if (n =? 9)%Z then String backslash "t"
  else if ((32 <=? n) && (n <=? 126))%Z then String c ""
  else String backslash
         (String "u" (String "0" (String "0"
            (String (hex_digit (n / 16)) (String (hex_digit n) ""))))).

Fixpoint escape_all (s : string) : string :=
  match s with
  | EmptyString => ""
  | String c s' => escape c ++ escape_all s'
  end.

Definition py_encode_basestring_ascii (s : string) : string :=
  String quote (escape_all s ++ String quote "").

(** SHA-256 (FIPS 180-4) of a string of bytes, as lowercase hexadecimal. *)
Module SHA256.

Local Open Scope Z_scope.

Definition word (x : Z) : Z := x mod 2 ^ 32.
Definition add (x y : Z) : Z := word (x + y).
Definition rotr (n x : Z) : Z := Z.lor (Z.shiftr x n) (word (Z.shiftl x (32 - n))).
Definition shr (n x : Z) : Z := Z.shiftr x n.
Definition not32 (x : Z) : Z := 2 ^ 32 - 1 - x.

Definition Ch (x y z : Z) : Z := Z.lxor (Z.land x y) (Z.land (not32 x) z).
Definition Maj (x y z : Z) : Z :=
  Z.lxor (Z.lxor (Z.land x y) (Z.land x z)) (Z.land y z).
Definition Sigma0 (x : Z) : Z := Z.lxor (Z.lxor (rotr 2 x) (rotr 13 x)) (rotr 22 x).
Definition Sigma1 (x : Z) : Z := Z.lxor (Z.lxor (rotr 6 x) (rotr 11 x)) (rotr 25 x).
Definition sigma0 (x : Z) : Z := Z.lxor (Z.lxor (rotr 7 x) (rotr 18 x)) (shr 3 x).
Definition sigma1 (x : Z) : Z := Z.lxor (Z.lxor (rotr 17 x) (rotr 19 x)) (shr 10 x).

(** The constants: the first 32 bits of the fractional parts of the cube
    roots of the first 64 primes, and for the initial hash value those of
    the square roots of the first 8. *)
Definition primes : list Z :=
  [2; 3; 5; 7; 11; 13; 17; 19; 23; 29; 31; 37; 41; 43; 47; 53; 59; 61; 67; 71;
   73; 79; 83; 89; 97; 101; 103; 107; 109; 113; 127; 131; 137; 139; 149; 151;
   157; 163; 167; 173; 179; 181; 191; 193; 197; 199; 211; 223; 227; 229; 233;
   239; 241; 251; 257; 263; 269; 271; 277; 281; 283; 293; 307; 311].

(** The integer cube root, one bit at a time from the top. *)
Definition cube_root (n : Z) : Z :=
  fold_left (fun r i => let r' := r + 2 ^ Z.of_nat i in
                        if r' * r' * r' <=? n then r' else r)
            (rev (seq 0 40)) 0.

Definition K : list Z :=
  Eval cbv in map (fun p => word (cube_root (p * 2 ^ 96))) primes.

Definition H0 : list Z :=
  Eval cbv in map (fun p => word (Z.sqrt (p * 2 ^ 64))) (firstn 8 primes).

Fixpoint bytes_of (s : string) : list Z :=
  match s with
  | EmptyString => []
  | String c s' => Z.of_nat (nat_of_ascii c) :: bytes_of s'
  end.

(** The message, a bit 1, zeros up to 56 modulo 64 bytes, and the length of
    the message in bits on 8 bytes. *)
Definition big_endian (width : nat) (x : Z) : list Z :=
  map (fun i => Z.shiftr x (8 * Z.of_nat i) mod 256) (rev (seq 0 width)).

Definition pad (msg : list Z) : list Z :=
  let len := Z.of_nat (List.length msg) in
  msg ++ [128] ++ repeat 0 (Z.to_nat ((55 - len) mod 64))
      ++ big_endian 8 (8 * len).

Fixpoint words_of (fuel : nat) (bytes : list Z) : list Z :=
  match fuel, bytes with
  | S fuel', a :: b :: c :: d :: rest =>
      (((a * 256 + b) * 256 + c) * 256 + d) :: words_of fuel' rest
  | _, _ => []
  end.

(** The message schedule: the 16 words of the block, then 48 more.
    [recent] holds the words so far, the last one first. *)
Fixpoint schedule (n : nat) (recent : list Z) : list Z :=
  match n with
  | O => rev recent
  | S n' =>
      let w := add (add (sigma1 (nth 1 recent 0)) (nth 6 recent 0))
                   (add (sigma0 (nth 14 recent 0)) (nth 15 recent 0)) in
      schedule n' (w :: recent)
  end.

Definition round (state : list Z) (kw : Z * Z) : list Z :=
  match state with
  | [a; b; c; d; e; f; g; h] =>
      let t1 := add (add (add h (Sigma1 e)) (add (Ch e f g) (fst kw))) (snd kw) in
      let t2 := add (Sigma0 a) (Maj a b c) in
      [add t1 t2; a; b; c; add d t1; e; f; g]
  | _ => state
  end.

Definition compress (hash block : list Z) : list Z :=
  let w := schedule 48 (rev block) in
  map (fun xy => add (fst xy) (snd xy))
      (combine hash (fold_left round (combine K w) hash)).

Fixpoint blocks (fuel : nat) (hash words : list Z) : list Z :=
  match fuel with
  | O => hash
  | S fuel' =>
      match words with
      | [] => hash
      | _ => blocks fuel' (compress hash (firstn 16 words)) (skipn 16 words)
      end
  end.

Definition digest (s : string) : list Z :=
  let bytes := pad (bytes_of s) in
  let words := words_of (List.length bytes) bytes in
  blocks (List.length words) H0 words.

Definition hex_of_word (w : Z) : string :=
  fold_right (fun i acc => String (hex_digit (Z.shiftr w (4 * Z.of_nat i))) acc)
             EmptyString (rev (seq 0 8)).

Definition hexdigest (s : string) : string :=
  String.concat "" (map hex_of_word (digest s)).

End SHA256.

(** * Properties *)

(** ** The order of binary64 values

    [SFcompare] orders the values that are not NaN lexicographically by
    class, exponent and mantissa.  [key] makes that order explicit as a triple
    of integers, which turns every comparison of floats into integer
    arithmetic. *)

Module FloatOrder.

Local Open Scope Z_scope.

Definition key (x : spec_float) : option (Z * Z * Z) :=
  match x with
  | S754_nan => None
  | S754_zero _ => Some (0, 0, 0)
  | S754_infinity true => Some (-2, 0, 0)
  | S754_infinity false => Some (2, 0, 0)
  | S754_finite false m e => Some (1, e, Zpos m)
  | S754_finite true m e => Some (-1, - e, Zneg m)
  end.

Definition lex_ltb (a b : Z * Z * Z) : bool :=
  let '(a1, a2, a3) := a in
  let '(b1, b2, b3) := b in
  (a1 <? b1) || ((a1 =? b1) && ((a2 <? b2) || ((a2 =? b2) && (a3 <? b3)))).

Definition lex_eqb (a b : Z * Z * Z) : bool :=
  let '(a1, a2, a3) := a in
  let '(b1, b2, b3) := b in
  (a1 =? b1) && (a2 =? b2) && (a3 =? b3).

Definition key_ltb (a b : option (Z * Z * Z)) : bool :=
  match a, b with
  | Some a, Some b => lex_ltb a b
  | _, _ => false
  end.

Definition key_eqb (a b : option (Z * Z * Z)) : bool :=
  match a, b with
  | Some a, Some b => lex_eqb a b
  | _, _ => false
  end.

Definition key_leb (a b : option (Z * Z * Z)) : bool :=
  key_ltb a b || key_eqb a b.

Definition fkey (x : float) : option (Z * Z * Z) := key (Prim2SF x).

Lemma SFcompare_key (x y : spec_float) :
  SFcompare x y =
  match key x, key y with
  | Some a, Some b =>
      Some (if lex_ltb a b then Lt else if lex_eqb a b then Eq else Gt)
  | _, _ => None
  end.
Proof.
  destruct x as [[|]|[|]| |[|] m1 e1], y as [[|]|[|]| |[|] m2 e2];
    try reflexivity; cbn - [Z.ltb Z.eqb Z.compare].
  - change (Pos.compare_cont Eq m1 m2) with (Pos.compare m1 m2).
    destruct (Z.compare_spec e1 e2), (Pos.compare_spec m1 m2); subst;
      repeat match goal with
             | |- context [(?a <? ?b)] => destruct (Z.ltb_spec a b)
             | |- context [(?a =? ?b)] => destruct (Z.eqb_spec a b)
             end; cbn; try reflexivity; try lia; try congruence.
  - change (Pos.compare_cont Eq m1 m2) with (Pos.compare m1 m2).
    destruct (Z.compare_spec e1 e2), (Pos.compare_spec m1 m2); subst;
      repeat match goal with
             | |- context [(?a <? ?b)] => destruct (Z.ltb_spec a b)
             | |- context [(?a =? ?b)] => destruct (Z.eqb_spec a b)
             end; cbn; try reflexivity; try lia; try congruence.
Qed.

Lemma ltb_key (x y : float) : PrimFloat.ltb x y = key_ltb (fkey x) (fkey y).
Proof.
  rewrite ltb_spec. unfold SFltb, fkey, key_ltb. rewrite SFcompare_key.
  destruct (key (Prim2SF x)) as [a|], (key (Prim2SF y)) as [b|]; try reflexivity.
  destruct (lex_ltb a b); [reflexivity|]. destruct (lex_eqb a b); reflexivity.
Qed.

Lemma eqb_key (x y : float) : PrimFloat.eqb x y = key_eqb (fkey x) (fkey y).
Proof.
  rewrite eqb_spec. unfold SFeqb, fkey, key_eqb. rewrite SFcompare_key.
  destruct (key (Prim2SF x)) as [[[a1 a2] a3]|], (key (Prim2SF y)) as [[[b1 b2] b3]|];
    try reflexivity.
  destruct (lex_ltb _ _) eqn:L, (lex_eqb _ _) eqn:E; try reflexivity.
  exfalso. cbn in L, E. lia.
Qed.

Lemma leb_key (x y : float) : PrimFloat.leb x y = key_leb (fkey x) (fkey y).
Proof.
  rewrite leb_spec. unfold SFleb, fkey, key_leb, key_ltb, key_eqb.
  rewrite SFcompare_key.
  destruct (key (Prim2SF x)) as [a|], (key (Prim2SF y)) as [b|]; try reflexivity.
  destruct (lex_ltb a b); [reflexivity|]. destruct (lex_eqb a b); reflexivity.
Qed.

Lemma is_nan_key (x : float) :
  is_nan x = match fkey x with None => true | Some _ => false end.
Proof.
  unfold is_nan. rewrite eqb_key.
  destruct (fkey x) as [[[a1 a2] a3]|]; [|reflexivity].
  cbn. rewrite !Z.eqb_refl. reflexivity.
Qed.

(** [float_order] decides a goal about the comparisons of floats: every
    comparison is rewritten to its key, the key of a literal is computed and
    the other keys are split into their integer components. *)
Ltac key_step c :=
  first
    [ let b := eval vm_compute in (is_nan c) in
      lazymatch b with
      | true => idtac
      | false => idtac
      end;
      let v := eval vm_compute in (fkey c) in
      change (fkey c) with v in *
    | let k := fresh "k" in
      let E := fresh "E" in
      remember (fkey c) as k eqn:E in *; clear E;
      destruct k as [[[? ?] ?]|] ].

Ltac float_keys :=
  repeat match goal with
         | H : context [fkey ?c] |- _ => key_step c
         | |- context [fkey ?c] => key_step c
         end.

Ltac float_order :=
  intros;
  rewrite ?ltb_key, ?leb_key, ?eqb_key, ?is_nan_key in *;
  float_keys;
  unfold key_leb, key_ltb, key_eqb, lex_ltb, lex_eqb in *;
  first [discriminate | reflexivity | lia].

End FloatOrder.

Module FloatFacts.
Import FloatOrder.
Local Open Scope float_scope.

Lemma ltb_trans (x y z : float) :
  (x <? y) = true -> (y <? z) = true -> (x <? z) = true.
Proof. float_order. Qed.

Lemma ltb_irrefl (x : float) : (x <? x) = false.
Proof. float_order. Qed.

Lemma ltb_leb (x y : float) : (x <? y) = true -> (x <=? y) = true.
Proof. float_order. Qed.

Lemma ltb_not_leb (x y : float) : (x <? y) = true -> (y <=? x) = false.
Proof. float_order. Qed.

Lemma leb_not_ltb (x y : float) : (x <=? y) = true -> (y <? x) = false.
Proof. float_order. Qed.

Lemma leb_refl_l (x y : float) : (x <=? y) = true -> (x <=? x) = true.
Proof. float_order. Qed.

Lemma leb_refl_r (x y : float) : (x <=? y) = true -> (y <=? y) = true.
Proof. float_order. Qed.

Lemma leb_refl_nan (x : float) : (x <=? x) = negb (is_nan x).
Proof. float_order. Qed.

(** The order is total on the values that are not NaN. *)
Lemma not_ltb_leb (x y : float) :
  (x <? y) = false -> is_nan x = false -> is_nan y = false -> (y <=? x) = true.
Proof. float_order. Qed.

Lemma not_leb_ltb (x y : float) :
  (x <=? y) = false -> is_nan x = false -> is_nan y = false -> (y <? x) = true.
Proof. float_order. Qed.

Lemma leb_trans (x y z : float) :
  (x <=? y) = true -> (y <=? z) = true -> (x <=? z) = true.
Proof. float_order. Qed.

Lemma leb_ltb_trans (x y z : float) :
  (x <=? y) = true -> (y <? z) = true -> (x <? z) = true.
Proof. float_order. Qed.

Lemma ltb_leb_trans (x y z : float) :
  (x <? y) = true -> (y <=? z) = true -> (x <? z) = true.
Proof. float_order. Qed.

(** Numerically equal values compare alike with any third one. *)
Lemma eqb_ltb_l (x y z : float) : (x =? y) = true -> (x <? z) = (y <? z).
Proof. float_order. Qed.

Lemma eqb_ltb_r (x y z : float) : (x =? y) = true -> (z <? x) = (z <? y).
Proof. float_order. Qed.

Lemma eqb_leb_l (x y z : float) : (x =? y) = true -> (x <=? z) = (y <=? z).
Proof. float_order. Qed.


Lemma eqb_sym (x y : float) : (x =? y) = (y =? x).
Proof. float_order. Qed.


Lemma not_ltb_not_eqb (x y : float) :
  (x <? y) = false -> (x =? y) = false ->
  is_nan x = false -> is_nan y = false -> (y <? x) = true.
Proof. float_order. Qed.

Lemma ltb_not_nan_l (x y : float) : (x <? y) = true -> is_nan x = false.
Proof. float_order. Qed.

Lemma ltb_not_nan_r (x y : float) : (x <? y) = true -> is_nan y = false.
Proof. float_order. Qed.

Lemma leb_not_nan_l (x y : float) : (x <=? y) = true -> is_nan x = false.
Proof. float_order. Qed.

Lemma leb_not_nan_r (x y : float) : (x <=? y) = true -> is_nan y = false.
Proof. float_order. Qed.

(** A relative speed that is not below the gate is not zero. *)
Lemma speed_gate_nonzero (x : float) : (x <? 1e-3) = false -> (x =? 0) = false.
Proof. float_order. Qed.

End FloatFacts.

(** ** The planner *)

(** C6: [plan_action] is a total function of the assessment's risk level
    only.  NONE and LOW give MAINTAIN without human approval, MEDIUM gives
    SLOW_DOWN, HIGH gives TURN_RIGHT and CRITICAL gives ABORT_MISSION, each
    with human approval, and the urgency is the risk level received. *)
Theorem plan_action_table :
  (forall a1 a2 : RiskAssessment,
      RiskAssessment.risk_level a1 = RiskAssessment.risk_level a2 ->
      plan_action a1 = plan_action a2) /\
  (forall a : RiskAssessment,
      ActionRecommendation.urgency (plan_action a) = RiskAssessment.risk_level a /\
      (ActionRecommendation.action (plan_action a),
       ActionRecommendation.requires_human_approval (plan_action a)) =
      match RiskAssessment.risk_level a with
      | RiskLevel.NONE | RiskLevel.LOW => (ActionType.MAINTAIN, false)
      | RiskLevel.MEDIUM => (ActionType.SLOW_DOWN, true)
      | RiskLevel.HIGH => (ActionType.TURN_RIGHT, true)
      | RiskLevel.CRITICAL => (ActionType.ABORT_MISSION, true)
      end).
Proof.
  split.
  - intros a1 a2 H. unfold plan_action. rewrite H. reflexivity.
  - intros a. unfold plan_action.
    destruct (RiskAssessment.risk_level a); split; reflexivity.
Qed.

(** ** Risk banding *)

Section Banding.

Import FloatOrder.

Variable config : RiskConfig.

Let low := RiskConfig.ttc_low_threshold_s config.
Let medium := RiskConfig.ttc_medium_threshold_s config.
Let high := RiskConfig.ttc_high_threshold_s config.

(** C1: with band edges strictly descending and positive, the banding step
    gives every time to conflict exactly one of LOW, MEDIUM, HIGH and
    CRITICAL with that band's configured probability; the bands are the
    intervals cut by the three thresholds, tested with [>=] in the order
    low, medium, high, so a value equal to a threshold is in the band above
    it, and whatever is below the high threshold is CRITICAL. *)
Theorem ttc_band_intervals (ttc : float) :
  Py.gt low medium = true ->
  Py.gt medium high = true ->
  Py.gt high 0 = true ->
  let (level, prob) := ttc_band config ttc in
  ((level, prob) = (RiskLevel.LOW, RiskConfig.prob_low config) \/
   (level, prob) = (RiskLevel.MEDIUM, RiskConfig.prob_medium config) \/
   (level, prob) = (RiskLevel.HIGH, RiskConfig.prob_high config) \/
   (level, prob) = (RiskLevel.CRITICAL, RiskConfig.prob_critical config)) /\
  (Py.ge ttc low = true -> level = RiskLevel.LOW) /\
  (Py.ge ttc low = false -> Py.ge ttc medium = true -> level = RiskLevel.MEDIUM) /\
  (Py.ge ttc low = false -> Py.ge ttc medium = false -> Py.ge ttc high = true ->
   level = RiskLevel.HIGH) /\
  (Py.ge ttc low = false -> Py.ge ttc medium = false -> Py.ge ttc high = false ->
   level = RiskLevel.CRITICAL) /\
  (level = RiskLevel.LOW <-> Py.ge ttc low = true) /\
  (level = RiskLevel.MEDIUM <-> Py.ge ttc medium = true /\ Py.lt ttc low = true) /\
  (level = RiskLevel.HIGH <-> Py.ge ttc high = true /\ Py.lt ttc medium = true) /\
  (level = RiskLevel.CRITICAL <-> Py.ge ttc high = false) /\
  (Py.lt ttc high = true -> level = RiskLevel.CRITICAL) /\
  fst (ttc_band config low) = RiskLevel.LOW /\
  fst (ttc_band config medium) = RiskLevel.MEDIUM /\
  fst (ttc_band config high) = RiskLevel.HIGH.
Proof.
  unfold ttc_band, Py.gt, Py.ge, Py.lt.
  fold low medium high. generalize low medium high. clear low medium high.
  intros low medium high Hlm Hmh _.
  assert (Elow : (low <=? low)%float = true) by (clear - Hlm; float_order).
  assert (Emed : (medium <=? medium)%float = true) by (clear - Hlm; float_order).
  assert (Ehigh : (high <=? high)%float = true) by (clear - Hmh; float_order).
  assert (Eml : (low <=? medium)%float = false) by (clear - Hlm; float_order).
  assert (Ehm : (medium <=? high)%float = false) by (clear - Hmh; float_order).
  assert (Ehl : (low <=? high)%float = false) by (clear - Hlm Hmh; float_order).
  rewrite Elow, Emed, Ehigh, Eml, Ehm, Ehl. cbn [fst].
  clear Elow Emed Ehigh Eml Ehm Ehl.
  destruct (low <=? ttc)%float eqn:E1;
    [|destruct (medium <=? ttc)%float eqn:E2;
      [|destruct (high <=? ttc)%float eqn:E3]].
  all: repeat split; intros; auto 6; try discriminate; try tauto.
  all: try match goal with H : _ /\ _ |- _ => destruct H end.
  all: clear config; float_order.
Qed.

End Banding.

(** ** The monad *)

Lemma bind_ret_l {A B : Type} (a : A) (k : A -> M B) : bind (ret a) k = k a.
Proof. unfold bind, ret. destruct (k a). reflexivity. Qed.

Lemma bind_lift_ok {A B : Type} (a : A) (k : A -> M B) : bind (lift (Ok a)) k = k a.
Proof. exact (bind_ret_l a k). Qed.

Lemma bind_lift_raise {A B : Type} (e : exn) (k : A -> M B) :
  bind (lift (Raise e)) k = raise e.
Proof. reflexivity. Qed.

Lemma outcome_bind {A B : Type} (m : M A) (k : A -> M B) :
  outcome (bind m k) =
  match outcome m with
  | Ok a => outcome (k a)
  | Raise e => Raise e
  end.
Proof.
  destruct m as [l [a|e]]; cbn; [|reflexivity]. destruct (k a). reflexivity.
Qed.

Lemma log_bind {A B : Type} (m : M A) (k : A -> M B) :
  fst (bind m k) =
  match outcome m with
  | Ok a => fst m ++ fst (k a)
  | Raise e => fst m
  end.
Proof.
  destruct m as [l [a|e]]; cbn; [|reflexivity]. destruct (k a). reflexivity.
Qed.

(** A computation that logs nothing is its outcome. *)
Lemma silent_eq {A : Type} (m : M A) : fst m = [] -> m = lift (outcome m).
Proof. destruct m as [l r]; cbn. intros ->. reflexivity. Qed.

(** ** Time to conflict *)

Section Kinematics.

Import FloatOrder FloatFacts.

Variable float_pow : float -> float -> result float.

Lemma norm_silent (a b c : float) :
  fst (sx <- lift (float_pow a 2) ;;
       sy <- lift (float_pow b 2) ;;
       sz <- lift (float_pow c 2) ;;
       lift (float_pow (sx + sy + sz) 0.5)) = [].
Proof.
  destruct (float_pow a 2) as [sx|]; [rewrite bind_lift_ok|reflexivity].
  destruct (float_pow b 2) as [sy|]; [rewrite bind_lift_ok|reflexivity].
  destruct (float_pow c 2) as [sz|]; [rewrite bind_lift_ok|reflexivity].
  reflexivity.
Qed.

Lemma relative_speed_silent (aircraft : AircraftState) (bird : BirdDetection) :
  fst (relative_speed float_pow aircraft bird) = [].
Proof. apply norm_silent. Qed.

Lemma distance_silent (aircraft : AircraftState) (bird : BirdDetection) :
  fst (distance float_pow aircraft bird) = [].
Proof. apply norm_silent. Qed.

Lemma truediv_gate (d rs : float) :
  Py.lt rs 1e-3 = false -> Py.truediv d rs = ret (d / rs)%float.
Proof.
  intros H. unfold Py.truediv. rewrite (speed_gate_nonzero rs H). reflexivity.
Qed.

(** The three ways [estimate_time_to_conflict] returns. *)
Lemma estimate_slow (aircraft : AircraftState) (bird : BirdDetection)
    (config : RiskConfig) (rs : float) :
  relative_speed float_pow aircraft bird = ret rs ->
  Py.lt rs 1e-3 = true ->
  estimate_time_to_conflict float_pow aircraft bird config = ret None.
Proof.
  intros Hrs Hlt. unfold estimate_time_to_conflict.
  rewrite Hrs, bind_ret_l, Hlt. reflexivity.
Qed.

Lemma estimate_far (aircraft : AircraftState) (bird : BirdDetection)
    (config : RiskConfig) (rs d : float) :
  relative_speed float_pow aircraft bird = ret rs ->
  distance float_pow aircraft bird = ret d ->
  Py.lt rs 1e-3 = false ->
  Py.gt d (RiskConfig.distance_threshold_m config) = true ->
  estimate_time_to_conflict float_pow aircraft bird config = ret None.
Proof.
  intros Hrs Hd Hlt Hgt. unfold estimate_time_to_conflict.
  rewrite Hrs, bind_ret_l, Hlt, Hd, bind_ret_l, Hgt. reflexivity.
Qed.

Lemma estimate_near (aircraft : AircraftState) (bird : BirdDetection)
    (config : RiskConfig) (rs d : float) :
  relative_speed float_pow aircraft bird = ret rs ->
  distance float_pow aircraft bird = ret d ->
  Py.lt rs 1e-3 = false ->
  Py.gt d (RiskConfig.distance_threshold_m config) = false ->
  estimate_time_to_conflict float_pow aircraft bird config =
  ret (Some (Py.max (RiskConfig.min_ttc_s config)
                    (Py.min (RiskConfig.max_ttc_s config) (d / rs)%float))).
Proof.
  intros Hrs Hd Hlt Hgt. unfold estimate_time_to_conflict.
  rewrite Hrs, bind_ret_l, Hlt, Hd, bind_ret_l, Hgt.
  rewrite (truediv_gate d rs Hlt), bind_ret_l. reflexivity.
Qed.

Lemma estimate_silent (aircraft : AircraftState) (bird : BirdDetection)
    (config : RiskConfig) :
  fst (estimate_time_to_conflict float_pow aircraft bird config) = [].
Proof.
  unfold estimate_time_to_conflict.
  rewrite (silent_eq _ (relative_speed_silent aircraft bird)).
  destruct (outcome (relative_speed float_pow aircraft bird)) as [rs|]; [|reflexivity].
  rewrite bind_lift_ok. destruct (Py.lt rs 1e-3) eqn:Hlt; [reflexivity|].
  rewrite (silent_eq _ (distance_silent aircraft bird)).
  destruct (outcome (distance float_pow aircraft bird)) as [d|]; [|reflexivity].
  rewrite bind_lift_ok. destruct (Py.gt d _); [reflexivity|].
  rewrite (truediv_gate d rs Hlt), bind_ret_l. reflexivity.
Qed.

(** A time to conflict is returned on the third way only. *)
Lemma estimate_some_inv (aircraft : AircraftState) (bird : BirdDetection)
    (config : RiskConfig) (t : float) :
  outcome (estimate_time_to_conflict float_pow aircraft bird config) = Ok (Some t) ->
  exists rs d : float,
    relative_speed float_pow aircraft bird = ret rs /\
    distance float_pow aircraft bird = ret d /\
    Py.lt rs 1e-3 = false /\
    Py.gt d (RiskConfig.distance_threshold_m config) = false /\
    t = Py.max (RiskConfig.min_ttc_s config)
               (Py.min (RiskConfig.max_ttc_s config) (d / rs)%float).
Proof.
  unfold estimate_time_to_conflict.
  rewrite (silent_eq _ (relative_speed_silent aircraft bird)).
  destruct (outcome (relative_speed float_pow aircraft bird)) as [rs|]; [|discriminate].
  rewrite bind_lift_ok. destruct (Py.lt rs 1e-3) eqn:Hlt; [discriminate|].
  rewrite (silent_eq _ (distance_silent aircraft bird)).
  destruct (outcome (distance float_pow aircraft bird)) as [d|]; [|discriminate].
  rewrite bind_lift_ok. destruct (Py.gt d _) eqn:Hgt; [discriminate|].
  rewrite (truediv_gate d rs Hlt), bind_ret_l. cbn.
  intros [= <-]. exists rs, d. repeat split; assumption.
Qed.

Lemma clamp_bounds (lo hi x : float) :
  Py.le lo hi = true ->
  Py.le lo (Py.max lo (Py.min hi x)) = true /\
  Py.le (Py.max lo (Py.min hi x)) hi = true.
Proof.
  unfold Py.le, Py.max, Py.min, Py.gt, Py.lt. intros H.
  destruct (x <? hi)%float eqn:E1;
    [destruct (lo <? x)%float eqn:E2|destruct (lo <? hi)%float eqn:E2];
    split; float_order.
Qed.

(** The clamp never gives NaN unless the floor itself is NaN. *)
Lemma clamp_nan (lo hi x : float) :
  is_nan (Py.max lo (Py.min hi x)) = is_nan lo.
Proof.
  unfold Py.max, Py.gt.
  destruct (lo <? Py.min hi x)%float eqn:E; [|reflexivity].
  rewrite (ltb_not_nan_l _ _ E), (ltb_not_nan_r _ _ E). reflexivity.
Qed.

Lemma clamp_of_nan (lo hi x : float) :
  is_nan lo = true -> Py.max lo (Py.min hi x) = lo.
Proof.
  unfold Py.max, Py.gt. intros H.
  destruct (lo <? Py.min hi x)%float eqn:E; [|reflexivity].
  rewrite (ltb_not_nan_l _ _ E) in H. discriminate.
Qed.

(** C2, as amended: under a config with [min_ttc_s <= max_ttc_s], when the
    relative speed and the distance evaluate, [estimate_time_to_conflict]
    returns [None] if the relative speed is below 1e-3 or the distance
    exceeds the configured threshold, and otherwise the quotient of distance
    by relative speed clamped by [max] and [min]; every time to conflict it
    returns lies in [[min_ttc_s, max_ttc_s]]. *)
Theorem estimate_time_to_conflict_cases (aircraft : AircraftState)
    (bird : BirdDetection) (config : RiskConfig) :
  Py.le (RiskConfig.min_ttc_s config) (RiskConfig.max_ttc_s config) = true ->
  (forall rs : float,
      relative_speed float_pow aircraft bird = ret rs ->
      Py.lt rs 1e-3 = true ->
      estimate_time_to_conflict float_pow aircraft bird config = ret None) /\
  (forall rs d : float,
      relative_speed float_pow aircraft bird = ret rs ->
      distance float_pow aircraft bird = ret d ->
      Py.gt d (RiskConfig.distance_threshold_m config) = true ->
      estimate_time_to_conflict float_pow aircraft bird config = ret None) /\
  (forall rs d : float,
      relative_speed float_pow aircraft bird = ret rs ->
      distance float_pow aircraft bird = ret d ->
      Py.lt rs 1e-3 = false ->
      Py.gt d (RiskConfig.distance_threshold_m config) = false ->
      estimate_time_to_conflict float_pow aircraft bird config =
      ret (Some (Py.max (RiskConfig.min_ttc_s config)
                        (Py.min (RiskConfig.max_ttc_s config) (d / rs)%float)))) /\
  (forall t : float,
     outcome (estimate_time_to_conflict float_pow aircraft bird config) = Ok (Some t) ->
     Py.le (RiskConfig.min_ttc_s config) t = true /\
     Py.le t (RiskConfig.max_ttc_s config) = true).
Proof.
  intros Hclamp. split; [|split; [|split]].
  - apply estimate_slow.
  - intros rs d Hrs Hd Hgt. destruct (Py.lt rs 1e-3) eqn:Hlt.
    + exact (estimate_slow _ _ _ _ Hrs Hlt).
    + exact (estimate_far _ _ _ _ _ Hrs Hd Hlt Hgt).
  - apply estimate_near.
  - intros t Ht.
    destruct (estimate_some_inv _ _ _ _ Ht) as (rs & d & _ & _ & _ & _ & ->).
    apply clamp_bounds, Hclamp.
Qed.

End Kinematics.

(** ** The loop over the birds

    The loop of [evaluate_risk] is studied on an arbitrary assignment [f] of
    an optional time to conflict to each bird; [track_pure] is the loop's
    turn once the estimate of the bird is known. *)

Section Scan.

Import FloatFacts.

Variable f : BirdDetection -> option float.

Definition track_pure (best : option float * option BirdDetection)
    (b : BirdDetection) : option float * option BirdDetection :=
  match f b with
  | None => best
  | Some ttc =>
      if match fst best with
         | None => true
         | Some best_ttc => Py.lt ttc best_ttc
         end
      then (Some ttc, Some b)
      else best
  end.

Definition scan (l : list BirdDetection)
    (best : option float * option BirdDetection)
    : option float * option BirdDetection :=
  fold_left track_pure l best.

(** The loop invariant, on the birds [l] seen so far: either no bird had a
    time to conflict and both variables are [None], or [best_bird] is a bird
    of [l] with time to conflict [best_ttc], no bird of [l] has a smaller
    one, and no bird of [l] before it has an equal one. *)
Definition selected (l : list BirdDetection)
    (best : option float * option BirdDetection) : Prop :=
  match best with
  | (None, None) => forall b, In b l -> f b = None
  | (Some t, Some b) =>
      exists l1 l2,
        l = l1 ++ b :: l2 /\
        f b = Some t /\
        (forall b' t', In b' l -> f b' = Some t' -> Py.lt t' t = false) /\
        (forall b' t', In b' l1 -> f b' = Some t' -> PrimFloat.eqb t' t = false)
  | _ => False
  end.

Lemma selected_nil : selected [] (None, None).
Proof. intros b []. Qed.

Lemma selected_step (l : list BirdDetection)
    (best : option float * option BirdDetection) (b : BirdDetection) :
  selected l best -> selected (l ++ [b]) (track_pure best b).
Proof.
  unfold track_pure. destruct best as [[t0|] [b0|]]; cbn [selected fst]; try tauto.
  - intros (l1 & l2 & -> & Hb0 & Hmin & Hfirst).
    destruct (f b) as [t|] eqn:Hb.
    + destruct (Py.lt t t0) eqn:Hlt; cbn [selected].
      * exists (l1 ++ b0 :: l2), []. repeat split; trivial.
        -- intros b' t' Hin Hb'. apply in_app_or in Hin as [Hin|[<-|[]]].
           ++ destruct (Py.lt t' t) eqn:E; [|reflexivity].
              rewrite <- (Hmin b' t' Hin Hb'). symmetry.
              exact (ltb_trans _ _ _ E Hlt).
           ++ rewrite Hb in Hb'. injection Hb' as <-. apply ltb_irrefl.
        -- intros b' t' Hin Hb'.
           destruct (PrimFloat.eqb t' t) eqn:E; [|reflexivity].
           rewrite <- (Hmin b' t' Hin Hb'). unfold Py.lt.
           rewrite (eqb_ltb_l _ _ t0 E). symmetry. exact Hlt.
      * exists l1, (l2 ++ [b]).
        split; [rewrite <- app_assoc; reflexivity|]. repeat split; trivial.
        intros b' t' Hin Hb'. apply in_app_or in Hin as [Hin|[<-|[]]].
        -- exact (Hmin b' t' Hin Hb').
        -- rewrite Hb in Hb'. injection Hb' as <-. exact Hlt.
    + cbn [selected]. exists l1, (l2 ++ [b]).
      split; [rewrite <- app_assoc; reflexivity|]. repeat split; trivial.
      intros b' t' Hin Hb'. apply in_app_or in Hin as [Hin|[<-|[]]].
      * exact (Hmin b' t' Hin Hb').
      * rewrite Hb in Hb'. discriminate.
  - intros Hnone. destruct (f b) as [t|] eqn:Hb; cbn [selected].
    + exists l, []. repeat split; trivial.
      * intros b' t' Hin Hb'. apply in_app_or in Hin as [Hin|[<-|[]]].
        -- rewrite (Hnone b' Hin) in Hb'. discriminate.
        -- rewrite Hb in Hb'. injection Hb' as <-. apply ltb_irrefl.
      * intros b' t' Hin Hb'. rewrite (Hnone b' Hin) in Hb'. discriminate.
    + intros b' Hin. apply in_app_or in Hin as [Hin|[<-|[]]]; auto.
Qed.

Lemma scan_app (l l' : list BirdDetection) (best : option float * option BirdDetection) :
  scan (l ++ l') best = scan l' (scan l best).
Proof. apply fold_left_app. Qed.

Lemma scan_selected (l : list BirdDetection) : selected l (scan l (None, None)).
Proof.
  induction l as [|b l IH] using rev_ind.
  - apply selected_nil.
  - rewrite scan_app. apply selected_step, IH.
Qed.

End Scan.

(** ** Risk evaluation *)

(** The probabilities of a config as the data model has them, each in
    [[0, 1]]: the condition under which [RiskAssessment] accepts them. *)
Definition probabilities_in_range (config : RiskConfig) : Prop :=
  RiskAssessment.collision_probability_ok (RiskConfig.prob_presence_only config) = true /\
  RiskAssessment.collision_probability_ok (RiskConfig.prob_low config) = true /\
  RiskAssessment.collision_probability_ok (RiskConfig.prob_medium config) = true /\
  RiskAssessment.collision_probability_ok (RiskConfig.prob_high config) = true /\
  RiskAssessment.collision_probability_ok (RiskConfig.prob_critical config) = true.

Lemma init_ok (level : RiskLevel) (p : float) (ttc : option float)
    (bird : option string) (r d h e c : string) :
  RiskAssessment.collision_probability_ok p = true ->
  RiskAssessment.init level p ttc bird r d h e c =
  ret (RiskAssessment.mk level p ttc bird r d h e c).
Proof. unfold RiskAssessment.init. intros ->. reflexivity. Qed.

Lemma init_inv (level : RiskLevel) (p : float) (ttc : option float)
    (bird : option string) (r d h e c : string) (a : RiskAssessment) :
  outcome (RiskAssessment.init level p ttc bird r d h e c) = Ok a ->
  a = RiskAssessment.mk level p ttc bird r d h e c.
Proof.
  unfold RiskAssessment.init.
  destruct (RiskAssessment.collision_probability_ok p); cbn; congruence.
Qed.

Lemma band_probability_ok (config : RiskConfig) (t : float) :
  probabilities_in_range config ->
  RiskAssessment.collision_probability_ok (snd (ttc_band config t)) = true.
Proof.
  intros (_ & Hl & Hm & Hh & Hc). unfold ttc_band.
  destruct (Py.ge t _); [exact Hl|].
  destruct (Py.ge t _); [exact Hm|].
  destruct (Py.ge t _); [exact Hh|exact Hc].
Qed.

Section Risk.

Import FloatFacts.

Variable float_pow : float -> float -> result float.
Variables format_1f floatstr : float -> string.
Variables encode_basestring_ascii sha256_hexdigest : string -> string.

Variable aircraft : AircraftState.
Variable config : RiskConfig.

(** The estimate of a bird, and what it is when it evaluates. *)
Definition estimate (b : BirdDetection) : result (option float) :=
  outcome (estimate_time_to_conflict float_pow aircraft b config).

Definition ttc_of (b : BirdDetection) : option float :=
  match estimate b with
  | Ok o => o
  | Raise _ => None
  end.

Definition evaluates (b : BirdDetection) : Prop := exists o, estimate b = Ok o.

Lemma estimate_eq (b : BirdDetection) :
  estimate_time_to_conflict float_pow aircraft b config = lift (estimate b).
Proof. apply silent_eq, estimate_silent. Qed.

Lemma track_best_ok (best : option float * option BirdDetection)
    (b : BirdDetection) :
  evaluates b ->
  track_best float_pow aircraft config best b = ret (track_pure ttc_of best b).
Proof.
  intros [o Ho]. unfold track_best, track_pure, ttc_of.
  rewrite estimate_eq, Ho, bind_lift_ok.
  destruct o as [t|]; [|reflexivity].
  destruct (fst best) as [t0|]; [destruct (Py.lt t t0)|]; reflexivity.
Qed.

Lemma track_best_raise (best : option float * option BirdDetection)
    (b : BirdDetection) (e : exn) :
  estimate b = Raise e ->
  track_best float_pow aircraft config best b = raise e.
Proof.
  intros He. unfold track_best. rewrite estimate_eq, He. reflexivity.
Qed.

Lemma loop_ok (l : list BirdDetection) (best : option float * option BirdDetection) :
  Forall evaluates l ->
  for_each (track_best float_pow aircraft config) l best = ret (scan ttc_of l best).
Proof.
  intros H. revert best. induction H as [|b l Hb _ IH]; intros best.
  - reflexivity.
  - cbn [for_each]. rewrite (track_best_ok best b Hb), bind_ret_l. apply IH.
Qed.

Lemma loop_inv (l : list BirdDetection)
    (best best' : option float * option BirdDetection) :
  outcome (for_each (track_best float_pow aircraft config) l best) = Ok best' ->
  Forall evaluates l.
Proof.
  revert best. induction l as [|b l IH]; intros best H.
  - constructor.
  - cbn [for_each] in H. destruct (estimate b) as [o|e] eqn:Hb.
    + assert (Hev : evaluates b) by (exists o; exact Hb).
      rewrite (track_best_ok best b Hev), bind_ret_l in H.
      constructor; [exact Hev|exact (IH _ H)].
    + rewrite (track_best_raise best b e Hb) in H. discriminate.
Qed.

(** A time to conflict is NaN exactly when the floor of the clamp is. *)
Lemma ttc_of_nan (b : BirdDetection) (t : float) :
  ttc_of b = Some t -> is_nan t = is_nan (RiskConfig.min_ttc_s config).
Proof.
  unfold ttc_of. destruct (estimate b) as [o|] eqn:E; [|discriminate].
  intros ->. destruct (estimate_some_inv _ _ _ _ _ E) as (rs & d & _ & _ & _ & _ & ->).
  apply clamp_nan.
Qed.

Lemma ttc_of_nan_floor (b : BirdDetection) (t : float) :
  ttc_of b = Some t -> is_nan (RiskConfig.min_ttc_s config) = true ->
  t = RiskConfig.min_ttc_s config.
Proof.
  unfold ttc_of. destruct (estimate b) as [o|] eqn:E; [|discriminate].
  intros ->. destruct (estimate_some_inv _ _ _ _ _ E) as (rs & d & _ & _ & _ & _ & ->).
  apply clamp_of_nan.
Qed.

Lemma ttc_of_estimate (b : BirdDetection) (t : float) :
  ttc_of b = Some t <-> estimate b = Ok (Some t).
Proof.
  unfold ttc_of. destruct (estimate b) as [o|e]; split; congruence.
Qed.

End Risk.

Section Evaluate.

Import FloatFacts.

Variable float_pow : float -> float -> result float.
Variables format_1f floatstr : float -> string.
Variables encode_basestring_ascii sha256_hexdigest : string -> string.

Notation run decision_id query config :=
  (evaluate_risk float_pow format_1f floatstr encode_basestring_ascii
     sha256_hexdigest decision_id query config).
Notation hash query :=
  (compute_input_hash floatstr encode_basestring_ascii sha256_hexdigest query).
Notation est query config :=
  (estimate float_pow (RiskQuery.aircraft query) config).

(** The rationale of a banded assessment. *)
Definition conflict_rationale (b : BirdDetection) (t : float) : string :=
  ("Closest projected conflict with bird " ++ BirdDetection.id b
   ++ " in ~" ++ format_1f t ++ "s "
   ++ "using linear relative motion and heuristic TTC risk bands.")%string.

Definition presence_rationale : string :=
  "Birds present but no projected near-term conflicts within configured thresholds.".

(** What [evaluate_risk] does after the loop, from the loop's final
    variables. *)
Lemma evaluate_risk_outcome (decision_id : string) (query : RiskQuery)
    (config : RiskConfig) :
  RiskQuery.birds query <> [] ->
  Forall (evaluates float_pow (RiskQuery.aircraft query) config)
         (RiskQuery.birds query) ->
  outcome (run decision_id query config) =
  match scan (ttc_of float_pow (RiskQuery.aircraft query) config)
             (RiskQuery.birds query) (None, None) with
  | (Some t, Some b) =>
      outcome (RiskAssessment.init (fst (ttc_band config t)) (snd (ttc_band config t))
                 (Some t) (Some (BirdDetection.id b)) (conflict_rationale b t)
                 decision_id (hash query) ENGINE_VERSION (RiskConfig.version config))
  | _ =>
      outcome (RiskAssessment.init RiskLevel.LOW (RiskConfig.prob_presence_only config)
                 None None presence_rationale
                 decision_id (hash query) ENGINE_VERSION (RiskConfig.version config))
  end.
Proof.
  intros Hne Hall. unfold evaluate_risk.
  destruct (RiskQuery.birds query) as [|b0 l] eqn:Hbirds; [congruence|].
  rewrite (loop_ok _ _ _ _ _ Hall), bind_ret_l.
  destruct (scan _ _ _) as [[t|] [b|]]; try (rewrite outcome_bind; reflexivity).
  destruct (ttc_band config t) as [level prob]. rewrite outcome_bind. reflexivity.
Qed.

Lemma evaluate_risk_evaluates (decision_id : string) (query : RiskQuery)
    (config : RiskConfig) (a : RiskAssessment) :
  outcome (run decision_id query config) = Ok a ->
  Forall (evaluates float_pow (RiskQuery.aircraft query) config)
         (RiskQuery.birds query).
Proof.
  unfold evaluate_risk.
  destruct (RiskQuery.birds query) as [|b0 l] eqn:Hbirds; [constructor|].
  rewrite outcome_bind.
  destruct (outcome (for_each _ _ _)) as [best|e] eqn:Hloop; [|discriminate].
  intros _. exact (loop_inv _ _ _ _ _ _ Hloop).
Qed.

Lemma no_birds_outcome (decision_id : string) (query : RiskQuery)
    (config : RiskConfig) :
  RiskQuery.birds query = [] ->
  outcome (run decision_id query config) =
  Ok (RiskAssessment.mk RiskLevel.NONE 0.0 None None
        "No birds in current surveillance volume."
        decision_id (hash query) ENGINE_VERSION (RiskConfig.version config)).
Proof.
  intros H. unfold evaluate_risk. rewrite H. reflexivity.
Qed.

(** C4: on a query without birds, whatever the config, [evaluate_risk]
    does not raise: it logs the decision and returns the assessment NONE
    with probability 0.0, no time to conflict, no bird id and the fixed
    rationale. *)
Theorem evaluate_risk_no_birds (decision_id : string) (query : RiskQuery)
    (config : RiskConfig) :
  RiskQuery.birds query = [] ->
  run decision_id query config =
  ([mk_log "risk_decision"
      [("decision_id", LStr decision_id);
       ("risk_level", LStr "NONE");
       ("collision_probability", LFloat 0.0);
       ("reason", LStr "No birds in current surveillance volume.")]%string],
   Ok (RiskAssessment.mk RiskLevel.NONE 0.0 None None
         "No birds in current surveillance volume."
         decision_id (hash query) ENGINE_VERSION (RiskConfig.version config))).
Proof.
  intros H. unfold evaluate_risk. rewrite H. reflexivity.
Qed.

(** C5: on a query with birds none of which has a time to conflict (the
    speed gate or the distance gate returns [None] for each), under a config
    whose presence-only probability is in [[0, 1]], [evaluate_risk] does not
    raise and returns the assessment LOW with [prob_presence_only], no time
    to conflict and no bird id. *)
Theorem evaluate_risk_presence_only (decision_id : string) (query : RiskQuery)
    (config : RiskConfig) :
  RiskQuery.birds query <> [] ->
  (forall b, In b (RiskQuery.birds query) ->
             estimate_time_to_conflict float_pow (RiskQuery.aircraft query) b config
             = ret None) ->
  RiskAssessment.collision_probability_ok (RiskConfig.prob_presence_only config) = true ->
  outcome (run decision_id query config) =
  Ok (RiskAssessment.mk RiskLevel.LOW (RiskConfig.prob_presence_only config)
        None None presence_rationale
        decision_id (hash query) ENGINE_VERSION (RiskConfig.version config)).
Proof.
  intros Hne Hnone Hp.
  assert (Hest : forall b, In b (RiskQuery.birds query) -> est query config b = Ok None).
  { intros b Hb. unfold estimate. rewrite (Hnone b Hb). reflexivity. }
  assert (Hall : Forall (evaluates float_pow (RiskQuery.aircraft query) config)
                        (RiskQuery.birds query)).
  { apply Forall_forall. intros b Hb. exists None. exact (Hest b Hb). }
  rewrite (evaluate_risk_outcome _ _ _ Hne Hall).
  pose proof (scan_selected (ttc_of float_pow (RiskQuery.aircraft query) config)
                (RiskQuery.birds query)) as Hsel.
  destruct (scan _ _ _) as [[t|] [b|]]; cbn [selected] in Hsel; try contradiction.
  - destruct Hsel as (l1 & l2 & Hl & Hb & _).
    assert (Hin : In b (RiskQuery.birds query)) by (rewrite Hl; apply in_elt).
    unfold ttc_of in Hb. rewrite (Hest b Hin) in Hb. discriminate.
  - rewrite init_ok by exact Hp. reflexivity.
Qed.

(** Every way [evaluate_risk] returns an assessment: no birds; birds none
    of which has a time to conflict; or a bird selected by the loop. *)
Lemma evaluate_risk_inv (decision_id : string) (query : RiskQuery)
    (config : RiskConfig) (a : RiskAssessment) :
  outcome (run decision_id query config) = Ok a ->
  (RiskQuery.birds query = [] /\
   a = RiskAssessment.mk RiskLevel.NONE 0.0 None None
         "No birds in current surveillance volume."
         decision_id (hash query) ENGINE_VERSION (RiskConfig.version config)) \/
  (RiskQuery.birds query <> [] /\
   (forall b, In b (RiskQuery.birds query) -> est query config b = Ok None) /\
   a = RiskAssessment.mk RiskLevel.LOW (RiskConfig.prob_presence_only config)
         None None presence_rationale
         decision_id (hash query) ENGINE_VERSION (RiskConfig.version config)) \/
  (exists l1 b l2 t,
      RiskQuery.birds query = l1 ++ b :: l2 /\
      est query config b = Ok (Some t) /\
      a = RiskAssessment.mk (fst (ttc_band config t)) (snd (ttc_band config t))
            (Some t) (Some (BirdDetection.id b)) (conflict_rationale b t)
            decision_id (hash query) ENGINE_VERSION (RiskConfig.version config) /\
      (forall b' t', In b' (RiskQuery.birds query) ->
                     est query config b' = Ok (Some t') -> Py.lt t' t = false) /\
      (forall b' t', In b' l1 ->
                     est query config b' = Ok (Some t') -> PrimFloat.eqb t' t = false)).
Proof.
  intros Hrun.
  destruct (RiskQuery.birds query) as [|b0 l] eqn:Hbirds.
  - left. split; [reflexivity|].
    rewrite (no_birds_outcome _ _ _ Hbirds) in Hrun. congruence.
  - right.
    pose proof (evaluate_risk_evaluates _ _ _ _ Hrun) as Hall.
    assert (Hne : RiskQuery.birds query <> []) by (rewrite Hbirds; discriminate).
    rewrite (evaluate_risk_outcome _ _ _ Hne Hall) in Hrun.
    pose proof (scan_selected (ttc_of float_pow (RiskQuery.aircraft query) config)
                  (RiskQuery.birds query)) as Hsel.
    rewrite Hbirds in *.
    destruct (scan _ _ _) as [[t|] [b|]]; cbn [selected] in Hsel; try contradiction.
    + right. destruct Hsel as (l1 & l2 & Hl & Hb & Hmin & Hfirst).
      exists l1, b, l2, t. split; [exact Hl|].
      split; [apply ttc_of_estimate, Hb|].
      split; [exact (init_inv _ _ _ _ _ _ _ _ _ _ Hrun)|].
      split; intros b' t' Hin Hb'; apply ttc_of_estimate in Hb'; eauto.
    + left. split; [discriminate|]. split; [|exact (init_inv _ _ _ _ _ _ _ _ _ _ Hrun)].
      intros b Hin. rewrite Forall_forall in Hall.
      destruct (Hall b Hin) as [o Ho]. specialize (Hsel b Hin).
      unfold ttc_of in Hsel. fold (est query config b) in Hsel.
      rewrite Ho in Hsel. rewrite Ho, Hsel. reflexivity.
Qed.

(** When every estimate evaluates and the config's probabilities are in
    range, [evaluate_risk] returns an assessment. *)
Lemma evaluate_risk_returns (decision_id : string) (query : RiskQuery)
    (config : RiskConfig) :
  Forall (evaluates float_pow (RiskQuery.aircraft query) config)
         (RiskQuery.birds query) ->
  probabilities_in_range config ->
  exists a, outcome (run decision_id query config) = Ok a.
Proof.
  intros Hall Hp.
  destruct (RiskQuery.birds query) as [|b0 l] eqn:Hbirds.
  - rewrite (no_birds_outcome _ _ _ Hbirds). eexists. reflexivity.
  - assert (Hne : RiskQuery.birds query <> []) by (rewrite Hbirds; discriminate).
    rewrite <- Hbirds in Hall. rewrite (evaluate_risk_outcome _ _ _ Hne Hall).
    destruct (scan _ _ _) as [[t|] [b|]].
    + rewrite init_ok by (apply band_probability_ok, Hp). eexists. reflexivity.
    + rewrite init_ok by apply Hp. eexists. reflexivity.
    + rewrite init_ok by apply Hp. eexists. reflexivity.
    + rewrite init_ok by apply Hp. eexists. reflexivity.
Qed.

(** C7: on a query where some bird has a time to conflict, an assessment
    [evaluate_risk] returns names the first bird, in list order, among those
    whose time to conflict is the minimum: no bird has a smaller time to
    conflict, no earlier bird has an equal one (and, the clamp's floor not
    being NaN, every bird's is at least as large and every earlier bird's is
    larger).  It returns one when every estimate evaluates and the config's
    probabilities are in range. *)
Theorem evaluate_risk_selects_first_minimum (decision_id : string)
    (query : RiskQuery) (config : RiskConfig) :
  (exists b t, In b (RiskQuery.birds query) /\ est query config b = Ok (Some t)) ->
  (forall a, outcome (run decision_id query config) = Ok a ->
     exists l1 b l2 t,
       RiskQuery.birds query = l1 ++ b :: l2 /\
       est query config b = Ok (Some t) /\
       RiskAssessment.most_threatening_bird_id a = Some (BirdDetection.id b) /\
       RiskAssessment.time_to_conflict_s a = Some t /\
       (forall b' t', In b' (RiskQuery.birds query) ->
                      est query config b' = Ok (Some t') -> Py.lt t' t = false) /\
       (forall b' t', In b' l1 ->
                      est query config b' = Ok (Some t') -> PrimFloat.eqb t' t = false) /\
       (is_nan (RiskConfig.min_ttc_s config) = false ->
        (forall b' t', In b' (RiskQuery.birds query) ->
                       est query config b' = Ok (Some t') -> Py.le t t' = true) /\
        (forall b' t', In b' l1 ->
                       est query config b' = Ok (Some t') -> Py.lt t t' = true))) /\
  (Forall (evaluates float_pow (RiskQuery.aircraft query) config)
          (RiskQuery.birds query) ->
   probabilities_in_range config ->
   exists a, outcome (run decision_id query config) = Ok a).
Proof.
  intros (bv & tv & Hinv & Hv). split; [|apply evaluate_risk_returns].
  intros a Hrun.
  destruct (evaluate_risk_inv _ _ _ _ Hrun)
    as [[Hnil _]|[(_ & Hnone & _)|(l1 & b & l2 & t & Hl & Hb & -> & Hmin & Hfirst)]].
  - rewrite Hnil in Hinv. destruct Hinv.
  - rewrite (Hnone bv Hinv) in Hv. discriminate.
  - exists l1, b, l2, t. repeat split; trivial.
    + intros b' t' Hin Hb'. unfold Py.le.
      assert (Nt : is_nan t = false).
      { rewrite <- H. apply (ttc_of_nan float_pow (RiskQuery.aircraft query) config b).
        apply ttc_of_estimate, Hb. }
      assert (Nt' : is_nan t' = false).
      { rewrite <- H. apply (ttc_of_nan float_pow (RiskQuery.aircraft query) config b').
        apply ttc_of_estimate, Hb'. }
      exact (not_ltb_leb _ _ (Hmin b' t' Hin Hb') Nt' Nt).
    + intros b' t' Hin Hb'. unfold Py.lt.
      assert (Nt : is_nan t = false).
      { rewrite <- H. apply (ttc_of_nan float_pow (RiskQuery.aircraft query) config b).
        apply ttc_of_estimate, Hb. }
      assert (Nt' : is_nan t' = false).
      { rewrite <- H. apply (ttc_of_nan float_pow (RiskQuery.aircraft query) config b').
        apply ttc_of_estimate, Hb'. }
      assert (Hin' : In b' (RiskQuery.birds query))
        by (rewrite Hl; apply in_or_app; left; exact Hin).
      exact (not_ltb_not_eqb _ _ (Hmin b' t' Hin' Hb') (Hfirst b' t' Hin Hb') Nt' Nt).
Qed.

(** C10: in every assessment [evaluate_risk] returns, the time to conflict
    is present exactly when the bird id is; both are present exactly when
    some bird has a time to conflict, and then they are the time to conflict
    of a bird than which no bird has a smaller one, and that bird's id; both
    are absent on an empty list and when no bird has a time to conflict. *)
Theorem evaluate_risk_ttc_iff_bird (decision_id : string) (query : RiskQuery)
    (config : RiskConfig) (a : RiskAssessment) :
  outcome (run decision_id query config) = Ok a ->
  (RiskAssessment.time_to_conflict_s a = None <->
   RiskAssessment.most_threatening_bird_id a = None) /\
  ((exists b t, In b (RiskQuery.birds query) /\ est query config b = Ok (Some t)) <->
   RiskAssessment.time_to_conflict_s a <> None) /\
  (forall t, RiskAssessment.time_to_conflict_s a = Some t ->
     exists b, In b (RiskQuery.birds query) /\
               est query config b = Ok (Some t) /\
               RiskAssessment.most_threatening_bird_id a = Some (BirdDetection.id b) /\
               forall b' t', In b' (RiskQuery.birds query) ->
                             est query config b' = Ok (Some t') -> Py.lt t' t = false) /\
  (RiskQuery.birds query = [] ->
   RiskAssessment.risk_level a = RiskLevel.NONE /\
   RiskAssessment.time_to_conflict_s a = None /\
   RiskAssessment.most_threatening_bird_id a = None) /\
  (RiskQuery.birds query <> [] ->
   (forall b, In b (RiskQuery.birds query) -> est query config b = Ok None) ->
   RiskAssessment.risk_level a = RiskLevel.LOW /\
   RiskAssessment.time_to_conflict_s a = None /\
   RiskAssessment.most_threatening_bird_id a = None).
Proof.
  intros Hrun.
  destruct (evaluate_risk_inv _ _ _ _ Hrun)
    as [[Hnil ->]|[(Hne & Hnone & ->)|(l1 & b & l2 & t & Hl & Hb & -> & Hmin & Hfirst)]];
    cbn [RiskAssessment.time_to_conflict_s RiskAssessment.most_threatening_bird_id
         RiskAssessment.risk_level].
  - repeat split; intros; trivial; try congruence.
    destruct H as (b & t & Hin & _). rewrite Hnil in Hin. destruct Hin.
  - repeat split; intros; trivial; try congruence.
    destruct H as (b & t & Hin & Hb). rewrite (Hnone b Hin) in Hb. discriminate.
  - assert (Hin : In b (RiskQuery.birds query)) by (rewrite Hl; apply in_elt).
    repeat split; intros; try discriminate.
    all: try (exfalso; rewrite H in Hin; destruct Hin).
    all: try (exfalso; rewrite (H0 b Hin) in Hb; discriminate).
    + exists b, t. split; assumption.
    + injection H as <-. exists b. repeat split; assumption.
Qed.

End Evaluate.

(** ** End-to-end scenario 1 *)

Section Scenario.

Variable float_pow : float -> float -> result float.
Variables format_1f floatstr : float -> string.
Variables encode_basestring_ascii sha256_hexdigest : string -> string.

(** C3: the aircraft at (0,0,100) with velocity (50,0,0) and one bird
    hovering at (400,0,100), under the default config, the powers involved
    being exact: the distance is 400, within the threshold 500; the relative
    speed is 50; the quotient 8 is its own clamp into [[5, 120]]; 8 is below
    the high threshold 10, so the assessment is CRITICAL with probability
    0.80, and the plan is ABORT_MISSION with human approval. *)
Theorem scenario_1_critical_abort (callsign id decision_id : string)
    (heading_deg altitude_agl_m confidence : float) (t_aircraft t_bird : datetime) :
  float_pow 50 2 = Ok 2500%float ->
  float_pow 0 2 = Ok 0%float ->
  float_pow 2500 0.5 = Ok 50%float ->
  float_pow (-400) 2 = Ok 160000%float ->
  float_pow 160000 0.5 = Ok 400%float ->
  let aircraft := scenario_aircraft callsign heading_deg altitude_agl_m t_aircraft in
  let bird := hovering_bird id 400 t_bird confidence in
  distance float_pow aircraft bird = ret 400%float /\
  Py.gt 400 (RiskConfig.distance_threshold_m RISK_CONFIG) = false /\
  relative_speed float_pow aircraft bird = ret 50%float /\
  (400 / 50 = 8)%float /\
  Py.max (RiskConfig.min_ttc_s RISK_CONFIG)
         (Py.min (RiskConfig.max_ttc_s RISK_CONFIG) 8) = 8%float /\
  estimate_time_to_conflict float_pow aircraft bird RISK_CONFIG = ret (Some 8%float) /\
  Py.lt 8 (RiskConfig.ttc_high_threshold_s RISK_CONFIG) = true /\
  exists a : RiskAssessment,
    outcome (evaluate_risk float_pow format_1f floatstr encode_basestring_ascii
               sha256_hexdigest decision_id (RiskQuery.mk aircraft [bird]) RISK_CONFIG)
    = Ok a /\
    RiskAssessment.risk_level a = RiskLevel.CRITICAL /\
    RiskAssessment.collision_probability a = 0.80%float /\
    RiskAssessment.time_to_conflict_s a = Some 8%float /\
    RiskAssessment.most_threatening_bird_id a = Some id /\
    ActionRecommendation.action (plan_action a) = ActionType.ABORT_MISSION /\
    ActionRecommendation.requires_human_approval (plan_action a) = true.
Proof.
  intros P50 P0 P2500 P400 P160000 aircraft bird.
  assert (Hd : distance float_pow aircraft bird = ret 400%float).
  { unfold distance, aircraft, bird. cbn - [bind lift].
    rewrite P400, bind_lift_ok, P0, !bind_lift_ok.
    cbn - [bind lift]. rewrite P160000. reflexivity. }
  assert (Hrs : relative_speed float_pow aircraft bird = ret 50%float).
  { unfold relative_speed, aircraft, bird. cbn - [bind lift].
    rewrite P50, bind_lift_ok, P0, !bind_lift_ok.
    cbn - [bind lift]. rewrite P2500. reflexivity. }
  assert (Hest : estimate_time_to_conflict float_pow aircraft bird RISK_CONFIG
                 = ret (Some 8%float)).
  { rewrite (estimate_near float_pow aircraft bird RISK_CONFIG 50 400 Hrs Hd);
      reflexivity. }
  repeat split; try reflexivity; try assumption.
  assert (Hev : Forall (evaluates float_pow aircraft RISK_CONFIG) [bird]).
  { repeat constructor. exists (Some 8%float). unfold estimate. rewrite Hest.
    reflexivity. }
  eexists. split.
  - rewrite evaluate_risk_outcome; [|discriminate|exact Hev].
    cbn [RiskQuery.birds RiskQuery.aircraft scan fold_left].
    unfold track_pure, ttc_of, estimate. rewrite Hest. cbn [outcome snd ret fst].
    rewrite init_ok by reflexivity. reflexivity.
  - repeat split; reflexivity.
Qed.

End Scenario.

(** The scenario, run with the reference power. *)
Lemma scenario_1_runs :
  exists a : RiskAssessment,
    outcome (evaluate_risk ieee_pow text_of_float text_of_float text_of_string
               text_of_string "d-1" (RiskQuery.mk own_ship [bird_A]) RISK_CONFIG)
    = Ok a /\
    RiskAssessment.risk_level a = RiskLevel.CRITICAL /\
    RiskAssessment.collision_probability a = 0.80%float /\
    RiskAssessment.time_to_conflict_s a = Some 8%float /\
    RiskAssessment.most_threatening_bird_id a = Some "A"%string /\
    ActionRecommendation.action (plan_action a) = ActionType.ABORT_MISSION /\
    ActionRecommendation.requires_human_approval (plan_action a) = true.
Proof.
  exact (proj2 (proj2 (proj2 (proj2 (proj2 (proj2 (proj2
           (scenario_1_critical_abort ieee_pow text_of_float text_of_float
              text_of_string text_of_string "N123" "A" "d-1" 90 100 1 noon noon
              eq_refl eq_refl eq_refl eq_refl eq_refl)))))))).
Defined.

(** ** The order of the birds *)


Lemma init_probability (level : RiskLevel) (p : float) (ttc : option float)
    (bird : option string) (r d h e c : string) (a : RiskAssessment) :
  outcome (RiskAssessment.init level p ttc bird r d h e c) = Ok a ->
  RiskAssessment.collision_probability_ok p = true.
Proof.
  unfold RiskAssessment.init.
  destruct (RiskAssessment.collision_probability_ok p); [reflexivity|discriminate].
Qed.


Section Permuted.

Import FloatFacts.

Variable float_pow : float -> float -> result float.
Variables format_1f floatstr : float -> string.
Variables encode_basestring_ascii sha256_hexdigest : string -> string.

Notation run decision_id query config :=
  (evaluate_risk float_pow format_1f floatstr encode_basestring_ascii
     sha256_hexdigest decision_id query config).



End Permuted.

(** ** The input hash *)

Section Hashing.

Variable floatstr : float -> string.
Variable encode_basestring_ascii : string -> string.
Variable sha256_hexdigest : string -> string.

Local Open Scope string_scope.

(** The canonical text of a query, written out: in every object the
    members stand in the order of their keys, the birds in the order of the
    list, and a timestamp as the string [str] gives. *)
Definition member (key value : string) : string :=
  encode_basestring_ascii key ++ ": " ++ value.

Definition object (members : list string) : string :=
  "{" ++ String.concat ", " members ++ "}".

Definition Coord3D_json (c : Coord3D) : string :=
  object [member "x" (floatstr (Coord3D.x c));
          member "y" (floatstr (Coord3D.y c));
          member "z" (floatstr (Coord3D.z c))].

Definition Velocity3D_json (v : Velocity3D) : string :=
  object [member "vx" (floatstr (Velocity3D.vx v));
          member "vy" (floatstr (Velocity3D.vy v));
          member "vz" (floatstr (Velocity3D.vz v))].

Definition BirdDetection_json (b : BirdDetection) : string :=
  object [member "confidence" (floatstr (BirdDetection.confidence b));
          member "id" (encode_basestring_ascii (BirdDetection.id b));
          member "position" (Coord3D_json (BirdDetection.position b));
          member "timestamp"
            (encode_basestring_ascii (datetime_str (BirdDetection.timestamp b)));
          member "velocity" (Velocity3D_json (BirdDetection.velocity b))].

Definition AircraftState_json (a : AircraftState) : string :=
  object [member "altitude_agl_m" (floatstr (AircraftState.altitude_agl_m a));
          member "callsign" (encode_basestring_ascii (AircraftState.callsign a));
          member "heading_deg" (floatstr (AircraftState.heading_deg a));
          member "position" (Coord3D_json (AircraftState.position a));
          member "timestamp"
            (encode_basestring_ascii (datetime_str (AircraftState.timestamp a)));
          member "velocity" (Velocity3D_json (AircraftState.velocity a))].

Definition canonical_json (q : RiskQuery) : string :=
  object [member "aircraft" (AircraftState_json (RiskQuery.aircraft q));
          member "birds"
            ("[" ++ String.concat ", " (map BirdDetection_json (RiskQuery.birds q))
                 ++ "]")].

Lemma json_dumps_bird (b : BirdDetection) :
  json_dumps floatstr encode_basestring_ascii (BirdDetection_dict b)
  = BirdDetection_json b.
Proof. reflexivity. Qed.

Lemma json_dumps_aircraft (a : AircraftState) :
  json_dumps floatstr encode_basestring_ascii (AircraftState_dict a)
  = AircraftState_json a.
Proof. reflexivity. Qed.

Lemma json_dumps_list (l : list pyobj) :
  json_dumps floatstr encode_basestring_ascii (PyList l)
  = "[" ++ String.concat ", " (map (json_dumps floatstr encode_basestring_ascii) l)
        ++ "]".
Proof. reflexivity. Qed.

Lemma json_dumps_query (q : RiskQuery) :
  json_dumps floatstr encode_basestring_ascii (RiskQuery_dict q) = canonical_json q.
Proof.
  unfold canonical_json.
  rewrite <- json_dumps_aircraft.
  rewrite <- (map_ext _ _ json_dumps_bird), <- map_map, <- json_dumps_list.
  reflexivity.
Qed.

Lemma zfill_length (width : nat) (n : Z) (acc : string) :
  String.length (zfill width n acc) = (width + String.length acc)%nat.
Proof.
  revert n acc. induction width as [|w IH]; intros n acc; cbn [zfill].
  - reflexivity.
  - rewrite IH. cbn [String.length]. lia.
Qed.

End Hashing.

(** ** The properties on concrete inputs *)

Local Open Scope string_scope.

(** The default thresholds are descending, and 8 s is CRITICAL. *)
Lemma ttc_band_default_8 : fst (ttc_band RISK_CONFIG 8) = RiskLevel.CRITICAL.
Proof.
  apply (proj2 (proj1 (proj2 (proj2 (proj2 (proj2 (proj2 (proj2 (proj2 (proj2
           (ttc_band_intervals RISK_CONFIG 8 eq_refl eq_refl eq_refl))))))))))).
  reflexivity.
Defined.

(** The default clamp keeps the 8 s of scenario 1, within [[5, 120]]. *)
Lemma estimate_default_8 :
  estimate_time_to_conflict ieee_pow own_ship bird_A RISK_CONFIG = ret (Some 8%float) /\
  Py.le 5 8 = true /\ Py.le 8 120 = true.
Proof.
  split.
  - exact (proj1 (proj2 (proj2
             (estimate_time_to_conflict_cases ieee_pow own_ship bird_A RISK_CONFIG
                eq_refl)))
             50%float 400%float eq_refl eq_refl eq_refl eq_refl).
  - exact (proj2 (proj2 (proj2
             (estimate_time_to_conflict_cases ieee_pow own_ship bird_A RISK_CONFIG
                eq_refl)))
             8%float eq_refl).
Defined.

(** C2 as stated fails: with the clamp bounds inverted (floor 10, ceiling
    5), the bird of scenario 1 gets the time to conflict 10, above the
    ceiling. *)
Lemma estimate_outside_inverted_bounds :
  estimate_time_to_conflict ieee_pow own_ship bird_A inverted_config
  = ret (Some 10%float) /\
  Py.le 10 (RiskConfig.max_ttc_s inverted_config) = false.
Proof. split; reflexivity. Qed.

(** Scenario 3: no birds. *)
Lemma scenario_3_none :
  outcome (evaluate_risk ieee_pow text_of_float text_of_float text_of_string
             text_of_string "d-3" (RiskQuery.mk own_ship []) RISK_CONFIG)
  = Ok (RiskAssessment.mk RiskLevel.NONE 0.0 None None
          "No birds in current surveillance volume." "d-3"
          (compute_input_hash text_of_float text_of_string text_of_string
             (RiskQuery.mk own_ship []))
          ENGINE_VERSION "2025-11-30-a").
Proof.
  exact (f_equal snd
           (evaluate_risk_no_birds ieee_pow text_of_float text_of_float
              text_of_string text_of_string "d-3" (RiskQuery.mk own_ship [])
              RISK_CONFIG eq_refl)).
Defined.

(** Scenario 2: one bird, 2000 m away. *)
Lemma scenario_2_presence_only :
  outcome (evaluate_risk ieee_pow text_of_float text_of_float text_of_string
             text_of_string "d-2" (RiskQuery.mk own_ship [bird_far]) RISK_CONFIG)
  = Ok (RiskAssessment.mk RiskLevel.LOW 0.05 None None presence_rationale "d-2"
          (compute_input_hash text_of_float text_of_string text_of_string
             (RiskQuery.mk own_ship [bird_far]))
          ENGINE_VERSION "2025-11-30-a").
Proof.
  apply (evaluate_risk_presence_only ieee_pow text_of_float text_of_float
           text_of_string text_of_string "d-2" (RiskQuery.mk own_ship [bird_far])
           RISK_CONFIG).
  - discriminate.
  - intros b [<-|[]]. reflexivity.
  - reflexivity.
Defined.

Lemma default_probabilities_in_range : probabilities_in_range RISK_CONFIG.
Proof. repeat split. Qed.

(** A far bird, then two birds tied at 8 s: an assessment is returned. *)
Lemma tie_query_returns :
  exists a,
    outcome (evaluate_risk ieee_pow text_of_float text_of_float text_of_string
               text_of_string "d-4"
               (RiskQuery.mk own_ship [bird_far; bird_A; bird_B]) RISK_CONFIG)
    = Ok a.
Proof.
  apply (evaluate_risk_selects_first_minimum ieee_pow text_of_float text_of_float
           text_of_string text_of_string "d-4"
           (RiskQuery.mk own_ship [bird_far; bird_A; bird_B]) RISK_CONFIG).
  - exists bird_A, 8%float. split; [right; left; reflexivity|reflexivity].
  - repeat constructor; eexists; reflexivity.
  - exact default_probabilities_in_range.
Defined.

(** The assessment of scenario 1 has both its time to conflict and its
    bird id. *)
Lemma scenario_1_both_present :
  let a := RiskAssessment.mk RiskLevel.CRITICAL 0.80 (Some 8%float) (Some "A")
             (conflict_rationale text_of_float bird_A 8) "d-1"
             (compute_input_hash text_of_float text_of_string text_of_string
                (RiskQuery.mk own_ship [bird_A]))
             ENGINE_VERSION "2025-11-30-a" in
  RiskAssessment.time_to_conflict_s a = None <->
  RiskAssessment.most_threatening_bird_id a = None.
Proof.
  exact (proj1 (evaluate_risk_ttc_iff_bird ieee_pow text_of_float text_of_float
                  text_of_string text_of_string "d-1"
                  (RiskQuery.mk own_ship [bird_A]) RISK_CONFIG _ eq_refl)).
Defined.




(** * Further properties of the code *)

(** ** The audit log of an evaluation *)

(** The value of a key in the [extra] dictionary of a log record. *)
Fixpoint extra_get (key : string) (extra : list (string * log_value))
  : option log_value :=
  match extra with
  | [] => None
  | (k, v) :: extra' => if String.eqb k key then Some v else extra_get key extra'
  end.

Section AuditLog.

Variable float_pow : float -> float -> result float.
Variables format_1f floatstr : float -> string.
Variables encode_basestring_ascii sha256_hexdigest : string -> string.

Notation run decision_id query config :=
  (evaluate_risk float_pow format_1f floatstr encode_basestring_ascii
     sha256_hexdigest decision_id query config).

Lemma loop_silent (aircraft : AircraftState) (config : RiskConfig)
    (l : list BirdDetection) (best : option float * option BirdDetection) :
  fst (for_each (track_best float_pow aircraft config) l best) = [].
Proof.
  revert best. induction l as [|b l IH]; intros best; [reflexivity|].
  cbn [for_each]. rewrite log_bind.
  destruct (estimate float_pow aircraft config b) as [o|e] eqn:Hb.
  - assert (Hev : evaluates float_pow aircraft config b) by (exists o; exact Hb).
    rewrite (track_best_ok _ _ _ best b Hev). cbn. apply IH.
  - rewrite (track_best_raise _ _ _ best b e Hb). reflexivity.
Qed.

Lemma loop_raise (aircraft : AircraftState) (config : RiskConfig)
    (l : list BirdDetection) (best : option float * option BirdDetection) (e : exn) :
  outcome (for_each (track_best float_pow aircraft config) l best) = Raise e ->
  exists b, In b l /\ estimate float_pow aircraft config b = Raise e.
Proof.
  revert best. induction l as [|b l IH]; intros best H; [discriminate|].
  cbn [for_each] in H.
  destruct (estimate float_pow aircraft config b) as [o|e'] eqn:Hb.
  - assert (Hev : evaluates float_pow aircraft config b) by (exists o; exact Hb).
    rewrite (track_best_ok _ _ _ best b Hev), bind_ret_l in H.
    destruct (IH _ H) as (b' & Hin & Hb'). exists b'. split; [right|]; assumption.
  - rewrite (track_best_raise _ _ _ best b e' Hb) in H. injection H as <-.
    exists b. split; [left; reflexivity|exact Hb].
Qed.

Lemma log_then_init (extra : list (string * log_value)) (level : RiskLevel)
    (p : float) (ttc : option float) (bird : option string) (r d h e c : string) :
  (logger_info "risk_decision" extra ;;;
   RiskAssessment.init level p ttc bird r d h e c) =
  ([mk_log "risk_decision" extra],
   outcome (RiskAssessment.init level p ttc bird r d h e c)).
Proof.
  unfold logger_info, bind, RiskAssessment.init.
  destruct (RiskAssessment.collision_probability_ok p); reflexivity.
Qed.

(** The run of [evaluate_risk]: an exception of the loop before anything
    is logged, or one record and then the constructor. *)
Lemma evaluate_risk_run (decision_id : string) (query : RiskQuery)
    (config : RiskConfig) :
  (exists b e,
      In b (RiskQuery.birds query) /\
      estimate float_pow (RiskQuery.aircraft query) config b = Raise e /\
      run decision_id query config = raise e) \/
  (exists level prob ttc bird rationale extra,
      run decision_id query config =
      ([mk_log "risk_decision" extra],
       outcome (RiskAssessment.init level prob ttc bird rationale decision_id
                  (compute_input_hash floatstr encode_basestring_ascii
                     sha256_hexdigest query)
                  ENGINE_VERSION (RiskConfig.version config))) /\
      extra_get "decision_id" extra = Some (LStr decision_id) /\
      extra_get "risk_level" extra = Some (LStr (RiskLevel.value level)) /\
      extra_get "collision_probability" extra = Some (LFloat prob) /\
      extra_get "time_to_conflict_s" extra = option_map LFloat ttc /\
      extra_get "most_threatening_bird_id" extra = option_map LStr bird /\
      (ttc = None -> extra_get "reason" extra = Some (LStr rationale)) /\
      Forall (evaluates float_pow (RiskQuery.aircraft query) config)
             (RiskQuery.birds query)).
Proof.
  unfold evaluate_risk.
  destruct (RiskQuery.birds query) as [|b0 l] eqn:Hbirds.
  - right. do 6 eexists. split; [apply log_then_init|].
    repeat split; try reflexivity. constructor.
  - rewrite <- Hbirds.
    pose proof (loop_silent (RiskQuery.aircraft query) config (RiskQuery.birds query)
                  (None, None)) as Hsil.
    rewrite (silent_eq _ Hsil).
    destruct (outcome (for_each _ _ _)) as [best|e] eqn:Hloop.
    + right. rewrite bind_lift_ok.
      destruct best as [[t|] [b|]];
        [destruct (ttc_band config t) as [level prob]|..];
        (do 6 eexists; split; [apply log_then_init|]);
        repeat split; try reflexivity; try discriminate;
        exact (loop_inv _ _ _ _ _ _ Hloop).
    + left. destruct (loop_raise _ _ _ _ _ Hloop) as (b & Hin & Hb).
      exists b, e. repeat split; trivial.
Qed.

(** X1: an evaluation that returns an assessment has logged exactly one
    record, [risk_decision], whose fields are those of the assessment: the
    decision id, the value of the risk level, the collision probability, the
    time to conflict and the bird id when the assessment has them, and the
    rationale as [reason] when it has no time to conflict. *)
Theorem evaluate_risk_logs_its_decision (decision_id : string) (query : RiskQuery)
    (config : RiskConfig) (a : RiskAssessment) :
  outcome (run decision_id query config) = Ok a ->
  exists extra,
    fst (run decision_id query config) = [mk_log "risk_decision" extra] /\
    extra_get "decision_id" extra = Some (LStr (RiskAssessment.decision_id a)) /\
    extra_get "risk_level" extra
    = Some (LStr (RiskLevel.value (RiskAssessment.risk_level a))) /\
    extra_get "collision_probability" extra
    = Some (LFloat (RiskAssessment.collision_probability a)) /\
    extra_get "time_to_conflict_s" extra
    = option_map LFloat (RiskAssessment.time_to_conflict_s a) /\
    extra_get "most_threatening_bird_id" extra
    = option_map LStr (RiskAssessment.most_threatening_bird_id a) /\
    (RiskAssessment.time_to_conflict_s a = None ->
     extra_get "reason" extra = Some (LStr (RiskAssessment.rationale a))).
Proof.
  intros Hrun.
  destruct (evaluate_risk_run decision_id query config)
    as [(b & e & _ & _ & E)|(level & prob & ttc & bird & rationale & extra & E & H)].
  - rewrite E in Hrun. discriminate.
  - rewrite E in Hrun |- *. cbn [outcome snd fst] in Hrun |- *.
    apply init_inv in Hrun. subst a. exists extra. split; [reflexivity|].
    repeat split; apply H.
Qed.

(** X2: an evaluation raises in one of two ways.  Either the estimate of a
    bird raised, and then nothing was logged; or the constructor of the
    assessment refused the probability, and then the decision had already
    been logged, with that probability. *)
Theorem evaluate_risk_failure (decision_id : string) (query : RiskQuery)
    (config : RiskConfig) (e : exn) :
  outcome (run decision_id query config) = Raise e ->
  (fst (run decision_id query config) = [] /\
   exists b, In b (RiskQuery.birds query) /\
             estimate float_pow (RiskQuery.aircraft query) config b = Raise e) \/
  (e = ValidationError /\
   exists extra p,
     fst (run decision_id query config) = [mk_log "risk_decision" extra] /\
     extra_get "collision_probability" extra = Some (LFloat p) /\
     RiskAssessment.collision_probability_ok p = false).
Proof.
  intros Hrun.
  destruct (evaluate_risk_run decision_id query config)
    as [(b & e' & Hin & Hb & E)|(level & prob & ttc & bird & rationale & extra & E & H)].
  - rewrite E in Hrun |- *. injection Hrun as <-. left.
    split; [reflexivity|]. exists b. split; assumption.
  - rewrite E in Hrun |- *. cbn [outcome snd fst] in Hrun |- *. right.
    unfold RiskAssessment.init in Hrun.
    destruct (RiskAssessment.collision_probability_ok prob) eqn:Hp; [discriminate|].
    injection Hrun as <-. split; [reflexivity|].
    exists extra, prob. split; [reflexivity|]. split; [apply H|exact Hp].
Qed.

(** X3: every assessment returned carries the token drawn for the call,
    the hash of the query, the engine version and the version of the config
    it was evaluated under, and a probability within [[0, 1]]. *)
Theorem evaluate_risk_audit_fields (decision_id : string) (query : RiskQuery)
    (config : RiskConfig) (a : RiskAssessment) :
  outcome (run decision_id query config) = Ok a ->
  RiskAssessment.decision_id a = decision_id /\
  RiskAssessment.input_hash a
  = compute_input_hash floatstr encode_basestring_ascii sha256_hexdigest query /\
  RiskAssessment.engine_version a = ENGINE_VERSION /\
  RiskAssessment.config_version a = RiskConfig.version config /\
  Py.ge (RiskAssessment.collision_probability a) 0 = true /\
  Py.le (RiskAssessment.collision_probability a) 1 = true.
Proof.
  intros Hrun.
  destruct (evaluate_risk_run decision_id query config)
    as [(b & e & _ & _ & E)|(level & prob & ttc & bird & rationale & extra & E & _)].
  - rewrite E in Hrun. discriminate.
  - rewrite E in Hrun. cbn [outcome snd] in Hrun.
    pose proof (init_probability _ _ _ _ _ _ _ _ _ _ Hrun) as Hp.
    apply init_inv in Hrun. subst a. cbn.
    unfold RiskAssessment.collision_probability_ok in Hp.
    apply andb_prop in Hp. tauto.
Qed.

End AuditLog.

(** ** What the estimate raises and returns *)

Section EstimateEdges.

Import FloatOrder FloatFacts.

Variable float_pow : float -> float -> result float.

Lemma norm_raise (a b c : float) (e : exn) :
  outcome (sx <- lift (float_pow a 2) ;;
           sy <- lift (float_pow b 2) ;;
           sz <- lift (float_pow c 2) ;;
           lift (float_pow (sx + sy + sz) 0.5)) = Raise e ->
  exists x y, float_pow x y = Raise e.
Proof.
  destruct (float_pow a 2) as [sx|e1] eqn:E1;
    [rewrite bind_lift_ok|intros [= <-]; eauto].
  destruct (float_pow b 2) as [sy|e2] eqn:E2;
    [rewrite bind_lift_ok|intros [= <-]; eauto].
  destruct (float_pow c 2) as [sz|e3] eqn:E3;
    [rewrite bind_lift_ok|intros [= <-]; eauto].
  cbn. eauto.
Qed.

(** X4: [estimate_time_to_conflict] raises only what a float power
    raised.  In particular its division never raises [ZeroDivisionError]: a
    relative speed that passes the gate is not zero. *)
Theorem estimate_raises_what_a_power_raises (aircraft : AircraftState)
    (bird : BirdDetection) (config : RiskConfig) (e : exn) :
  outcome (estimate_time_to_conflict float_pow aircraft bird config) = Raise e ->
  exists x y, float_pow x y = Raise e.
Proof.
  unfold estimate_time_to_conflict.
  rewrite (silent_eq _ (relative_speed_silent float_pow aircraft bird)).
  destruct (outcome (relative_speed float_pow aircraft bird)) as [rs|e1] eqn:Hrs.
  - rewrite bind_lift_ok. destruct (Py.lt rs 1e-3) eqn:Hlt; [discriminate|].
    rewrite (silent_eq _ (distance_silent float_pow aircraft bird)).
    destruct (outcome (distance float_pow aircraft bird)) as [d|e2] eqn:Hd.
    + rewrite bind_lift_ok. destruct (Py.gt d _); [discriminate|].
      rewrite (truediv_gate d rs Hlt), bind_ret_l. discriminate.
    + intros [= <-]. exact (norm_raise _ _ _ _ Hd).
  - intros [= <-]. exact (norm_raise _ _ _ _ Hrs).
Qed.

(** X5: a time to conflict that is returned is the quotient of distance
    by relative speed or one of the two bounds of the clamp, and it is NaN
    only when [min_ttc_s] is: a quotient that is NaN does not come out. *)
Theorem estimate_returns_quotient_or_bound (aircraft : AircraftState)
    (bird : BirdDetection) (config : RiskConfig) (t : float) :
  outcome (estimate_time_to_conflict float_pow aircraft bird config) = Ok (Some t) ->
  is_nan t = is_nan (RiskConfig.min_ttc_s config) /\
  (t = RiskConfig.min_ttc_s config \/
   t = RiskConfig.max_ttc_s config \/
   exists rs d,
     relative_speed float_pow aircraft bird = ret rs /\
     distance float_pow aircraft bird = ret d /\
     t = (d / rs)%float).
Proof.
  intros H.
  destruct (estimate_some_inv _ _ _ _ _ H) as (rs & d & Hrs & Hd & _ & _ & ->).
  split; [apply clamp_nan|].
  unfold Py.max, Py.min. destruct (Py.gt _ _); [|left; reflexivity].
  destruct (Py.lt _ _); [|right; left; reflexivity].
  right; right. exists rs, d. repeat split; assumption.
Qed.

End EstimateEdges.

(** ** The assessment as a function of the minimal time to conflict *)

(** The risk levels, from none to critical. *)
Definition severity (l : RiskLevel) : nat :=
  match l with
  | RiskLevel.NONE => 0
  | RiskLevel.LOW => 1
  | RiskLevel.MEDIUM => 2
  | RiskLevel.HIGH => 3
  | RiskLevel.CRITICAL => 4
  end.

Lemma ttc_band_antitone (config : RiskConfig) (t t' : float) :
  Py.le t' t = true ->
  severity (fst (ttc_band config t)) <= severity (fst (ttc_band config t')).
Proof.
  unfold Py.le, ttc_band, Py.ge. intros H.
  generalize (RiskConfig.ttc_low_threshold_s config)
             (RiskConfig.ttc_medium_threshold_s config)
             (RiskConfig.ttc_high_threshold_s config).
  intros low medium high.
  destruct (low <=? t')%float eqn:L'.
  { rewrite (FloatFacts.leb_trans _ _ _ L' H). cbn. lia. }
  destruct (low <=? t)%float; [cbn; destruct (medium <=? t')%float;
                                [|destruct (high <=? t')%float]; cbn; lia|].
  destruct (medium <=? t')%float eqn:M'.
  { rewrite (FloatFacts.leb_trans _ _ _ M' H). cbn. lia. }
  destruct (medium <=? t)%float; [cbn; destruct (high <=? t')%float; cbn; lia|].
  destruct (high <=? t')%float eqn:H'.
  { rewrite (FloatFacts.leb_trans _ _ _ H' H). cbn. lia. }
  destruct (high <=? t)%float; cbn; lia.
Qed.

Lemma ttc_band_banded (config : RiskConfig) (t : float) :
  1 <= severity (fst (ttc_band config t)).
Proof.
  unfold ttc_band. destruct (Py.ge t _); [cbn; lia|].
  destruct (Py.ge t _); [cbn; lia|]. destruct (Py.ge t _); cbn; lia.
Qed.

Lemma clamp_floor (lo hi x : float) :
  is_nan lo = false -> Py.le lo (Py.max lo (Py.min hi x)) = true.
Proof.
  unfold Py.le, Py.max, Py.gt. intros N.
  destruct (lo <? Py.min hi x)%float eqn:E.
  - apply FloatFacts.ltb_leb, E.
  - rewrite FloatFacts.leb_refl_nan, N. reflexivity.
Qed.

Section AssessmentShape.

Import FloatFacts.

Variable float_pow : float -> float -> result float.
Variables format_1f floatstr : float -> string.
Variables encode_basestring_ascii sha256_hexdigest : string -> string.

Notation run decision_id query config :=
  (evaluate_risk float_pow format_1f floatstr encode_basestring_ascii
     sha256_hexdigest decision_id query config).
Notation inv H :=
  (evaluate_risk_inv float_pow format_1f floatstr encode_basestring_ascii
     sha256_hexdigest _ _ _ _ H).

(** X6: the plan made from an assessment that [evaluate_risk] returned
    asks for human approval exactly when the assessment has a time to
    conflict below [ttc_low_threshold_s]; with no time to conflict, or one
    at or above that threshold, the aircraft maintains without approval. *)
Theorem plan_approval_iff_below_low (decision_id : string) (query : RiskQuery)
    (config : RiskConfig) (a : RiskAssessment) :
  outcome (run decision_id query config) = Ok a ->
  ActionRecommendation.requires_human_approval (plan_action a) =
  match RiskAssessment.time_to_conflict_s a with
  | None => false
  | Some t => negb (Py.ge t (RiskConfig.ttc_low_threshold_s config))
  end /\
  (ActionRecommendation.action (plan_action a) = ActionType.MAINTAIN <->
   ActionRecommendation.requires_human_approval (plan_action a) = false).
Proof.
  intros Hrun.
  destruct (inv Hrun) as [[_ ->]|[(_ & _ & ->)|(l1 & b & l2 & t & _ & _ & -> & _)]].
  - split; [reflexivity|split; reflexivity].
  - split; [reflexivity|split; reflexivity].
  - unfold plan_action, ttc_band.
    cbn [RiskAssessment.risk_level RiskAssessment.time_to_conflict_s].
    destruct (Py.ge t (RiskConfig.ttc_low_threshold_s config));
      [split; [reflexivity|split; reflexivity]|].
    destruct (Py.ge t (RiskConfig.ttc_medium_threshold_s config));
      [split; [reflexivity|split; discriminate]|].
    destruct (Py.ge t (RiskConfig.ttc_high_threshold_s config));
      (split; [reflexivity|split; discriminate]).
Qed.

(** X10: what an assessment says about the query.  The level NONE is
    returned for the empty bird list and for no other; an assessment with a
    time to conflict carries the band and the probability of that time; one
    without, on a list that is not empty, is LOW with [prob_presence_only],
    so that the two meanings of LOW differ by the time to conflict. *)
Theorem evaluate_risk_shape (decision_id : string) (query : RiskQuery)
    (config : RiskConfig) (a : RiskAssessment) :
  outcome (run decision_id query config) = Ok a ->
  (RiskAssessment.risk_level a = RiskLevel.NONE <-> RiskQuery.birds query = []) /\
  (forall t, RiskAssessment.time_to_conflict_s a = Some t ->
     (RiskAssessment.risk_level a, RiskAssessment.collision_probability a)
     = ttc_band config t) /\
  (RiskAssessment.time_to_conflict_s a = None ->
   RiskQuery.birds query <> [] ->
   RiskAssessment.risk_level a = RiskLevel.LOW /\
   RiskAssessment.collision_probability a = RiskConfig.prob_presence_only config).
Proof.
  intros Hrun.
  destruct (inv Hrun)
    as [[Hnil ->]|[(Hne & _ & ->)|(l1 & b & l2 & t & Hl & _ & -> & _)]]; cbn [RiskAssessment.risk_level RiskAssessment.time_to_conflict_s RiskAssessment.collision_probability].
  - repeat split; trivial; try discriminate; contradiction.
  - repeat split; trivial; try discriminate. intros E. contradiction.
  - repeat split; try discriminate.
    + intros E. pose proof (ttc_band_banded config t) as B. rewrite E in B.
      cbn in B. lia.
    + intros E. rewrite Hl in E. destruct l1; discriminate.
    + intros t0 [= <-]. destruct (ttc_band config t); reflexivity.
Qed.

(** X8: under a config with [min_ttc_s <= max_ttc_s], the time to conflict
    of a returned assessment lies between the two. *)
Theorem evaluate_risk_ttc_within_clamp (decision_id : string) (query : RiskQuery)
    (config : RiskConfig) (a : RiskAssessment) (t : float) :
  Py.le (RiskConfig.min_ttc_s config) (RiskConfig.max_ttc_s config) = true ->
  outcome (run decision_id query config) = Ok a ->
  RiskAssessment.time_to_conflict_s a = Some t ->
  Py.le (RiskConfig.min_ttc_s config) t = true /\
  Py.le t (RiskConfig.max_ttc_s config) = true.
Proof.
  intros Hclamp Hrun Ht.
  destruct (inv Hrun)
    as [[_ ->]|[(_ & _ & ->)|(l1 & b & l2 & t0 & _ & Hb & -> & _)]];
    cbn [RiskAssessment.time_to_conflict_s] in Ht; try discriminate.
  injection Ht as ->.
  destruct (estimate_some_inv _ _ _ _ _ Hb) as (rs & d & _ & _ & _ & _ & ->).
  apply clamp_bounds, Hclamp.
Qed.

(** X9: the clamp can put a band out of reach.  When the floor
    [min_ttc_s] is at or above [ttc_high_threshold_s], no assessment is
    CRITICAL; when the ceiling [max_ttc_s] is below [ttc_low_threshold_s]
    (and not below the floor), a LOW assessment never has a time to
    conflict. *)
Theorem clamp_hides_bands (decision_id : string) (query : RiskQuery)
    (config : RiskConfig) (a : RiskAssessment) :
  outcome (run decision_id query config) = Ok a ->
  (Py.ge (RiskConfig.min_ttc_s config) (RiskConfig.ttc_high_threshold_s config) = true ->
   RiskAssessment.risk_level a <> RiskLevel.CRITICAL) /\
  (Py.le (RiskConfig.min_ttc_s config) (RiskConfig.max_ttc_s config) = true ->
   Py.lt (RiskConfig.max_ttc_s config) (RiskConfig.ttc_low_threshold_s config) = true ->
   RiskAssessment.risk_level a = RiskLevel.LOW ->
   RiskAssessment.time_to_conflict_s a = None).
Proof.
  intros Hrun.
  destruct (inv Hrun)
    as [[_ ->]|[(_ & _ & ->)|(l1 & b & l2 & t & _ & Hb & -> & _)]]; cbn [RiskAssessment.risk_level RiskAssessment.time_to_conflict_s RiskAssessment.collision_probability];
    try (split; [discriminate|reflexivity]).
  destruct (estimate_some_inv _ _ _ _ _ Hb) as (rs & d & _ & _ & _ & _ & Ht).
  split.
  - intros Hfloor.
    assert (Hge : Py.ge t (RiskConfig.ttc_high_threshold_s config) = true).
    { unfold Py.ge in *. apply (leb_trans _ (RiskConfig.min_ttc_s config)); [exact Hfloor|].
      rewrite Ht. apply clamp_floor. exact (leb_not_nan_r _ _ Hfloor). }
    unfold ttc_band.
    destruct (Py.ge t (RiskConfig.ttc_low_threshold_s config)); [discriminate|].
    destruct (Py.ge t (RiskConfig.ttc_medium_threshold_s config)); [discriminate|].
    rewrite Hge. discriminate.
  - intros Hclamp Hceil Hlow. exfalso.
    assert (Hlt : Py.ge t (RiskConfig.ttc_low_threshold_s config) = false).
    { unfold Py.ge, Py.lt, Py.le in *. apply ltb_not_leb.
      apply (leb_ltb_trans _ (RiskConfig.max_ttc_s config)); [|exact Hceil].
      rewrite Ht. apply clamp_bounds, Hclamp. }
    unfold ttc_band in Hlow. rewrite Hlt in Hlow.
    destruct (Py.ge t (RiskConfig.ttc_medium_threshold_s config)); [discriminate|].
    destruct (Py.ge t (RiskConfig.ttc_high_threshold_s config)); discriminate.
Qed.

(** X7: birds added to a query never lower the risk level: for two queries
    on the same aircraft, the birds of the first all among those of the
    second, the risk level of the second assessment is at least as severe. *)
Theorem evaluate_risk_monotone (decision_id decision_id' : string)
    (query query' : RiskQuery) (config : RiskConfig) (a a' : RiskAssessment) :
  RiskQuery.aircraft query' = RiskQuery.aircraft query ->
  incl (RiskQuery.birds query) (RiskQuery.birds query') ->
  outcome (run decision_id query config) = Ok a ->
  outcome (run decision_id' query' config) = Ok a' ->
  severity (RiskAssessment.risk_level a) <= severity (RiskAssessment.risk_level a').
Proof.
  intros Hair Hincl Hrun Hrun'.
  destruct (inv Hrun)
    as [[_ ->]|[(Hne & _ & ->)|(l1 & b & l2 & t & Hl & Hb & -> & _)]]; cbn [RiskAssessment.risk_level RiskAssessment.time_to_conflict_s RiskAssessment.collision_probability].
  - cbn. lia.
  - destruct (inv Hrun')
      as [[Hnil' ->]|[(_ & _ & ->)|(l1 & b & l2 & t & _ & _ & -> & _)]]; cbn [RiskAssessment.risk_level RiskAssessment.time_to_conflict_s RiskAssessment.collision_probability].
    + exfalso. destruct (RiskQuery.birds query) as [|b0 l]; [congruence|].
      pose proof (Hincl b0 (or_introl eq_refl)) as Hin. rewrite Hnil' in Hin.
      destruct Hin.
    + cbn. lia.
    + apply ttc_band_banded.
  - assert (Hin' : In b (RiskQuery.birds query')).
    { apply Hincl. rewrite Hl. apply in_elt. }
    rewrite <- Hair in Hb.
    destruct (inv Hrun')
      as [[Hnil' ->]|[(_ & Hnone' & ->)|(k1 & b' & k2 & t' & _ & Hb' & -> & Hmin' & _)]];
      cbn [RiskAssessment.risk_level RiskAssessment.time_to_conflict_s RiskAssessment.collision_probability].
    + rewrite Hnil' in Hin'. destruct Hin'.
    + rewrite (Hnone' b Hin') in Hb. discriminate.
    + pose proof (Hmin' b t Hin' Hb) as Hlt.
      destruct (is_nan (RiskConfig.min_ttc_s config)) eqn:N.
      * rewrite (ttc_of_nan_floor _ _ _ _ _ (proj2 (ttc_of_estimate _ _ _ _ _) Hb) N).
        rewrite (ttc_of_nan_floor _ _ _ _ _ (proj2 (ttc_of_estimate _ _ _ _ _) Hb') N).
        lia.
      * apply ttc_band_antitone. unfold Py.le.
        apply not_ltb_leb; [exact Hlt| |].
        -- rewrite <- N.
           exact (ttc_of_nan _ _ _ _ _ (proj2 (ttc_of_estimate _ _ _ _ _) Hb)).
        -- rewrite <- N.
           exact (ttc_of_nan _ _ _ _ _ (proj2 (ttc_of_estimate _ _ _ _ _) Hb')).
Qed.

End AssessmentShape.

(** ** The endpoints *)

(** The value of a key in a dictionary of strings. *)
Fixpoint dict_get (key : string) (d : list (string * string)) : option string :=
  match d with
  | [] => None
  | (k, v) :: d' => if String.eqb k key then Some v else dict_get key d'
  end.

Section Endpoints.

Variable float_pow : float -> float -> result float.
Variables format_1f floatstr : float -> string.
Variables encode_basestring_ascii sha256_hexdigest : string -> string.

Notation run decision_id query :=
  (evaluate_risk float_pow format_1f floatstr encode_basestring_ascii
     sha256_hexdigest decision_id query RISK_CONFIG).
Notation post_evaluate decision_id query :=
  (evaluate float_pow format_1f floatstr encode_basestring_ascii
     sha256_hexdigest decision_id query).
Notation post_plan decision_id query :=
  (plan float_pow format_1f floatstr encode_basestring_ascii
     sha256_hexdigest decision_id query).

(** Under the default config an evaluation either returns, having logged
    its decision, or raises what the estimate of a bird raised, having
    logged nothing. *)
Lemma default_run (decision_id : string) (query : RiskQuery) :
  (exists r a,
      run decision_id query = ([r], Ok a) /\
      Forall (evaluates float_pow (RiskQuery.aircraft query) RISK_CONFIG)
             (RiskQuery.birds query)) \/
  (exists b e,
      In b (RiskQuery.birds query) /\
      estimate float_pow (RiskQuery.aircraft query) RISK_CONFIG b = Raise e /\
      run decision_id query = raise e).
Proof.
  destruct (evaluate_risk_run float_pow format_1f floatstr encode_basestring_ascii
              sha256_hexdigest decision_id query RISK_CONFIG)
    as [(b & e & Hin & Hb & E)|(level & prob & ttc & bird & rationale & extra & E & H)].
  - right. exists b, e. repeat split; assumption.
  - left. assert (Hall := proj2 (proj2 (proj2 (proj2 (proj2 (proj2 H)))))).
    destruct (evaluate_risk_returns float_pow format_1f floatstr
                encode_basestring_ascii sha256_hexdigest decision_id query
                RISK_CONFIG Hall default_probabilities_in_range) as [a Ha].
    rewrite E in Ha. cbn [outcome snd] in Ha.
    eexists. exists a. split; [|exact Hall]. rewrite E, Ha. reflexivity.
Qed.

(** X11: [POST /evaluate] replies in one of two ways.  When every bird's
    estimate evaluates, it returns the assessment of [evaluate_risk] under
    the default config, the decision being the only record logged.
    Otherwise it raises [HTTPException] 500 with the detail "Internal
    evaluation error", and logs that error with the exception a bird's
    estimate raised, and no decision. *)
Theorem evaluate_endpoint (decision_id : string) (query : RiskQuery) :
  (exists r a,
      post_evaluate decision_id query = ([Http.Info r], Http.Return a) /\
      run decision_id query = ([r], Ok a) /\
      Forall (evaluates float_pow (RiskQuery.aircraft query) RISK_CONFIG)
             (RiskQuery.birds query)) \/
  (exists b e,
      post_evaluate decision_id query
      = ([Http.Exception "Error during risk evaluation" e],
         Http.HTTPException 500 "Internal evaluation error") /\
      In b (RiskQuery.birds query) /\
      estimate float_pow (RiskQuery.aircraft query) RISK_CONFIG b = Raise e).
Proof.
  unfold evaluate.
  destruct (default_run decision_id query) as [(r & a & E & Hall)|(b & e & Hin & Hb & E)].
  - left. exists r, a. rewrite E. repeat split. exact Hall.
  - right. exists b, e. rewrite E. repeat split; assumption.
Qed.

(** X12: [POST /plan] replies as [POST /evaluate] does on the same query
    and token: with the same assessment and the plan [plan_action] makes of
    it, after the same log; or with [HTTPException] 500, the detail being
    "Internal planning error".  In a reply the urgency of the recommendation
    is the risk level of the assessment. *)
Theorem plan_endpoint (decision_id : string) (query : RiskQuery) :
  (forall a,
      snd (post_evaluate decision_id query) = Http.Return a ->
      post_plan decision_id query
      = (fst (post_evaluate decision_id query),
         Http.Return (PlanResponse.mk a (plan_action a)))) /\
  (forall code detail,
      snd (post_evaluate decision_id query) = Http.HTTPException code detail ->
      exists e,
        fst (post_evaluate decision_id query)
        = [Http.Exception "Error during risk evaluation" e] /\
        post_plan decision_id query
        = ([Http.Exception "Error during planning" e],
           Http.HTTPException 500 "Internal planning error")) /\
  (forall r,
      snd (post_plan decision_id query) = Http.Return r ->
      snd (post_evaluate decision_id query) = Http.Return (PlanResponse.assessment r) /\
      PlanResponse.recommendation r = plan_action (PlanResponse.assessment r) /\
      ActionRecommendation.urgency (PlanResponse.recommendation r)
      = RiskAssessment.risk_level (PlanResponse.assessment r)).
Proof.
  unfold evaluate, plan.
  destruct (default_run decision_id query) as [(r & a & E & _)|(b & e & _ & _ & E)];
    rewrite E.
  - cbn. repeat split.
    + intros a0 [= <-]. reflexivity.
    + intros code detail H. discriminate H.
    + injection H as <-. reflexivity.
    + injection H as <-. reflexivity.
    + injection H as <-. cbn. unfold plan_action.
      destruct (RiskAssessment.risk_level a); reflexivity.
  - cbn. repeat split.
    + intros a H. discriminate H.
    + intros code detail _. exists e. split; reflexivity.
    + discriminate H.
    + discriminate H.
    + discriminate H.
Qed.

(** X13: the versions [GET /health] reports are those every assessment of
    [POST /evaluate] carries. *)
Theorem health_versions_are_those_of_assessments (utcnow : datetime)
    (decision_id : string) (query : RiskQuery) (a : RiskAssessment) :
  snd (post_evaluate decision_id query) = Http.Return a ->
  dict_get "engine_version" (healthcheck utcnow)
  = Some (RiskAssessment.engine_version a) /\
  dict_get "config_version" (healthcheck utcnow)
  = Some (RiskAssessment.config_version a) /\
  dict_get "status" (healthcheck utcnow) = Some "ok"%string.
Proof.
  unfold evaluate. intros H.
  destruct (default_run decision_id query) as [(r & a0 & E & _)|(b & e & _ & _ & E)];
    rewrite E in H; cbn in H; [|discriminate].
  injection H as <-.
  assert (Ha : outcome (run decision_id query) = Ok a0) by (rewrite E; reflexivity).
  destruct (evaluate_risk_inv _ _ _ _ _ _ _ _ _ Ha)
    as [[_ ->]|[(_ & _ & ->)|(l1 & b & l2 & t & _ & _ & -> & _)]];
    repeat split; reflexivity.
Qed.


End Endpoints.

(** ** The validators *)

Local Open Scope Z_scope.

Lemma days_before_year_succ (year : Z) :
  days_before_year (year + 1)
  = days_before_year year + 365 + (if is_leap year then 1 else 0).
Proof.
  unfold days_before_year, is_leap.
  replace (year + 1 - 1) with year by lia.
  destruct (Z.eqb_spec (year mod 4) 0), (Z.eqb_spec (year mod 100) 0),
    (Z.eqb_spec (year mod 400) 0); cbn [andb orb negb];
    Z.to_euclidean_division_equations; lia.
Qed.

Lemma days_before_year_mono (year year' : Z) :
  year <= year' -> days_before_year year <= days_before_year year'.
Proof.
  unfold days_before_year. intros H. Z.to_euclidean_division_equations. lia.
Qed.

Definition date_valid (year month day : Z) : Prop :=
  1 <= month <= 12 /\ 1 <= day <= days_in_month year month.

Lemma month_cases (month : Z) :
  1 <= month <= 12 ->
  month = 1 \/ month = 2 \/ month = 3 \/ month = 4 \/ month = 5 \/ month = 6 \/
  month = 7 \/ month = 8 \/ month = 9 \/ month = 10 \/ month = 11 \/ month = 12.
Proof. lia. Qed.

Lemma days_before_month_bounds (year month : Z) :
  1 <= month <= 12 ->
  0 <= days_before_month year month /\
  days_before_month year month + days_in_month year month
  <= 365 + (if is_leap year then 1 else 0).
Proof.
  intros H. destruct (month_cases _ H) as [->|[->|[->|[->|[->|[->|[->|[->|[->|[->|[->| ->]]]]]]]]]]];
    unfold days_before_month, days_in_month; destruct (is_leap year);
    vm_compute; intuition discriminate.
Qed.

Lemma days_before_month_lt (year month month' : Z) :
  1 <= month -> month < month' <= 12 ->
  days_before_month year month + days_in_month year month
  <= days_before_month year month'.
Proof.
  intros H H'.
  assert (Hm : 1 <= month <= 12) by lia. assert (Hm' : 1 <= month' <= 12) by lia.
  destruct (month_cases _ Hm) as [->|[->|[->|[->|[->|[->|[->|[->|[->|[->|[->| ->]]]]]]]]]]];
    destruct (month_cases _ Hm') as [->|[->|[->|[->|[->|[->|[->|[->|[->|[->|[->| ->]]]]]]]]]]];
    try lia;
    unfold days_before_month, days_in_month; destruct (is_leap year);
    vm_compute; intuition discriminate.
Qed.

(** The ordinal of a date grows with the date. *)
Lemma ymd_to_ord_lt (y m d y' m' d' : Z) :
  date_valid y m d -> date_valid y' m' d' ->
  y < y' \/ y = y' /\ (m < m' \/ m = m' /\ d < d') ->
  ymd_to_ord y m d < ymd_to_ord y' m' d'.
Proof.
  unfold date_valid, ymd_to_ord. intros [Hm Hd] [Hm' Hd'] H.
  pose proof (days_before_month_bounds y m Hm).
  pose proof (days_before_month_bounds y' m' Hm').
  destruct H as [H|[-> [H|[-> H]]]].
  - pose proof (days_before_year_succ y).
    pose proof (days_before_year_mono (y + 1) y'). lia.
  - pose proof (days_before_month_lt y' m m'). lia.
  - lia.
Qed.

Lemma datetime_valid_date (d : datetime) :
  datetime_valid d = true ->
  date_valid (datetime.year d) (datetime.month d) (datetime.day d) /\
  0 <= datetime.hour d < 24 /\ 0 <= datetime.minute d < 60 /\
  0 <= datetime.second d < 60 /\ 0 <= datetime.microsecond d < 1000000.
Proof.
  unfold datetime_valid, date_valid.
  rewrite !andb_true_iff, !Z.leb_le, !Z.ltb_lt. intros H. decompose [and] H.
  repeat split; assumption.
Qed.

(** On the fields of two datetimes, the comparison field by field is the
    order of time. *)
Lemma fields_gt_chronological (a b : datetime) :
  datetime_valid a = true -> datetime_valid b = true ->
  fields_gt (datetime_fields a) (datetime_fields b)
  = (datetime_microseconds b <? datetime_microseconds a).
Proof.
  intros Va Vb.
  destruct (datetime_valid_date _ Va) as (Da & Hh & Hmi & Hs & Hus).
  destruct (datetime_valid_date _ Vb) as (Db & Hh' & Hmi' & Hs' & Hus').
  clear Va Vb. unfold datetime_microseconds.
  destruct a as [y mo d h mi s us off], b as [y' mo' d' h' mi' s' us' off'].
  cbn [datetime.year datetime.month datetime.day datetime.hour datetime.minute
       datetime.second datetime.microsecond datetime_fields fields_gt] in *.
  assert (Hord :
    (y < y' \/ y = y' /\ (mo < mo' \/ mo = mo' /\ d < d')) /\
      ymd_to_ord y mo d < ymd_to_ord y' mo' d'
    \/ (y = y' /\ mo = mo' /\ d = d') /\ ymd_to_ord y mo d = ymd_to_ord y' mo' d'
    \/ (y' < y \/ y' = y /\ (mo' < mo \/ mo' = mo /\ d' < d)) /\
      ymd_to_ord y' mo' d' < ymd_to_ord y mo d).
  { assert (T : (y < y' \/ y = y' /\ (mo < mo' \/ mo = mo' /\ d < d'))
                \/ (y = y' /\ mo = mo' /\ d = d')
                \/ (y' < y \/ y' = y /\ (mo' < mo \/ mo' = mo /\ d' < d))) by lia.
    destruct T as [T|[T|T]].
    - left. split; [exact T|]. apply ymd_to_ord_lt; assumption.
    - right. left. split; [exact T|]. destruct T as (-> & -> & ->). reflexivity.
    - right. right. split; [exact T|]. apply ymd_to_ord_lt; assumption. }
  clear Da Db.
  set (oa := ymd_to_ord y mo d) in *. set (ob := ymd_to_ord y' mo' d') in *.
  clearbody oa ob.
  destruct (Z.ltb_spec ((ob * 86400 + h' * 3600 + mi' * 60 + s') * 1000000 + us')
                       ((oa * 86400 + h * 3600 + mi * 60 + s) * 1000000 + us))
    as [L|L];
    repeat match goal with
    | |- context [(?p <? ?q)%Z] => destruct (Z.ltb_spec p q); cbn [orb andb]
    | |- context [(?p =? ?q)%Z] => destruct (Z.eqb_spec p q); cbn [orb andb]
    end; try reflexivity; exfalso; lia.
Qed.

Local Close Scope Z_scope.

(** X14: what the constructor of a detection accepts, [limit] being the
    naive [datetime.utcnow() + timedelta(seconds=5)].  An aware timestamp
    is never accepted, whatever its instant: its comparison with the limit
    raises [TypeError] in the validator.  A naive timestamp passes the
    validator exactly when it is not later than the limit in time.  The
    constructor returns exactly when the timestamp passes and the confidence
    is in [[0, 1]], with the fields as given; and a detection accepted
    under one limit is accepted under every later one. *)
Theorem BirdDetection_init_accepts (limit : datetime) (id : string)
    (position : Coord3D) (velocity : Velocity3D) (timestamp : datetime)
    (confidence : float) :
  datetime.utcoffset limit = None ->
  datetime_valid limit = true -> datetime_valid timestamp = true ->
  (datetime.utcoffset timestamp <> None ->
   timestamp_not_in_future limit timestamp = Raise TypeError /\
   forall b,
     BirdDetection_init limit id position velocity timestamp confidence <> Ok b) /\
  (datetime.utcoffset timestamp = None ->
   timestamp_not_in_future limit timestamp
   = if (datetime_microseconds timestamp <=? datetime_microseconds limit)%Z
     then Ok timestamp else Raise ValueError) /\
  (forall b,
     BirdDetection_init limit id position velocity timestamp confidence = Ok b <->
     b = BirdDetection.mk id position velocity timestamp confidence /\
     datetime.utcoffset timestamp = None /\
     (datetime_microseconds timestamp <= datetime_microseconds limit)%Z /\
     Py.ge confidence 0 = true /\ Py.le confidence 1 = true) /\
  (forall b limit',
     BirdDetection_init limit id position velocity timestamp confidence = Ok b ->
     datetime.utcoffset limit' = None -> datetime_valid limit' = true ->
     (datetime_microseconds limit <= datetime_microseconds limit')%Z ->
     BirdDetection_init limit' id position velocity timestamp confidence = Ok b).
Proof.
  intros Hnaive Vl Vt.
  assert (Hv : forall l, datetime.utcoffset l = None -> datetime_valid l = true ->
               timestamp_not_in_future l timestamp
               = match datetime.utcoffset timestamp with
                 | Some _ => Raise TypeError
                 | None =>
                     if (datetime_microseconds timestamp <=? datetime_microseconds l)%Z
                     then Ok timestamp else Raise ValueError
                 end).
  { intros l Hl Vl'. unfold timestamp_not_in_future, datetime_gt. rewrite Hl.
    destruct (datetime.utcoffset timestamp); [reflexivity|].
    rewrite (fields_gt_chronological _ _ Vt Vl'), Z.leb_antisym.
    destruct (datetime_microseconds l <? datetime_microseconds timestamp)%Z;
      reflexivity. }
  unfold BirdDetection_init. split; [|split; [|split]].
  - intros Haware. rewrite (Hv limit Hnaive Vl).
    destruct (datetime.utcoffset timestamp); [|congruence].
    split; [reflexivity|discriminate].
  - intros Hn. rewrite (Hv limit Hnaive Vl), Hn. reflexivity.
  - intros b. rewrite (Hv limit Hnaive Vl).
    destruct (datetime.utcoffset timestamp);
      [split; [discriminate|intros (_ & H & _); discriminate]|].
    destruct (Z.leb_spec (datetime_microseconds timestamp) (datetime_microseconds limit));
      [|split; [discriminate|intros (_ & _ & H' & _); lia]].
    destruct (Py.ge confidence 0); cbn [andb];
      [|split; [discriminate|intros (_ & _ & _ & H' & _); discriminate]].
    destruct (Py.le confidence 1);
      [|split; [discriminate|intros (_ & _ & _ & _ & H'); discriminate]].
    split.
    + intros [= <-]. repeat split. assumption.
    + intros [-> _]. reflexivity.
  - intros b limit' Hb Hn' Vl' Hle. rewrite (Hv limit Hnaive Vl) in Hb.
    rewrite (Hv limit' Hn' Vl').
    destruct (datetime.utcoffset timestamp); [discriminate|].
    destruct (Z.leb_spec (datetime_microseconds timestamp) (datetime_microseconds limit));
      [|discriminate].
    destruct (Z.leb_spec (datetime_microseconds timestamp) (datetime_microseconds limit'));
      [exact Hb|lia].
Qed.

(** X15: what the constructor of an aircraft state accepts: the altitudes
    that are not below -10, the value -10 itself and NaN among them, so
    that an accepted altitude is NaN or at least -10. *)
Theorem AircraftState_init_accepts (callsign : string) (position : Coord3D)
    (velocity : Velocity3D) (heading_deg altitude_agl_m : float)
    (timestamp : datetime) :
  (AircraftState_init callsign position velocity heading_deg altitude_agl_m timestamp
   = Ok (AircraftState.mk callsign position velocity heading_deg altitude_agl_m
           timestamp) <->
   is_nan altitude_agl_m = true \/ Py.ge altitude_agl_m (-10) = true) /\
  (AircraftState_init callsign position velocity heading_deg altitude_agl_m timestamp
   = Raise ValidationError <->
   Py.lt altitude_agl_m (-10) = true).
Proof.
  unfold AircraftState_init, positive_altitude, Py.lt, Py.ge.
  destruct (altitude_agl_m <? -10)%float eqn:E; cbn.
  - split; split; try discriminate; try reflexivity.
    intros [N|G]; exfalso.
    + rewrite (FloatFacts.ltb_not_nan_l _ _ E) in N. discriminate.
    + rewrite (FloatFacts.ltb_not_leb _ _ E) in G. discriminate.
  - split; split; try discriminate; try reflexivity.
    intros _. destruct (is_nan altitude_agl_m) eqn:N; [left; reflexivity|right].
    apply FloatFacts.not_ltb_leb; trivial.
Qed.

(** ** What the assessment does not depend on *)

(** An assessment with another input hash. *)
Definition with_input_hash (h : string) (a : RiskAssessment) : RiskAssessment :=
  RiskAssessment.mk (RiskAssessment.risk_level a)
    (RiskAssessment.collision_probability a)
    (RiskAssessment.time_to_conflict_s a)
    (RiskAssessment.most_threatening_bird_id a)
    (RiskAssessment.rationale a) (RiskAssessment.decision_id a) h
    (RiskAssessment.engine_version a) (RiskAssessment.config_version a).

(** Two detections, and two aircraft states, with the same kinematics. *)
Definition same_track (b b' : BirdDetection) : Prop :=
  BirdDetection.id b = BirdDetection.id b' /\
  BirdDetection.position b = BirdDetection.position b' /\
  BirdDetection.velocity b = BirdDetection.velocity b'.

Definition same_motion (a a' : AircraftState) : Prop :=
  AircraftState.position a = AircraftState.position a' /\
  AircraftState.velocity a = AircraftState.velocity a'.

Lemma scan_filter (f : BirdDetection -> option float) (l : list BirdDetection)
    (best : option float * option BirdDetection) :
  scan f (filter (fun b => match f b with Some _ => true | None => false end) l) best
  = scan f l best.
Proof.
  revert best. induction l as [|b l IH]; intros best; [reflexivity|].
  cbn [filter]. destruct (f b) as [t|] eqn:Hb.
  - unfold scan. cbn [fold_left]. apply IH.
  - rewrite IH. unfold scan. cbn [fold_left].
    replace (track_pure f best b) with best; [reflexivity|].
    unfold track_pure. rewrite Hb. reflexivity.
Qed.

(** The loop on two lists of detections with the same tracks, estimated
    alike: the same time to conflict, and birds with the same id. *)
Definition same_best (s s' : option float * option BirdDetection) : Prop :=
  fst s = fst s' /\
  match snd s, snd s' with
  | Some b, Some b' => BirdDetection.id b = BirdDetection.id b'
  | None, None => True
  | _, _ => False
  end.

Lemma scan_same_tracks (f f' : BirdDetection -> option float)
    (l l' : list BirdDetection) (s s' : option float * option BirdDetection) :
  Forall2 (fun b b' => same_track b b' /\ f b = f' b') l l' ->
  same_best s s' ->
  same_best (scan f l s) (scan f' l' s').
Proof.
  intros H. revert s s'. induction H as [|b b' l l' [Hb Hf] _ IH]; intros s s' Hs.
  - exact Hs.
  - unfold scan. cbn [fold_left]. apply IH.
    unfold track_pure. rewrite <- Hf. destruct (f b) as [t|]; [|exact Hs].
    destruct Hs as [Ht Hbird]. rewrite <- Ht.
    destruct (match fst s with Some best_ttc => Py.lt t best_ttc | None => true end).
    + split; [reflexivity|]. cbn. apply Hb.
    + split; assumption.
Qed.

Section Irrelevant.

Variable float_pow : float -> float -> result float.
Variables format_1f floatstr : float -> string.
Variables encode_basestring_ascii sha256_hexdigest : string -> string.

Notation run decision_id query config :=
  (evaluate_risk float_pow format_1f floatstr encode_basestring_ascii
     sha256_hexdigest decision_id query config).
Notation hash query :=
  (compute_input_hash floatstr encode_basestring_ascii sha256_hexdigest query).

Lemma estimate_same_kinematics (a a' : AircraftState) (b b' : BirdDetection)
    (config : RiskConfig) :
  same_motion a a' -> same_track b b' ->
  estimate_time_to_conflict float_pow a b config
  = estimate_time_to_conflict float_pow a' b' config.
Proof.
  intros [Hp Hv] (_ & Hp' & Hv').
  unfold estimate_time_to_conflict, relative_speed, distance.
  rewrite Hp, Hv, Hp', Hv'. reflexivity.
Qed.

(** The assessment built after the loop, from the loop's final variables. *)
Lemma outcome_with_hash (decision_id : string) (query query' : RiskQuery)
    (config : RiskConfig) (a : RiskAssessment) :
  RiskQuery.birds query <> [] ->
  RiskQuery.birds query' <> [] ->
  Forall (evaluates float_pow (RiskQuery.aircraft query) config)
         (RiskQuery.birds query) ->
  Forall (evaluates float_pow (RiskQuery.aircraft query') config)
         (RiskQuery.birds query') ->
  same_best
    (scan (ttc_of float_pow (RiskQuery.aircraft query) config)
          (RiskQuery.birds query) (None, None))
    (scan (ttc_of float_pow (RiskQuery.aircraft query') config)
          (RiskQuery.birds query') (None, None)) ->
  outcome (run decision_id query config) = Ok a ->
  outcome (run decision_id query' config) = Ok (with_input_hash (hash query') a).
Proof.
  intros Hne Hne' Hall Hall' Hsame Hrun.
  rewrite (evaluate_risk_outcome _ _ _ _ _ _ _ _ Hne Hall) in Hrun.
  rewrite (evaluate_risk_outcome _ _ _ _ _ _ _ _ Hne' Hall').
  destruct (scan _ (RiskQuery.birds query) _) as [t b];
    destruct (scan _ (RiskQuery.birds query') _) as [t' b'].
  destruct Hsame as [Ht Hb]. cbn [fst snd] in Ht, Hb. subst t'.
  destruct t as [t|], b as [b|], b' as [b'|]; try contradiction;
    pose proof (init_probability _ _ _ _ _ _ _ _ _ _ Hrun) as Hp;
    apply init_inv in Hrun; subst a; rewrite init_ok by exact Hp;
    unfold with_input_hash, conflict_rationale; cbn; rewrite ?Hb; reflexivity.
Qed.

(** X16: the assessment depends on the aircraft and the birds through
    their positions, their velocities and the birds' ids only.  Two queries
    that agree on these, whatever their call signs, headings, altitudes,
    timestamps and confidences, get the same assessment, the input hash
    apart. *)
Theorem evaluate_risk_uses_kinematics_only (decision_id : string)
    (query query' : RiskQuery) (config : RiskConfig) (a : RiskAssessment) :
  same_motion (RiskQuery.aircraft query) (RiskQuery.aircraft query') ->
  Forall2 same_track (RiskQuery.birds query) (RiskQuery.birds query') ->
  outcome (run decision_id query config) = Ok a ->
  outcome (run decision_id query' config) = Ok (with_input_hash (hash query') a).
Proof.
  intros Hair Hbirds Hrun.
  assert (Hf : Forall2 (fun b b' =>
                          same_track b b' /\
                          ttc_of float_pow (RiskQuery.aircraft query) config b
                          = ttc_of float_pow (RiskQuery.aircraft query') config b')
                       (RiskQuery.birds query) (RiskQuery.birds query')).
  { induction Hbirds as [|b b' l l' Hb _ IH]; constructor; [|exact IH].
    split; [exact Hb|]. unfold ttc_of, estimate.
    rewrite (estimate_same_kinematics _ _ _ _ config Hair Hb). reflexivity. }
  pose proof (evaluate_risk_evaluates _ _ _ _ _ _ _ _ _ Hrun) as Hall.
  assert (Hall' : Forall (evaluates float_pow (RiskQuery.aircraft query') config)
                         (RiskQuery.birds query')).
  { clear Hf Hrun. induction Hbirds as [|b b' l l' Hb _ IH]; constructor.
    - inversion Hall as [|? ? [o Ho] _]; subst. exists o. unfold estimate in *.
      rewrite <- (estimate_same_kinematics _ _ _ _ config Hair Hb). exact Ho.
    - apply IH. inversion Hall; assumption. }
  destruct (RiskQuery.birds query) as [|b0 l] eqn:Hq.
  - inversion Hbirds as [E0 E|]. symmetry in E.
    rewrite (no_birds_outcome _ _ _ _ _ _ _ _ Hq) in Hrun. injection Hrun as <-.
    rewrite (no_birds_outcome _ _ _ _ _ _ _ _ E). reflexivity.
  - rewrite <- Hq in *.
    apply (outcome_with_hash decision_id query query' config a); trivial.
    + rewrite Hq. discriminate.
    + rewrite Hq in Hbirds. inversion Hbirds. discriminate.
    + apply scan_same_tracks; [exact Hf|]. split; [reflexivity|exact I].
Qed.

(** X17: the birds that get no time to conflict change nothing as long as
    one bird gets one.  On the query reduced to the birds that have a time
    to conflict, if any, the assessment is the same, the input hash apart. *)
Theorem evaluate_risk_ignores_gated_birds (decision_id : string)
    (query : RiskQuery) (config : RiskConfig) (a : RiskAssessment) :
  let kept :=
    filter (fun b => match ttc_of float_pow (RiskQuery.aircraft query) config b with
                     | Some _ => true
                     | None => false
                     end) (RiskQuery.birds query) in
  let query' := RiskQuery.mk (RiskQuery.aircraft query) kept in
  kept <> [] ->
  outcome (run decision_id query config) = Ok a ->
  outcome (run decision_id query' config) = Ok (with_input_hash (hash query') a).
Proof.
  intros kept query' Hkept Hrun.
  pose proof (evaluate_risk_evaluates _ _ _ _ _ _ _ _ _ Hrun) as Hall.
  apply (outcome_with_hash decision_id query query' config a); trivial.
  - intros E. apply Hkept. unfold kept. rewrite E. reflexivity.
  - cbn [query' RiskQuery.birds RiskQuery.aircraft].
    rewrite Forall_forall in Hall |- *. intros b Hb. apply Hall.
    unfold kept in Hb. apply filter_In in Hb. apply Hb.
  - cbn [query' RiskQuery.birds RiskQuery.aircraft]. unfold kept.
    rewrite scan_filter. split; [reflexivity|].
    destruct (snd (scan _ _ _)); [reflexivity|exact I].
Qed.

End Irrelevant.

(** ** The canonical order of keys *)

From Stdlib Require Import Sorted.

Lemma ascii_compare_lt_trans (a b c : ascii) :
  Ascii.compare a b = Lt -> Ascii.compare b c = Lt -> Ascii.compare a c = Lt.
Proof.
  unfold Ascii.compare. rewrite !N.compare_lt_iff. lia.
Qed.

Lemma string_compare_lt_trans (s1 s2 s3 : string) :
  String.compare s1 s2 = Lt -> String.compare s2 s3 = Lt ->
  String.compare s1 s3 = Lt.
Proof.
  revert s2 s3. induction s1 as [|a s1 IH]; intros [|b s2] [|c s3]; cbn;
    try discriminate; try reflexivity.
  destruct (Ascii.compare a b) eqn:Eab; try discriminate;
    destruct (Ascii.compare b c) eqn:Ebc; try discriminate; intros H1 H2.
  - apply Ascii.compare_eq_iff in Eab, Ebc. subst.
    assert (E : Ascii.compare c c = Eq) by (unfold Ascii.compare; apply N.compare_refl).
    rewrite E. exact (IH _ _ H1 H2).
  - apply Ascii.compare_eq_iff in Eab. subst. rewrite Ebc. reflexivity.
  - apply Ascii.compare_eq_iff in Ebc. subst. rewrite Eab. reflexivity.
  - rewrite (ascii_compare_lt_trans _ _ _ Eab Ebc). reflexivity.
Qed.

Lemma string_leb_trans (s1 s2 s3 : string) :
  String.leb s1 s2 = true -> String.leb s2 s3 = true -> String.leb s1 s3 = true.
Proof.
  unfold String.leb.
  destruct (String.compare s1 s2) eqn:E12; try discriminate;
    destruct (String.compare s2 s3) eqn:E23; try discriminate; intros _ _.
  - apply String.compare_eq_iff in E12. subst. rewrite E23. reflexivity.
  - apply String.compare_eq_iff in E12. subst. rewrite E23. reflexivity.
  - apply String.compare_eq_iff in E23. subst. rewrite E12. reflexivity.
  - rewrite (string_compare_lt_trans _ _ _ E12 E23). reflexivity.
Qed.

Section SortedItems.

Variable V : Type.

Definition key_le (x y : string * V) : Prop := String.leb (fst x) (fst y) = true.

Lemma insert_item_perm (kv : string * V) (l : list (string * V)) :
  Permutation (insert_item kv l) (kv :: l).
Proof.
  induction l as [|kv' l IH]; cbn; [reflexivity|].
  destruct (String.leb (fst kv) (fst kv')); [reflexivity|].
  rewrite IH. apply perm_swap.
Qed.

Lemma sorted_items_perm (l : list (string * V)) : Permutation (sorted_items l) l.
Proof.
  induction l as [|kv l IH]; cbn; [reflexivity|].
  rewrite insert_item_perm. constructor. exact IH.
Qed.

Lemma insert_item_sorted (kv : string * V) (l : list (string * V)) :
  StronglySorted key_le l -> StronglySorted key_le (insert_item kv l).
Proof.
  induction 1 as [|kv' l Hl IH Hall]; cbn.
  - repeat constructor.
  - destruct (String.leb (fst kv) (fst kv')) eqn:E.
    + constructor; [constructor; assumption|].
      constructor; [exact E|].
      rewrite Forall_forall in Hall |- *. intros x Hx.
      exact (string_leb_trans _ _ _ E (Hall x Hx)).
    + constructor; [exact IH|].
      rewrite Forall_forall in Hall |- *. intros x Hx.
      apply (Permutation_in _ (insert_item_perm kv l)) in Hx as [<-|Hx].
      * destruct (String.leb_total (fst kv) (fst kv')) as [H|H]; [congruence|exact H].
      * exact (Hall x Hx).
Qed.

Lemma sorted_items_sorted (l : list (string * V)) :
  StronglySorted key_le (sorted_items l).
Proof.
  induction l as [|kv l IH]; cbn; [constructor|].
  apply insert_item_sorted, IH.
Qed.

(** A list of items with distinct keys has one sorted arrangement. *)
Lemma sorted_unique (l l' : list (string * V)) :
  StronglySorted key_le l -> StronglySorted key_le l' ->
  Permutation l l' -> NoDup (map fst l) -> l = l'.
Proof.
  intros Hl. revert l'. induction Hl as [|x l Hl IH Hx]; intros l' Hl' Hp Hn.
  - apply Permutation_nil in Hp. congruence.
  - destruct Hl' as [|y l' Hl' Hy].
    + apply Permutation_sym, Permutation_nil in Hp. discriminate.
    + assert (Exy : x = y).
      { assert (Hin : In x (y :: l')) by (apply (Permutation_in _ Hp); left; reflexivity).
        assert (Hin' : In y (x :: l))
          by (apply (Permutation_in _ (Permutation_sym Hp)); left; reflexivity).
        destruct Hin as [E|Hin]; [congruence|].
        destruct Hin' as [E|Hin']; [congruence|].
        exfalso. rewrite Forall_forall in Hx, Hy.
        pose proof (String.leb_antisym _ _ (Hx y Hin') (Hy x Hin)) as Ek.
        inversion Hn as [|? ? Hnot _]; subst. apply Hnot. rewrite Ek.
        apply in_map, Hin'. }
      subst y. f_equal. apply IH; [exact Hl'| |].
      * exact (Permutation_cons_inv Hp).
      * inversion Hn; assumption.
Qed.

Lemma sorted_items_canonical (l l' : list (string * V)) :
  Permutation l l' -> NoDup (map fst l) -> sorted_items l = sorted_items l'.
Proof.
  intros Hp Hn. apply sorted_unique.
  - apply sorted_items_sorted.
  - apply sorted_items_sorted.
  - rewrite !sorted_items_perm. exact Hp.
  - apply (Permutation_NoDup (l := map fst l)); [|exact Hn].
    apply Permutation_map, Permutation_sym, sorted_items_perm.
Qed.

End SortedItems.

(** Two objects that differ by the order in which their dictionaries hold
    their items, at any depth; the keys of a dictionary are distinct. *)
Inductive reordered : pyobj -> pyobj -> Prop :=
| reordered_same (o : pyobj) : reordered o o
| reordered_list (l l' : list pyobj) :
    Forall2 reordered l l' -> reordered (PyList l) (PyList l')
| reordered_dict (items mid items' : list (string * pyobj)) :
    Forall2 (fun kv kv' => fst kv = fst kv' /\ reordered (snd kv) (snd kv')) items mid ->
    Permutation mid items' ->
    NoDup (map fst items) ->
    reordered (PyDict items) (PyDict items').

Section Canonical.

Variable floatstr : float -> string.
Variable encode_basestring_ascii : string -> string.
Variable sha256_hexdigest : string -> string.

Notation dumps := (json_dumps floatstr encode_basestring_ascii).

Lemma json_dumps_dict (items : list (string * pyobj)) :
  dumps (PyDict items)
  = ("{" ++ String.concat ", "
            (map (fun kv => encode_basestring_ascii (fst kv) ++ ": " ++ snd kv)
                 (sorted_items
                    (map (fun kv => let '(k, v) := kv in (k, dumps v)) items)))
         ++ "}")%string.
Proof. reflexivity. Qed.

Lemma json_dumps_reordered (o o' : pyobj) :
  reordered o o' -> dumps o = dumps o'.
Proof.
  revert o o'. fix IH 3. intros o o' H.
  destruct H as [o|l l' Hl|items mid items' Hf Hp Hn].
  - reflexivity.
  - assert (Hm : map dumps l = map dumps l').
    { revert l l' Hl. fix inner 3. intros l l' Hl.
      destruct Hl as [|x y l l' Hxy Hl]; cbn [map].
      - reflexivity.
      - rewrite (IH _ _ Hxy), (inner _ _ Hl). reflexivity. }
    rewrite !json_dumps_list, Hm. reflexivity.
  - assert (Hmap : map (fun kv => let '(k, v) := kv in (k, dumps v)) items
                   = map (fun kv => let '(k, v) := kv in (k, dumps v)) mid).
    { clear Hp Hn. revert items mid Hf. fix inner 3. intros items mid Hf.
      destruct Hf as [|[k v] [k' v'] items mid [Hk Hv] Hf]; cbn [map].
      - reflexivity.
      - cbn in Hk, Hv. subst k'. rewrite (IH _ _ Hv), (inner _ _ Hf).
        reflexivity. }
    assert (Hs : sorted_items (map (fun kv => let '(k, v) := kv in (k, dumps v)) items)
                 = sorted_items
                     (map (fun kv => let '(k, v) := kv in (k, dumps v)) items')).
    { rewrite Hmap. apply sorted_items_canonical.
      - apply Permutation_map, Hp.
      - rewrite map_map.
        replace (map (fun x => fst (let '(k, v) := x in (k, dumps v))) mid)
          with (map fst mid) by (apply map_ext; intros [k v]; reflexivity).
        replace (map fst mid) with (map fst items); [exact Hn|].
        clear - Hf. induction Hf as [|kv kv' items mid [Hk _] _ IHf]; cbn;
          [reflexivity|congruence]. }
    rewrite !json_dumps_dict, Hs. reflexivity.
Qed.

(** X19: the hash of a query does not depend on the order in which the
    dictionaries of [query.dict()] hold their items: with the keys sorted, an
    object holding the same items under distinct keys, ordered differently at
    any depth, is serialised to the same text and has the same digest. *)
Theorem hash_ignores_insertion_order (query : RiskQuery) (o' : pyobj) :
  reordered (RiskQuery_dict query) o' ->
  dumps o' = dumps (RiskQuery_dict query) /\
  sha256_hexdigest (dumps o')
  = compute_input_hash floatstr encode_basestring_ascii sha256_hexdigest query.
Proof.
  intros H. unfold compute_input_hash.
  rewrite (json_dumps_reordered _ _ H). split; reflexivity.
Qed.

End Canonical.

(** ** The input hash and the equality of queries *)

(** Two floats that are [==] and have the same sign are the same float. *)
Lemma float_eq_signbit (x y : float) :
  (x =? y)%float = true -> signbit x = signbit y -> x = y.
Proof.
  rewrite eqb_spec. unfold signbit, SFeqb. intros H Hs.
  apply Prim2SF_inj.
  destruct (Prim2SF x) as [s|s| |s m e], (Prim2SF y) as [s'|s'| |s' m' e'];
    cbn in H; try discriminate; subst s'; try reflexivity;
    try (destruct s; discriminate).
  destruct s;
    destruct (Z.compare e e') eqn:Ee; try discriminate;
    apply Z.compare_eq in Ee; subst e';
    rewrite Pos.compare_cont_spec in H; cbn in H;
    destruct (Pos.compare m m') eqn:Em; try discriminate;
    apply Pos.compare_eq in Em; subst m'; reflexivity.
Qed.

(** Two timestamps that are [==] and have the same offset have the same
    fields. *)
Lemma datetime_eq_utcoffset (a b : datetime) :
  datetime_eq a b = true -> datetime.utcoffset a = datetime.utcoffset b -> a = b.
Proof.
  destruct a as [y mo d h mi s us off], b as [y' mo' d' h' mi' s' us' off'].
  unfold datetime_eq. cbn. intros H E. subst off'.
  assert (Hf : ((y =? y') && ((mo =? mo') && ((d =? d') && ((h =? h')
                && ((mi =? mi') && ((s =? s') && ((us =? us') && true)))))))%Z
               = true).
  { destruct off; [rewrite Z.eqb_refl in H|]; exact H. }
  rewrite !andb_true_iff, !Z.eqb_eq in Hf.
  destruct Hf as (-> & -> & -> & -> & -> & -> & -> & _). reflexivity.
Qed.

Lemma Coord3D_eq_signbit (a b : Coord3D) :
  Coord3D_eq a b = true ->
  map signbit (Coord3D_floats a) = map signbit (Coord3D_floats b) -> a = b.
Proof.
  destruct a, b. unfold Coord3D_eq. cbn. rewrite !andb_true_iff.
  intros [[Hx Hy] Hz] [= Sx Sy Sz].
  rewrite (float_eq_signbit _ _ Hx Sx), (float_eq_signbit _ _ Hy Sy),
    (float_eq_signbit _ _ Hz Sz). reflexivity.
Qed.

Lemma Velocity3D_eq_signbit (a b : Velocity3D) :
  Velocity3D_eq a b = true ->
  map signbit (Velocity3D_floats a) = map signbit (Velocity3D_floats b) -> a = b.
Proof.
  destruct a, b. unfold Velocity3D_eq. cbn. rewrite !andb_true_iff.
  intros [[Hx Hy] Hz] [= Sx Sy Sz].
  rewrite (float_eq_signbit _ _ Hx Sx), (float_eq_signbit _ _ Hy Sy),
    (float_eq_signbit _ _ Hz Sz). reflexivity.
Qed.

Lemma map_app_inv {A B : Type} (f : A -> B) (l1 l1' l2 l2' : list A) :
  List.length l1 = List.length l1' ->
  map f (l1 ++ l2) = map f (l1' ++ l2') ->
  map f l1 = map f l1' /\ map f l2 = map f l2'.
Proof.
  revert l1'. induction l1 as [|x l1 IH]; intros [|y l1']; cbn;
    try discriminate; intros Hlen H.
  - split; [reflexivity|exact H].
  - injection H as Hxy H. injection Hlen as Hlen.
    destruct (IH _ Hlen H) as [H1 H2]. split; [congruence|exact H2].
Qed.

Lemma BirdDetection_eq_same (a b : BirdDetection) :
  BirdDetection_eq a b = true ->
  map signbit (BirdDetection_floats a) = map signbit (BirdDetection_floats b) ->
  datetime.utcoffset (BirdDetection.timestamp a)
  = datetime.utcoffset (BirdDetection.timestamp b) ->
  a = b.
Proof.
  destruct a as [id p v t c], b as [id' p' v' t' c'].
  unfold BirdDetection_eq, BirdDetection_floats. cbn [BirdDetection.id
    BirdDetection.position BirdDetection.velocity BirdDetection.timestamp
    BirdDetection.confidence].
  rewrite !andb_true_iff. intros [[[[Hid Hp] Hv] Ht] Hc] Hs Ho.
  apply map_app_inv in Hs as [Sp Hs]; [|reflexivity].
  apply map_app_inv in Hs as [Sv Sc]; [|reflexivity].
  injection Sc as Sc.
  apply String.eqb_eq in Hid. subst id'.
  rewrite (Coord3D_eq_signbit _ _ Hp Sp), (Velocity3D_eq_signbit _ _ Hv Sv),
    (datetime_eq_utcoffset _ _ Ht Ho), (float_eq_signbit _ _ Hc Sc).
  reflexivity.
Qed.

Lemma AircraftState_eq_same (a b : AircraftState) :
  AircraftState_eq a b = true ->
  map signbit (AircraftState_floats a) = map signbit (AircraftState_floats b) ->
  datetime.utcoffset (AircraftState.timestamp a)
  = datetime.utcoffset (AircraftState.timestamp b) ->
  a = b.
Proof.
  destruct a as [cs p v h alt t], b as [cs' p' v' h' alt' t'].
  unfold AircraftState_eq, AircraftState_floats. cbn [AircraftState.callsign
    AircraftState.position AircraftState.velocity AircraftState.heading_deg
    AircraftState.altitude_agl_m AircraftState.timestamp].
  rewrite !andb_true_iff. intros [[[[[Hcs Hp] Hv] Hh] Ha] Ht] Hs Ho.
  apply map_app_inv in Hs as [Sp Hs]; [|reflexivity].
  apply map_app_inv in Hs as [Sv Sc]; [|reflexivity].
  injection Sc as Sh Sa.
  apply String.eqb_eq in Hcs. subst cs'.
  rewrite (Coord3D_eq_signbit _ _ Hp Sp), (Velocity3D_eq_signbit _ _ Hv Sv),
    (datetime_eq_utcoffset _ _ Ht Ho), (float_eq_signbit _ _ Hh Sh),
    (float_eq_signbit _ _ Ha Sa).
  reflexivity.
Qed.

Lemma birds_eq_same (l l' : list BirdDetection) :
  list_eq BirdDetection_eq l l' = true ->
  map signbit (flat_map BirdDetection_floats l)
  = map signbit (flat_map BirdDetection_floats l') ->
  map datetime.utcoffset (map BirdDetection.timestamp l)
  = map datetime.utcoffset (map BirdDetection.timestamp l') ->
  l = l'.
Proof.
  revert l'. induction l as [|b l IH]; intros [|b' l']; cbn [list_eq];
    try discriminate; [reflexivity|].
  rewrite andb_true_iff. intros [Hb Hl] Hs Ho.
  cbn [flat_map] in Hs. apply map_app_inv in Hs as [Sb Sl]; [|reflexivity].
  cbn [map] in Ho. injection Ho as Ob Ol.
  rewrite (BirdDetection_eq_same _ _ Hb Sb Ob), (IH _ Hl Sl Ol). reflexivity.
Qed.

(** Two queries that are [==], whose floats have the same signs and whose
    timestamps have the same offsets, are the same query. *)
Lemma RiskQuery_eq_same (q1 q2 : RiskQuery) :
  RiskQuery_eq q1 q2 = true ->
  map signbit (RiskQuery_floats q1) = map signbit (RiskQuery_floats q2) ->
  map datetime.utcoffset (RiskQuery_timestamps q1)
  = map datetime.utcoffset (RiskQuery_timestamps q2) ->
  q1 = q2.
Proof.
  destruct q1 as [a l], q2 as [a' l'].
  unfold RiskQuery_eq, RiskQuery_floats, RiskQuery_timestamps.
  cbn [RiskQuery.aircraft RiskQuery.birds].
  rewrite andb_true_iff. intros [Ha Hl] Hs Ho.
  apply map_app_inv in Hs as [Sa Sl]; [|reflexivity].
  cbn [map] in Ho. injection Ho as Oa Ol.
  rewrite (AircraftState_eq_same _ _ Ha Sa Oa), (birds_eq_same _ _ Hl Sl Ol).
  reflexivity.
Qed.

(** ** The text of a timestamp *)

Lemma digit_inj (a b : Z) : digit a = digit b -> (a mod 10 = b mod 10)%Z.
Proof.
  unfold digit. intros H. apply (f_equal nat_of_ascii) in H.
  pose proof (Z.mod_pos_bound a 10 eq_refl). pose proof (Z.mod_pos_bound b 10 eq_refl).
  rewrite !nat_ascii_embedding in H by lia. lia.
Qed.

Lemma append_assoc (a b c : string) : ((a ++ b) ++ c = a ++ (b ++ c))%string.
Proof. induction a as [|x a IH]; cbn; [reflexivity|]. rewrite IH. reflexivity. Qed.

Lemma append_empty_r (a : string) : (a ++ "" = a)%string.
Proof. induction a as [|x a IH]; cbn; [reflexivity|]. rewrite IH. reflexivity. Qed.

Lemma string_tail (c c' : ascii) (s t : string) : String c s = String c' t -> s = t.
Proof. intros [= _ H]. exact H. Qed.

Lemma zfill_append (width : nat) (n : Z) (acc : string) :
  zfill width n acc = (zfill width n "" ++ acc)%string.
Proof.
  revert n acc. induction width as [|w IH]; intros n acc; cbn [zfill].
  - reflexivity.
  - rewrite (IH _ (String (digit n) acc)), (IH _ (String (digit n) "")).
    rewrite append_assoc. reflexivity.
Qed.

Lemma zfill_length_empty (width : nat) (n : Z) :
  String.length (zfill width n "") = width.
Proof.
  rewrite zfill_length. cbn. lia.
Qed.

Lemma append_inj (a a' b b' : string) :
  String.length a = String.length a' ->
  (a ++ b = a' ++ b')%string -> a = a' /\ b = b'.
Proof.
  revert a'. induction a as [|c a IH]; intros [|c' a']; cbn; try discriminate.
  - intros _ H. split; [reflexivity|exact H].
  - intros Hlen H. injection Hlen as Hlen. injection H as Hc H.
    destruct (IH _ Hlen H) as [-> ->]. subst c'. split; reflexivity.
Qed.

(** A number is read off the digits [zfill] writes when it fits the
    width. *)
Lemma zfill_inj (width : nat) (a b : Z) :
  (0 <= a < 10 ^ Z.of_nat width)%Z -> (0 <= b < 10 ^ Z.of_nat width)%Z ->
  zfill width a "" = zfill width b "" -> a = b.
Proof.
  revert a b. induction width as [|w IH]; intros a b Ha Hb H.
  - cbn in Ha, Hb. lia.
  - cbn [zfill] in H.
    rewrite (zfill_append w (a / 10)), (zfill_append w (b / 10)) in H.
    apply append_inj in H as [H Hd]; [|rewrite !zfill_length_empty; reflexivity].
    injection Hd as Hd. apply digit_inj in Hd.
    rewrite Nat2Z.inj_succ, Z.pow_succ_r in Ha, Hb by lia.
    assert (a / 10 = b / 10)%Z.
    { apply IH; [| |exact H].
      - split; [apply Z.div_pos; lia|apply Z.div_lt_upper_bound; lia].
      - split; [apply Z.div_pos; lia|apply Z.div_lt_upper_bound; lia]. }
    rewrite (Z.div_mod a 10), (Z.div_mod b 10) by lia. congruence.
Qed.

Lemma zfill_peel (width : nat) (a b : Z) (s t : string) :
  (0 <= a < 10 ^ Z.of_nat width)%Z -> (0 <= b < 10 ^ Z.of_nat width)%Z ->
  (zfill width a "" ++ s = zfill width b "" ++ t)%string -> a = b /\ s = t.
Proof.
  intros Ha Hb H.
  apply append_inj in H as [H Hst]; [|rewrite !zfill_length_empty; reflexivity].
  split; [exact (zfill_inj _ _ _ Ha Hb H)|exact Hst].
Qed.

Lemma days_in_month_le (year month : Z) : (days_in_month year month <= 31)%Z.
Proof.
  unfold days_in_month.
  destruct (month =? 2)%Z; [destruct (is_leap year); lia|].
  destruct ((month =? 4) || (month =? 6) || (month =? 9) || (month =? 11))%Z; lia.
Qed.

(** The fields of an offset, as [format_offset] prints them. *)
Lemma offset_fields (off : Z) :
  (0 <= off < 86400000000)%Z ->
  (0 <= off / 3600000000 < 10 ^ Z.of_nat 2)%Z /\
  (0 <= off mod 3600000000 / 60000000 < 10 ^ Z.of_nat 2)%Z /\
  (0 <= off mod 60000000 / 1000000 < 10 ^ Z.of_nat 2)%Z /\
  (0 <= off mod 1000000 < 10 ^ Z.of_nat 6)%Z /\
  (off = off / 3600000000 * 3600000000 + off mod 3600000000 / 60000000 * 60000000
         + off mod 60000000 / 1000000 * 1000000 + off mod 1000000)%Z.
Proof.
  intros H. cbn [Z.of_nat Pos.of_succ_nat Pos.succ Z.pow Z.pow_pos Pos.iter Z.mul Pos.mul].
  repeat split; try (Z.to_euclidean_division_equations; lia).
Qed.

Lemma format_offset_inj (o o' : option Z) :
  match o with Some off => (-86400000000 < off < 86400000000)%Z | None => True end ->
  match o' with Some off => (-86400000000 < off < 86400000000)%Z | None => True end ->
  format_offset o = format_offset o' -> o = o'.
Proof.
  destruct o as [off|], o' as [off'|]; unfold format_offset; intros Ho Ho' H.
  - assert (Ha : (0 <= Z.abs off < 86400000000)%Z) by lia.
    assert (Ha' : (0 <= Z.abs off' < 86400000000)%Z) by lia.
    destruct (offset_fields _ Ha) as (Hh & Hm & Hs & Hu & E).
    destruct (offset_fields _ Ha') as (Hh' & Hm' & Hs' & Hu' & E').
    cbv zeta in H.
    set (hh := (Z.abs off / 3600000000)%Z) in *.
    set (mm := (Z.abs off mod 3600000000 / 60000000)%Z) in *.
    set (ss := (Z.abs off mod 60000000 / 1000000)%Z) in *.
    set (us := (Z.abs off mod 1000000)%Z) in *.
    set (hh' := (Z.abs off' / 3600000000)%Z) in *.
    set (mm' := (Z.abs off' mod 3600000000 / 60000000)%Z) in *.
    set (ss' := (Z.abs off' mod 60000000 / 1000000)%Z) in *.
    set (us' := (Z.abs off' mod 1000000)%Z) in *.
    assert (Hsign : (off <? 0)%Z = (off' <? 0)%Z).
    { destruct (off <? 0)%Z, (off' <? 0)%Z; try reflexivity;
        cbn in H; discriminate. }
    assert (Hrest : Z.abs off = Z.abs off').
    { assert (H' : ((zfill 2 hh "" ++ ":" ++ zfill 2 mm ""
                     ++ (if (us =? 0)%Z
                         then if (ss =? 0)%Z then "" else ":" ++ zfill 2 ss ""
                         else ":" ++ zfill 2 ss "" ++ "." ++ zfill 6 us ""))
                    = (zfill 2 hh' "" ++ ":" ++ zfill 2 mm' ""
                       ++ (if (us' =? 0)%Z
                           then if (ss' =? 0)%Z then "" else ":" ++ zfill 2 ss' ""
                           else ":" ++ zfill 2 ss' "" ++ "." ++ zfill 6 us' "")))%string).
      { destruct (off <? 0)%Z, (off' <? 0)%Z; try discriminate Hsign;
          cbn [append] in H; apply string_tail in H; exact H. }
      clear H. apply zfill_peel in H' as [Ehh H']; [|assumption..].
      cbn [append] in H'. apply string_tail in H'.
      apply zfill_peel in H' as [Emm H']; [|assumption..].
      assert (Ess : ss = ss' /\ us = us').
      { destruct (Z.eqb_spec us 0) as [U|U], (Z.eqb_spec us' 0) as [U'|U'].
        - destruct (Z.eqb_spec ss 0) as [S|S], (Z.eqb_spec ss' 0) as [S'|S'];
            try (cbn [append] in H'; discriminate H').
          + lia.
          + cbn [append] in H'. apply string_tail in H'.
            rewrite <- (append_empty_r (zfill 2 ss "")),
              <- (append_empty_r (zfill 2 ss' "")) in H'.
            apply zfill_peel in H' as [Ess _]; [|assumption..]. lia.
        - destruct (Z.eqb_spec ss 0) as [S|S];
            cbn [append] in H'; discriminate H'.
        - destruct (Z.eqb_spec ss' 0) as [S|S];
            cbn [append] in H'; discriminate H'.
        - cbn [append] in H'. apply string_tail in H'.
          apply zfill_peel in H' as [Ess H']; [|assumption..].
          cbn [append] in H'. apply string_tail in H'.
          rewrite <- (append_empty_r (zfill 6 us "")),
            <- (append_empty_r (zfill 6 us' "")) in H'.
          apply zfill_peel in H' as [Eus _]; [|assumption..].
          split; assumption. }
      destruct Ess as [Ess Eus]. rewrite E, E'. congruence. }
    f_equal. destruct (Z.ltb_spec off 0), (Z.ltb_spec off' 0);
      try discriminate Hsign; lia.
  - exfalso. destruct (off <? 0)%Z; cbn in H; discriminate H.
  - exfalso. destruct (off' <? 0)%Z; cbn in H; discriminate H.
  - reflexivity.
Qed.

Lemma datetime_valid_fields (d : datetime) :
  datetime_valid d = true ->
  (0 <= datetime.year d < 10 ^ Z.of_nat 4)%Z /\
  (0 <= datetime.month d < 10 ^ Z.of_nat 2)%Z /\
  (0 <= datetime.day d < 10 ^ Z.of_nat 2)%Z /\
  (0 <= datetime.hour d < 10 ^ Z.of_nat 2)%Z /\
  (0 <= datetime.minute d < 10 ^ Z.of_nat 2)%Z /\
  (0 <= datetime.second d < 10 ^ Z.of_nat 2)%Z /\
  (0 <= datetime.microsecond d < 10 ^ Z.of_nat 6)%Z /\
  match datetime.utcoffset d with
  | Some off => (-86400000000 < off < 86400000000)%Z
  | None => True
  end.
Proof.
  unfold datetime_valid. rewrite !andb_true_iff, !Z.leb_le, !Z.ltb_lt.
  intros H. decompose [and] H. clear H.
  pose proof (days_in_month_le (datetime.year d) (datetime.month d)).
  change (10 ^ Z.of_nat 4)%Z with 10000%Z.
  change (10 ^ Z.of_nat 2)%Z with 100%Z.
  change (10 ^ Z.of_nat 6)%Z with 1000000%Z.
  repeat split; try lia.
  destruct (datetime.utcoffset d); [|exact I].
  match goal with
  | Ho : (_ && _)%bool = true |- _ =>
      apply andb_true_iff in Ho; rewrite !Z.ltb_lt in Ho; exact Ho
  end.
Qed.

(** The text of a timestamp tells its fields and its offset: two
    timestamps with the same text are the same. *)
Lemma datetime_isoformat_sep_inj (sep : ascii) (d1 d2 : datetime) :
  datetime_valid d1 = true -> datetime_valid d2 = true ->
  datetime_isoformat_sep (String sep "") d1 = datetime_isoformat_sep (String sep "") d2 ->
  d1 = d2.
Proof.
  intros V1 V2.
  destruct (datetime_valid_fields _ V1) as (Hy & Hmo & Hd & Hh & Hmi & Hs & Hus & Ho).
  destruct (datetime_valid_fields _ V2) as (Hy' & Hmo' & Hd' & Hh' & Hmi' & Hs' & Hus' & Ho').
  clear V1 V2.
  destruct d1 as [y mo d h mi s us off], d2 as [y' mo' d' h' mi' s' us' off'].
  unfold datetime_isoformat_sep.
  cbn [datetime.year datetime.month datetime.day datetime.hour datetime.minute
       datetime.second datetime.microsecond datetime.utcoffset] in *.
  intros H.
  apply zfill_peel in H as [<- H]; [|assumption..].
  cbn [append] in H. apply string_tail in H.
  apply zfill_peel in H as [<- H]; [|assumption..].
  cbn [append] in H. apply string_tail in H.
  apply zfill_peel in H as [<- H]; [|assumption..].
  cbn [append] in H. apply string_tail in H.
  apply zfill_peel in H as [<- H]; [|assumption..].
  cbn [append] in H. apply string_tail in H.
  apply zfill_peel in H as [<- H]; [|assumption..].
  cbn [append] in H. apply string_tail in H.
  apply zfill_peel in H as [<- H]; [|assumption..].
  assert (E : us = us' /\ format_offset off = format_offset off').
  { destruct (Z.eqb_spec us 0) as [U|U], (Z.eqb_spec us' 0) as [U'|U'].
    - cbn [append] in H. split; [lia|exact H].
    - exfalso. cbn [append] in H.
      destruct off as [o|]; [|discriminate H]. unfold format_offset in H.
      destruct (o <? 0)%Z; discriminate H.
    - exfalso. cbn [append] in H.
      destruct off' as [o|]; [|discriminate H]. unfold format_offset in H.
      destruct (o <? 0)%Z; discriminate H.
    - cbn [append] in H. apply string_tail in H.
      rewrite <- ?append_assoc in H.
      apply zfill_peel in H as [Eus H]; [|assumption..].
      split; assumption. }
  destruct E as [<- E]. rewrite (format_offset_inj _ _ Ho Ho' E). reflexivity.
Qed.

Section InputHash.

Variable floatstr : float -> string.
Variable encode_basestring_ascii : string -> string.
Variable sha256_hexdigest : string -> string.

Notation dumps := (json_dumps floatstr encode_basestring_ascii).

(** The members of an object are the items of the dictionary, each value
    serialised, in the order of their keys. *)
Lemma json_dumps_sorted (items : list (string * pyobj)) :
  exists members : list (string * string),
    Permutation (map (fun kv => (fst kv, dumps (snd kv))) items) members /\
    StronglySorted (key_le string) members /\
    dumps (PyDict items)
    = object (map (fun kv => member encode_basestring_ascii (fst kv) (snd kv))
                  members).
Proof.
  exists (sorted_items (map (fun kv => (fst kv, dumps (snd kv))) items)).
  split; [|split].
  - apply Permutation_sym, sorted_items_perm.
  - apply sorted_items_sorted.
  - rewrite json_dumps_dict. unfold object, member.
    replace (map (fun kv => let '(k, v) := kv in (k, dumps v)) items)
      with (map (fun kv => (fst kv, dumps (snd kv))) items)
      by (apply map_ext; intros [k v]; reflexivity).
    reflexivity.
Qed.

(** C8: the hash is the SHA-256 digest of the canonical text of the query:
    in every object the members stand in the order of their keys, whatever
    the order in which the dictionary holds them, the birds stand in the
    order of the list, and a timestamp is the string [str] gives, which
    tells the timestamp.  Two queries that are [==], whose floats have the
    same signs and whose timestamps have the same offsets, have the same
    hash. *)
Theorem compute_input_hash_deterministic :
  (forall q1 q2 : RiskQuery,
      RiskQuery_eq q1 q2 = true ->
      map signbit (RiskQuery_floats q1) = map signbit (RiskQuery_floats q2) ->
      map datetime.utcoffset (RiskQuery_timestamps q1)
      = map datetime.utcoffset (RiskQuery_timestamps q2) ->
      compute_input_hash floatstr encode_basestring_ascii sha256_hexdigest q1
      = compute_input_hash floatstr encode_basestring_ascii sha256_hexdigest q2) /\
  (forall q : RiskQuery,
      compute_input_hash floatstr encode_basestring_ascii sha256_hexdigest q
      = sha256_hexdigest (canonical_json floatstr encode_basestring_ascii q)) /\
  (forall items : list (string * pyobj),
      exists members : list (string * string),
        Permutation (map (fun kv => (fst kv, dumps (snd kv))) items) members /\
        StronglySorted (key_le string) members /\
        dumps (PyDict items)
        = object (map (fun kv => member encode_basestring_ascii (fst kv) (snd kv))
                      members)) /\
  (forall d1 d2 : datetime,
      datetime_valid d1 = true -> datetime_valid d2 = true ->
      datetime_str d1 = datetime_str d2 -> d1 = d2).
Proof.
  split; [|split; [|split]].
  - intros q1 q2 Heq Hs Ho. rewrite (RiskQuery_eq_same _ _ Heq Hs Ho). reflexivity.
  - intros q. unfold compute_input_hash. rewrite json_dumps_query. reflexivity.
  - exact json_dumps_sorted.
  - intros d1 d2. unfold datetime_str. apply datetime_isoformat_sep_inj.
Qed.

End InputHash.

(** ** A bad track *)

Section BadTrack.

Variable float_pow : float -> float -> result float.
Variables format_1f floatstr : float -> string.
Variables encode_basestring_ascii sha256_hexdigest : string -> string.

(** X18: one bird whose estimate raises is enough for the evaluation to
    raise, whatever the other birds are: no assessment is returned and
    nothing is logged. *)
Theorem evaluate_risk_aborts_on_bad_track (decision_id : string)
    (query : RiskQuery) (config : RiskConfig) (b : BirdDetection) (e : exn) :
  In b (RiskQuery.birds query) ->
  estimate float_pow (RiskQuery.aircraft query) config b = Raise e ->
  exists b' e',
    In b' (RiskQuery.birds query) /\
    estimate float_pow (RiskQuery.aircraft query) config b' = Raise e' /\
    evaluate_risk float_pow format_1f floatstr encode_basestring_ascii
      sha256_hexdigest decision_id query config = raise e'.
Proof.
  intros Hin Hb.
  destruct (evaluate_risk_run float_pow format_1f floatstr encode_basestring_ascii
              sha256_hexdigest decision_id query config)
    as [(b' & e' & Hin' & Hb' & E)|(level & prob & ttc & bird & rationale & extra & _ & H)].
  - exists b', e'. repeat split; assumption.
  - exfalso. assert (Hall := proj2 (proj2 (proj2 (proj2 (proj2 (proj2 H)))))).
    rewrite Forall_forall in Hall. destruct (Hall b Hin) as [o Ho].
    rewrite Hb in Ho. discriminate.
Qed.

End BadTrack.

(** ** The further properties on concrete inputs *)

(** The engine with the reference power and the stand-in text functions. *)
Definition demo_risk (decision_id : string) (query : RiskQuery)
    (config : RiskConfig) : M RiskAssessment :=
  evaluate_risk ieee_pow text_of_float text_of_float text_of_string
    text_of_string decision_id query config.

Definition demo_hash (query : RiskQuery) : string :=
  compute_input_hash text_of_float text_of_string text_of_string query.

(** A bird so fast that the square of the relative speed overflows. *)
Definition bird_fast : BirdDetection :=
  BirdDetection.mk "fast" (Coord3D.mk 400 0 100) (Velocity3D.mk 1e200 0 0) noon 1.

Definition query_1 : RiskQuery := RiskQuery.mk own_ship [bird_A].
Definition query_far : RiskQuery := RiskQuery.mk own_ship [bird_far].
Definition query_far_A : RiskQuery := RiskQuery.mk own_ship [bird_far; bird_A].
Definition query_A_fast : RiskQuery := RiskQuery.mk own_ship [bird_A; bird_fast].

(** The assessment of a query whose nearest bird is bird A, 8 s away. *)
Definition critical_A (decision_id : string) (query : RiskQuery) : RiskAssessment :=
  RiskAssessment.mk RiskLevel.CRITICAL 0.80 (Some 8%float) (Some "A")
    (conflict_rationale text_of_float bird_A 8) decision_id (demo_hash query)
    ENGINE_VERSION "2025-11-30-a".

Lemma scenario_1_logged :
  exists extra,
    fst (demo_risk "d-1" query_1 RISK_CONFIG) = [mk_log "risk_decision" extra] /\
    extra_get "decision_id" extra = Some (LStr "d-1") /\
    extra_get "risk_level" extra = Some (LStr "CRITICAL") /\
    extra_get "collision_probability" extra = Some (LFloat 0.80) /\
    extra_get "time_to_conflict_s" extra = Some (LFloat 8) /\
    extra_get "most_threatening_bird_id" extra = Some (LStr "A") /\
    (Some 8%float = None ->
     extra_get "reason" extra
     = Some (LStr (conflict_rationale text_of_float bird_A 8))).
Proof.
  exact (evaluate_risk_logs_its_decision ieee_pow text_of_float text_of_float
           text_of_string text_of_string "d-1" query_1 RISK_CONFIG
           (critical_A "d-1" query_1) eq_refl).
Defined.

Lemma overflow_aborts_unlogged :
  (fst (demo_risk "d-7" query_A_fast RISK_CONFIG) = [] /\
   exists b, In b [bird_A; bird_fast] /\
             estimate ieee_pow own_ship RISK_CONFIG b = Raise OverflowError) \/
  (OverflowError = ValidationError /\
   exists extra p,
     fst (demo_risk "d-7" query_A_fast RISK_CONFIG) = [mk_log "risk_decision" extra] /\
     extra_get "collision_probability" extra = Some (LFloat p) /\
     RiskAssessment.collision_probability_ok p = false).
Proof.
  exact (evaluate_risk_failure ieee_pow text_of_float text_of_float
           text_of_string text_of_string "d-7" query_A_fast RISK_CONFIG
           OverflowError eq_refl).
Defined.

Lemma scenario_1_audit_fields :
  RiskAssessment.decision_id (critical_A "d-1" query_1) = "d-1" /\
  RiskAssessment.input_hash (critical_A "d-1" query_1) = demo_hash query_1 /\
  RiskAssessment.engine_version (critical_A "d-1" query_1) = ENGINE_VERSION /\
  RiskAssessment.config_version (critical_A "d-1" query_1)
  = RiskConfig.version RISK_CONFIG /\
  Py.ge (RiskAssessment.collision_probability (critical_A "d-1" query_1)) 0 = true /\
  Py.le (RiskAssessment.collision_probability (critical_A "d-1" query_1)) 1 = true.
Proof.
  exact (evaluate_risk_audit_fields ieee_pow text_of_float text_of_float
           text_of_string text_of_string "d-1" query_1 RISK_CONFIG
           (critical_A "d-1" query_1) eq_refl).
Defined.

Lemma overflow_comes_from_a_power :
  exists x y, ieee_pow x y = Raise OverflowError.
Proof.
  exact (estimate_raises_what_a_power_raises ieee_pow own_ship bird_fast
           RISK_CONFIG OverflowError eq_refl).
Defined.

Lemma scenario_1_quotient :
  is_nan 8 = is_nan (RiskConfig.min_ttc_s RISK_CONFIG) /\
  (8%float = RiskConfig.min_ttc_s RISK_CONFIG \/
   8%float = RiskConfig.max_ttc_s RISK_CONFIG \/
   exists rs d,
     relative_speed ieee_pow own_ship bird_A = ret rs /\
     distance ieee_pow own_ship bird_A = ret d /\
     8%float = (d / rs)%float).
Proof.
  exact (estimate_returns_quotient_or_bound ieee_pow own_ship bird_A RISK_CONFIG
           8 eq_refl).
Defined.

Lemma scenario_1_needs_approval :
  ActionRecommendation.requires_human_approval (plan_action (critical_A "d-1" query_1))
  = negb (Py.ge 8 (RiskConfig.ttc_low_threshold_s RISK_CONFIG)) /\
  (ActionRecommendation.action (plan_action (critical_A "d-1" query_1))
   = ActionType.MAINTAIN <->
   ActionRecommendation.requires_human_approval (plan_action (critical_A "d-1" query_1))
   = false).
Proof.
  exact (plan_approval_iff_below_low ieee_pow text_of_float text_of_float
           text_of_string text_of_string "d-1" query_1 RISK_CONFIG
           (critical_A "d-1" query_1) eq_refl).
Defined.

Lemma a_near_bird_raises_the_level :
  severity RiskLevel.LOW <= severity RiskLevel.CRITICAL.
Proof.
  refine (evaluate_risk_monotone ieee_pow text_of_float text_of_float
            text_of_string text_of_string "d-2" "d-6" query_far query_far_A
            RISK_CONFIG
            (RiskAssessment.mk RiskLevel.LOW 0.05 None None presence_rationale "d-2"
               (demo_hash query_far) ENGINE_VERSION "2025-11-30-a")
            (critical_A "d-6" query_far_A) eq_refl _ eq_refl eq_refl).
  intros b [<-|[]]. left. reflexivity.
Defined.

Lemma scenario_1_within_clamp :
  Py.le (RiskConfig.min_ttc_s RISK_CONFIG) 8 = true /\
  Py.le 8 (RiskConfig.max_ttc_s RISK_CONFIG) = true.
Proof.
  exact (evaluate_risk_ttc_within_clamp ieee_pow text_of_float text_of_float
           text_of_string text_of_string "d-1" query_1 RISK_CONFIG
           (critical_A "d-1" query_1) 8 eq_refl eq_refl eq_refl).
Defined.

(** Under the config with floor 10, the bird 8 s away is assessed at 10 s,
    which is HIGH. *)
Definition high_A : RiskAssessment :=
  RiskAssessment.mk RiskLevel.HIGH 0.60 (Some 10%float) (Some "A")
    (conflict_rationale text_of_float bird_A 10) "d-8" (demo_hash query_1)
    ENGINE_VERSION "inverted".

Lemma floor_at_high_hides_critical :
  (Py.ge (RiskConfig.min_ttc_s inverted_config)
         (RiskConfig.ttc_high_threshold_s inverted_config) = true ->
   RiskAssessment.risk_level high_A <> RiskLevel.CRITICAL) /\
  (Py.le (RiskConfig.min_ttc_s inverted_config)
         (RiskConfig.max_ttc_s inverted_config) = true ->
   Py.lt (RiskConfig.max_ttc_s inverted_config)
         (RiskConfig.ttc_low_threshold_s inverted_config) = true ->
   RiskAssessment.risk_level high_A = RiskLevel.LOW ->
   RiskAssessment.time_to_conflict_s high_A = None).
Proof.
  exact (clamp_hides_bands ieee_pow text_of_float text_of_float
           text_of_string text_of_string "d-8" query_1 inverted_config
           high_A eq_refl).
Defined.

Lemma scenario_1_shape :
  (RiskAssessment.risk_level (critical_A "d-1" query_1) = RiskLevel.NONE <->
   RiskQuery.birds query_1 = []) /\
  (forall t, RiskAssessment.time_to_conflict_s (critical_A "d-1" query_1) = Some t ->
     (RiskAssessment.risk_level (critical_A "d-1" query_1),
      RiskAssessment.collision_probability (critical_A "d-1" query_1))
     = ttc_band RISK_CONFIG t) /\
  (RiskAssessment.time_to_conflict_s (critical_A "d-1" query_1) = None ->
   RiskQuery.birds query_1 <> [] ->
   RiskAssessment.risk_level (critical_A "d-1" query_1) = RiskLevel.LOW /\
   RiskAssessment.collision_probability (critical_A "d-1" query_1)
   = RiskConfig.prob_presence_only RISK_CONFIG).
Proof.
  exact (evaluate_risk_shape ieee_pow text_of_float text_of_float
           text_of_string text_of_string "d-1" query_1 RISK_CONFIG
           (critical_A "d-1" query_1) eq_refl).
Defined.

Lemma health_versions_scenario_1 :
  dict_get "engine_version" (healthcheck noon) = Some ENGINE_VERSION /\
  dict_get "config_version" (healthcheck noon) = Some "2025-11-30-a" /\
  dict_get "status" (healthcheck noon) = Some "ok".
Proof.
  exact (health_versions_are_those_of_assessments ieee_pow text_of_float
           text_of_float text_of_string text_of_string noon "d-1" query_1
           (critical_A "d-1" query_1) eq_refl).
Defined.

(** The query of scenario 1 with another call sign, heading, altitude and
    confidence. *)
Definition query_1_relabelled : RiskQuery :=
  RiskQuery.mk (scenario_aircraft "N456" 270 50 noon)
               [hovering_bird "A" 400 noon 0.25].

Lemma relabelling_keeps_the_assessment :
  outcome (demo_risk "d-1" query_1_relabelled RISK_CONFIG)
  = Ok (with_input_hash (demo_hash query_1_relabelled) (critical_A "d-1" query_1)).
Proof.
  refine (evaluate_risk_uses_kinematics_only ieee_pow text_of_float text_of_float
            text_of_string text_of_string "d-1" query_1 query_1_relabelled
            RISK_CONFIG (critical_A "d-1" query_1) _ _ eq_refl).
  - split; reflexivity.
  - repeat constructor.
Defined.

Lemma far_bird_changes_nothing :
  outcome (demo_risk "d-6" query_1 RISK_CONFIG)
  = Ok (with_input_hash (demo_hash query_1) (critical_A "d-6" query_far_A)).
Proof.
  refine (evaluate_risk_ignores_gated_birds ieee_pow text_of_float text_of_float
            text_of_string text_of_string "d-6" query_far_A RISK_CONFIG
            (critical_A "d-6" query_far_A) _ eq_refl).
  discriminate.
Defined.

Lemma fast_bird_aborts :
  exists b' e',
    In b' (RiskQuery.birds query_A_fast) /\
    estimate ieee_pow (RiskQuery.aircraft query_A_fast) RISK_CONFIG b' = Raise e' /\
    demo_risk "d-7" query_A_fast RISK_CONFIG = raise e'.
Proof.
  refine (evaluate_risk_aborts_on_bad_track ieee_pow text_of_float text_of_float
            text_of_string text_of_string "d-7" query_A_fast RISK_CONFIG
            bird_fast OverflowError _ eq_refl).
  right. left. reflexivity.
Defined.

(** The dictionary of scenario 1 with the birds before the aircraft. *)
Definition query_1_birds_first : pyobj :=
  PyDict [("birds", PyList (map BirdDetection_dict (RiskQuery.birds query_1)));
          ("aircraft", AircraftState_dict (RiskQuery.aircraft query_1))].

Lemma birds_first_hashes_alike :
  json_dumps text_of_float text_of_string query_1_birds_first
  = json_dumps text_of_float text_of_string (RiskQuery_dict query_1) /\
  text_of_string (json_dumps text_of_float text_of_string query_1_birds_first)
  = demo_hash query_1.
Proof.
  refine (hash_ignores_insertion_order text_of_float text_of_string text_of_string
            query_1 query_1_birds_first _).
  eapply reordered_dict.
  - constructor; [split; [reflexivity|apply reordered_same]|].
    constructor; [split; [reflexivity|apply reordered_same]|]. constructor.
  - apply perm_swap.
  - repeat constructor; cbn; intuition discriminate.
Defined.

(** ** The constructor of a detection and the hash on concrete inputs *)

(** A limit, five seconds after noon; a detection an hour before noon, its
    timestamp aware (UTC) or naive. *)
Definition noon_plus_5 : datetime := datetime.mk 2025 11 30 12 0 5 0 None.
Definition eleven_utc : datetime := datetime.mk 2025 11 30 11 0 0 0 (Some 0%Z).
Definition eleven : datetime := datetime.mk 2025 11 30 11 0 0 0 None.

(** A detection of an hour ago is refused when its timestamp is aware, and
    accepted when it is naive. *)
Lemma aware_past_detection_refused :
  timestamp_not_in_future noon_plus_5 eleven_utc = Raise TypeError /\
  BirdDetection_init noon_plus_5 "A" (Coord3D.mk 400 0 100) (Velocity3D.mk 0 0 0)
    eleven 1
  = Ok (BirdDetection.mk "A" (Coord3D.mk 400 0 100) (Velocity3D.mk 0 0 0) eleven 1).
Proof.
  split.
  - exact (proj1 (proj1 (BirdDetection_init_accepts noon_plus_5 "A"
                           (Coord3D.mk 400 0 100) (Velocity3D.mk 0 0 0) eleven_utc 1
                           eq_refl eq_refl eq_refl)
                    ltac:(discriminate))).
  - apply (proj1 (proj2 (proj2 (BirdDetection_init_accepts noon_plus_5 "A"
                                  (Coord3D.mk 400 0 100) (Velocity3D.mk 0 0 0) eleven 1
                                  eq_refl eq_refl eq_refl)))).
    repeat split; vm_compute; discriminate.
Defined.

(** The query of scenario 1 with the bird's [vx] a negative zero. *)
Definition query_1_negative_zero : RiskQuery :=
  RiskQuery.mk own_ship
    [BirdDetection.mk "A" (Coord3D.mk 400 0 100) (Velocity3D.mk (-0) 0 0) noon 1].

Definition reference_hash : RiskQuery -> string :=
  compute_input_hash json_floatstr py_encode_basestring_ascii SHA256.hexdigest.

(** The query of scenario 1 with the aircraft's timestamp aware: noon UTC,
    and the same instant an hour east of UTC. *)
Definition noon_utc : datetime := datetime.mk 2025 11 30 12 0 0 0 (Some 0%Z).
Definition one_pm_utc_plus_1 : datetime :=
  datetime.mk 2025 11 30 13 0 0 0 (Some 3600000000%Z).

Definition query_1_utc : RiskQuery :=
  RiskQuery.mk (scenario_aircraft "N123" 90 100 noon_utc) [bird_A].

Definition query_1_utc_plus_1 : RiskQuery :=
  RiskQuery.mk (scenario_aircraft "N123" 90 100 one_pm_utc_plus_1) [bird_A].

(** C8 as stated fails: the query of scenario 1 and the same with a
    negative zero as the bird's [vx] are equal and have different hashes, and
    so have two queries whose aircraft timestamps are the same instant under
    two offsets. *)
Lemma equal_queries_hash_apart :
  (RiskQuery_eq query_1 query_1_negative_zero = true /\
   reference_hash query_1
   = "7dae21a533a0e4296e4f1a7f7cccf6393231a210d7bce7fa679b4e3a63519b41" /\
   reference_hash query_1_negative_zero
   = "49808214fc573f97ea124533d2d98744a4a1e3b9630ac8ee442dc2e7681d43e7" /\
   reference_hash query_1 <> reference_hash query_1_negative_zero) /\
  (RiskQuery_eq query_1_utc query_1_utc_plus_1 = true /\
   reference_hash query_1_utc
   = "7c62fb53b0970732e9cdc25553316b912d05be23421436dfdcac403c16db59af" /\
   reference_hash query_1_utc_plus_1
   = "8d7cf0480fc8be3bd5e5292b45b3f726e477fbe347c74188dac841e1ff6e7e82" /\
   reference_hash query_1_utc <> reference_hash query_1_utc_plus_1).
Proof.
  assert (E1 : reference_hash query_1
               = "7dae21a533a0e4296e4f1a7f7cccf6393231a210d7bce7fa679b4e3a63519b41")
    by (vm_compute; reflexivity).
  assert (E2 : reference_hash query_1_negative_zero
               = "49808214fc573f97ea124533d2d98744a4a1e3b9630ac8ee442dc2e7681d43e7")
    by (vm_compute; reflexivity).
  assert (E3 : reference_hash query_1_utc
               = "7c62fb53b0970732e9cdc25553316b912d05be23421436dfdcac403c16db59af")
    by (vm_compute; reflexivity).
  assert (E4 : reference_hash query_1_utc_plus_1
               = "8d7cf0480fc8be3bd5e5292b45b3f726e477fbe347c74188dac841e1ff6e7e82")
    by (vm_compute; reflexivity).
  split; (split; [vm_compute; reflexivity|]); (split; [assumption|]);
    (split; [assumption|]).
  - rewrite E1, E2. discriminate.
  - rewrite E3, E4. discriminate.
Qed.

(** Two equal queries with the same signs and offsets: the confidence of
    the bird is written [1] in one and computed in the other. *)
Definition query_1_computed : RiskQuery :=
  RiskQuery.mk own_ship [hovering_bird "A" 400 noon (0.5 + 0.5)].

(** They have the same hash, the digest of the canonical text. *)
Lemma equal_signed_queries_hash_alike :
  reference_hash query_1 = reference_hash query_1_computed /\
  reference_hash query_1
  = SHA256.hexdigest
      (canonical_json json_floatstr py_encode_basestring_ascii query_1).
Proof.
  pose proof (compute_input_hash_deterministic json_floatstr
                py_encode_basestring_ascii SHA256.hexdigest) as (H1 & H2 & _).
  split.
  - exact (H1 query_1 query_1_computed eq_refl eq_refl eq_refl).
  - exact (H2 query_1).
Defined.

(** The text of an aware timestamp whose offset has seconds and
    microseconds. *)
Example datetime_str_aware :
  datetime_str (datetime.mk 2025 1 2 3 4 5 678 (Some (-19807000009)%Z))
  = "2025-01-02 03:04:05.000678-05:30:07.000009".
Proof. vm_compute. reflexivity. Qed.
